(** * ApexView backend: a shallow embedding of [backend/main.py]

    The resolvers of the F1 dashboard backend read two upstream providers
    (f1api.dev and OpenF1), reduce what they get to pydantic records and fall
    back to static values on any fault.  The embedding keeps the dynamic
    typing of the source: upstream data are JSON values, every Python
    operation that can raise returns a [result], and the resolvers run in a
    small monad that threads the log of upstream calls and the pending
    exception. *)

From Stdlib Require Import ZArith QArith Qround Qabs Lqa List String Ascii Bool Lia.
From Stdlib Require Import Sorted Permutation DecimalString DecimalZ.
From Stdlib Require Import OrderedTypeEx.
From Stdlib Require Qcanon.
Import ListNotations.

Local Open Scope string_scope.
Local Open Scope Z_scope.

Set Warnings "-register-all".

(** ** JSON values, as [response.json()] hands them to the resolvers *)

(** [JInt] is a Python [int], [JFloat] a Python [float]; a float is
    represented by the (finite) rational it denotes. *)
Inductive json : Type :=
| JNull
| JBool (b : bool)
| JInt (n : Z)
| JFloat (x : Q)
| JStr (s : string)
| JArr (items : list json)
| JObj (fields : list (string * json)).

(** ** Exceptions and results *)

Inductive exn : Type :=
| KeyError | TypeError | ValueError | AttributeError
| IndexError | NameError | ValidationError | OverflowError.

Inductive result (A : Type) : Type :=
| Ok (a : A)
| Raise (e : exn).
Arguments Ok {A} a.
Arguments Raise {A} e.

Definition rbind {A B} (r : result A) (k : A -> result B) : result B :=
  match r with
  | Ok a => k a
  | Raise e => Raise e
  end.

Declare Scope result_scope.
Delimit Scope result_scope with result.
Notation "x <- r ;; k" := (rbind r (fun x => k))
  (at level 61, r at next level, right associativity) : result_scope.

(** ** Python dicts

    A dict is the list of its entries in insertion order; [eqb] is the
    equality of its keys. *)

Section Assoc.
Context {K V : Type} (eqb : K -> K -> bool).

(** [d.get(k)] *)
Fixpoint afind (k : K) (d : list (K * V)) : option V :=
  match d with
  | [] => None
  | (k', v) :: d' => if eqb k k' then Some v else afind k d'
  end.

(** [k in d] *)
Definition amem (k : K) (d : list (K * V)) : bool :=
  match afind k d with
  | Some _ => true
  | None => false
  end.

(** [d[k] = v]: an existing entry keeps its place and its key. *)
Fixpoint aset (k : K) (v : V) (d : list (K * V)) : list (K * V) :=
  match d with
  | [] => [(k, v)]
  | (k', v') :: d' =>
      if eqb k k' then (k', v) :: d' else (k', v') :: aset k v d'
  end.

(** [d[k] = f(d[k])] for a key that is present. *)
Fixpoint aupdate (k : K) (f : V -> V) (d : list (K * V)) : list (K * V) :=
  match d with
  | [] => []
  | (k', v') :: d' =>
      if eqb k k' then (k', f v') :: d' else (k', v') :: aupdate k f d'
  end.

End Assoc.

(** ** The Python operations the resolvers apply to JSON values *)

Module Py.

Fixpoint assoc {V} (k : string) (fs : list (string * V)) : option V :=
  match fs with
  | [] => None
  | (k', v) :: fs' => if String.eqb k k' then Some v else assoc k fs'
  end.

(** [k in d] for a JSON object [d]. *)
Definition amem_str (k : string) (fs : list (string * json)) : bool :=
  match assoc k fs with
  | Some _ => true
  | None => false
  end.

(** [bool(j)] *)
Definition truthy (j : json) : bool :=
  match j with
  | JNull => false
  | JBool b => b
  | JInt n => negb (n =? 0)
  | JFloat x => negb (Qeq_bool x 0)
  | JStr s => negb (String.eqb s "")
  | JArr l => match l with [] => false | _ => true end
  | JObj f => match f with [] => false | _ => true end
  end.

(** [j.get(k, default)]: only a dict has the method. *)
Definition get (j : json) (k : string) (default : json) : result json :=
  match j with
  | JObj f => Ok (match assoc k f with Some v => v | None => default end)
  | _ => Raise AttributeError
  end.

(** [j[k]] for a string key [k]. *)
Definition getitem (j : json) (k : string) : result json :=
  match j with
  | JObj f => match assoc k f with Some v => Ok v | None => Raise KeyError end
  | _ => Raise TypeError
  end.

(** The numeric value of a bool, int or float. *)
Definition num_of (j : json) : option Q :=
  match j with
  | JBool b => Some (if b then 1%Q else 0%Q)
  | JInt n => Some (inject_Z n)
  | JFloat x => Some x
  | _ => None
  end.

Definition Qlt_bool (x y : Q) : bool := negb (Qle_bool y x).

(** [a == b] *)
Fixpoint eq (a b : json) {struct a} : bool :=
  match a, b with
  | JNull, JNull => true
  | JStr s, JStr t => String.eqb s t
  | JArr l, JArr m =>
      (fix go (l m : list json) : bool :=
         match l, m with
         | [], [] => true
         | x :: l', y :: m' => eq x y && go l' m'
         | _, _ => false
         end) l m
  | JObj f, JObj g =>
      Nat.eqb (List.length f) (List.length g) &&
      (fix go (f : list (string * json)) : bool :=
         match f with
         | [] => true
         | (k, v) :: f' =>
             match assoc k g with
             | Some w => eq v w
             | None => false
             end && go f'
         end) f
  | _, _ =>
      match num_of a, num_of b with
      | Some x, Some y => Qeq_bool x y
      | _, _ => false
      end
  end.

(** [a < b]; numbers compare by value, strings and lists
    lexicographically, anything else is a [TypeError]. *)
Fixpoint lt (a b : json) {struct a} : result bool :=
  match a, b with
  | JStr s, JStr t => Ok (String.ltb s t)
  | JArr l, JArr m =>
      (fix go (l m : list json) : result bool :=
         match l, m with
         | [], [] => Ok false
         | [], _ :: _ => Ok true
         | _ :: _, [] => Ok false
         | x :: l', y :: m' => if eq x y then go l' m' else lt x y
         end) l m
  | _, _ =>
      match num_of a, num_of b with
      | Some x, Some y => Ok (Qlt_bool x y)
      | _, _ => Raise TypeError
      end
  end.

(** [a > b] *)
Definition gt (a b : json) : result bool := lt b a.

Fixpoint contains (sub s : string) : bool :=
  prefix sub s ||
  match s with
  | EmptyString => false
  | String _ s' => contains sub s'
  end.

(** [needle in hay] for a string [needle]. *)
Definition in_ (needle : string) (hay : json) : result bool :=
  match hay with
  | JStr s => Ok (contains needle s)
  | JArr l => Ok (existsb (eq (JStr needle)) l)
  | JObj f => Ok (match assoc needle f with Some _ => true | None => false end)
  | _ => Raise TypeError
  end.

Fixpoint replace_char (c : ascii) (by_ : string) (s : string) : string :=
  match s with
  | EmptyString => EmptyString
  | String a s' =>
      if Ascii.eqb a c then by_ ++ replace_char c by_ s'
      else String a (replace_char c by_ s')
  end.

(** [j.replace(c, by_)]: a [str] method. *)
Definition replace (j : json) (c : ascii) (by_ : string) : result string :=
  match j with
  | JStr s => Ok (replace_char c by_ s)
  | _ => Raise AttributeError
  end.

(** [s.endswith(c)] *)
Fixpoint endswith (s : string) (c : ascii) : bool :=
  match s with
  | EmptyString => false
  | String a EmptyString => Ascii.eqb a c
  | String _ s' => endswith s' c
  end.

(** [iter(j)]: the elements of a list, the keys of a dict, the
    characters of a string. *)
Fixpoint chars (s : string) : list json :=
  match s with
  | EmptyString => []
  | String a s' => JStr (String a EmptyString) :: chars s'
  end.

Definition iter (j : json) : result (list json) :=
  match j with
  | JArr l => Ok l
  | JObj f => Ok (map (fun kv => JStr (fst kv)) f)
  | JStr s => Ok (chars s)
  | _ => Raise TypeError
  end.

(** [j[:n]] *)
Definition slice_to (n : nat) (j : json) : result json :=
  match j with
  | JArr l => Ok (JArr (firstn n l))
  | JStr s => Ok (JStr (substring 0 n s))
  | _ => Raise TypeError
  end.

(** [j[0]] *)
Definition first (j : json) : result json :=
  match j with
  | JArr (x :: _) => Ok x
  | JArr [] => Raise IndexError
  | JStr (String a _) => Ok (JStr (String a EmptyString))
  | JStr EmptyString => Raise IndexError
  | JObj _ => Raise KeyError
  | _ => Raise TypeError
  end.

(** Dict keys: a list or a dict is unhashable. *)
Definition hashable (j : json) : bool :=
  match j with
  | JArr _ | JObj _ => false
  | _ => true
  end.

(** A Python dict keyed by JSON values: keys compared with [==]. *)
Definition dict (V : Type) : Type := list (json * V).

Definition find {V} (k : json) (d : dict V) : option V := afind eq k d.

Definition set {V} (k : json) (v : V) (d : dict V) : dict V :=
  aset eq k v d.

(** [d.get(k)]; hashing [k] comes first. *)
Definition lookup {V} (k : json) (d : dict V) : result (option V) :=
  if hashable k then Ok (find k d) else Raise TypeError.

(** [str(n)] for an int. *)
Definition str_of_Z (n : Z) : string := NilZero.string_of_int (Z.to_int n).

End Py.

(** ** Number formatting *)

Module Fmt.

Fixpoint zeros (n : nat) : string :=
  match n with
  | O => EmptyString
  | S n' => String "0" (zeros n')
  end.

(** [s.zfill(w)] for an unsigned [s]. *)
Definition zfill (w : nat) (s : string) : string :=
  zeros (w - String.length s) ++ s.

(** ["%0wd" % n] for [0 <= n]. *)
Definition pad0 (w : nat) (n : Z) : string := zfill w (Py.str_of_Z n).

(** Rounding to the nearest integer, ties to even: what the [f]
    presentation type does with the exact value of a float. *)
Definition round_half_even (x : Q) : Z :=
  let f := Qfloor x in
  match Qcompare (x - inject_Z f) (1 # 2) with
  | Lt => f
  | Gt => f + 1
  | Eq => if Z.even f then f else f + 1
  end.

(** [format(x, "0w.pf")] *)
Definition fixed (w p : nat) (x : Q) : string :=
  let scale := 10 ^ Z.of_nat p in
  let n := round_half_even (Qabs x * inject_Z scale) in
  let body := Py.str_of_Z (n / scale) ++ "." ++ pad0 p (n mod scale) in
  if Py.Qlt_bool x 0 then "-" ++ zfill (w - 1) body else zfill w body.

End Fmt.

(** ** Floats

    A [JFloat x] stands for the finite double whose exact value is [x]; the
    arithmetic of doubles rounds each result to binary64, to nearest, ties
    to even. *)

Module Double.

(** The exponent of the leading bit of a positive rational. *)
Definition floor_log2 (a : Q) : Z :=
  let n := Qnum a in
  let d := Zpos (Qden a) in
  let k := Z.log2 n - Z.log2 d in
  if (if 0 <=? k then d * 2 ^ k <=? n else d <=? n * 2 ^ (- k))
  then k else k - 1.

(** The exponent of the unit in the last place: 53 significant bits, and
    nothing finer than the subnormals. *)
Definition ulp_exponent (a : Q) : Z := Z.max (-1074) (floor_log2 a - 52).

(** The double nearest to [x].  The exponent is not bounded above: a
    result of magnitude 2^1024 or more stands for an overflow. *)
Definition round (x : Q) : Q :=
  let x := Qred x in
  if Qeq_bool x 0 then 0
  else
    let e := ulp_exponent (Qabs x) in
    if 0 <=? e then
      inject_Z (Fmt.round_half_even (x / inject_Z (2 ^ e)) * 2 ^ e)
    else
      Qred (Fmt.round_half_even (x * inject_Z (2 ^ (- e)))
            # Z.to_pos (2 ^ (- e))).

Definition overflows (x : Q) : bool :=
  Qle_bool (inject_Z (2 ^ 1024)) (Qabs x).

(** C's [fmod(vx, wx)] for [0 < wx]: exact, with the sign of [vx]. *)
Definition fmod (vx wx : Q) : Q :=
  let a := Qabs vx in
  let r := (a - wx * inject_Z (Qfloor (a / wx)))%Q in
  if Py.Qlt_bool vx 0 then (- r)%Q else r.

(** [vx // wx] for [0 < wx], as [float_divmod] computes it: the quotient
    of the rounded difference [vx - fmod(vx, wx)], rounded, and snapped to
    an integral value. *)
Definition floordiv (vx wx : Q) : Q :=
  let m := fmod vx wx in
  let div := round (round (vx - m) / wx) in
  let div := if Py.Qlt_bool m 0 then round (div - 1) else div in
  let floordiv := inject_Z (Qfloor div) in
  if Py.Qlt_bool (1 # 2) (div - floordiv) then round (floordiv + 1)
  else floordiv.

(** [vx % wx] for [0 < wx]: the remainder takes the sign of [wx]. *)
Definition rem (vx wx : Q) : Q :=
  let m := fmod vx wx in
  if Py.Qlt_bool m 0 then round (m + wx) else m.

(** [float(n)] for an int. *)
Definition of_int (n : Z) : result Q :=
  let x := round (inject_Z n) in
  if overflows x then Raise OverflowError else Ok x.

End Double.

(** ** [datetime] and [timedelta] *)

Module Datetime.

(** [tzinfo] is the UTC offset in microseconds; [None] is a naive
    datetime. *)
Record t : Type := mk {
  year : Z; month : Z; day : Z;
  hour : Z; minute : Z; second : Z; microsecond : Z;
  tzinfo : option Z
}.

Record timedelta : Type := mkdelta {
  days : Z; seconds : Z; microseconds : Z
}.

Definition is_leap (y : Z) : bool :=
  (y mod 4 =? 0) && (negb (y mod 100 =? 0) || (y mod 400 =? 0)).

Definition days_before_year (y : Z) : Z :=
  let y := y - 1 in y * 365 + y / 4 - y / 100 + y / 400.

Definition days_before_month (y m : Z) : Z :=
  nth (Z.to_nat m) [0; 0; 31; 59; 90; 120; 151; 181; 212; 243; 273; 304; 334] 0
  + (if (2 <? m) && is_leap y then 1 else 0).

Definition toordinal (d : t) : Z :=
  days_before_year (year d) + days_before_month (year d) (month d) + day d.

(** [timedelta(days=d, seconds=s, microseconds=us)] *)
Definition normalize (d s us : Z) : timedelta :=
  let s := s + us / 1000000 in
  let d := d + s / 86400 in
  mkdelta d (s mod 86400) (us mod 1000000).

Definition seconds_of_day (d : t) : Z :=
  second d + minute d * 60 + hour d * 3600.

(** [a - b] *)
Definition sub (a b : t) : result timedelta :=
  let dd := toordinal a - toordinal b in
  let ds := seconds_of_day a - seconds_of_day b in
  let du := microsecond a - microsecond b in
  match tzinfo a, tzinfo b with
  | None, None => Ok (normalize dd ds du)
  | Some oa, Some ob => Ok (normalize dd ds (du + ob - oa))
  | _, _ => Raise TypeError
  end.

(** [td.total_seconds() < 0] *)
Definition negative (td : timedelta) : bool := days td <? 0.

Definition fields (d : t) : list Z :=
  [year d; month d; day d; hour d; minute d; second d; microsecond d].

Fixpoint lex_lt (a b : list Z) : bool :=
  match a, b with
  | x :: a', y :: b' => (x <? y) || ((x =? y) && lex_lt a' b')
  | _, _ => false
  end.

(** [a < b]: naive datetimes compare by fields, aware ones by their
    difference, a naive one against an aware one raises. *)
Definition lt (a b : t) : result bool :=
  match tzinfo a, tzinfo b with
  | None, None => Ok (lex_lt (fields a) (fields b))
  | Some _, Some _ =>
      match sub a b with
      | Ok td => Ok (negative td)
      | Raise e => Raise e
      end
  | _, _ => Raise TypeError
  end.

(** [a > b] *)
Definition gt (a b : t) : result bool := lt b a.

(** [d.replace(tzinfo=timezone.utc)] *)
Definition as_utc (d : t) : t :=
  mk (year d) (month d) (day d) (hour d) (minute d) (second d)
     (microsecond d) (Some 0).

(** [d.strftime('%Y-%m-%d %H:%M UTC')] *)
Definition strftime (d : t) : string :=
  Fmt.pad0 4 (year d) ++ "-" ++ Fmt.pad0 2 (month d) ++ "-"
  ++ Fmt.pad0 2 (day d) ++ " " ++ Fmt.pad0 2 (hour d) ++ ":"
  ++ Fmt.pad0 2 (minute d) ++ " UTC".

Definition format_offset (o : Z) : string :=
  let a := Z.abs o in
  let ss := (a mod 60000000) / 1000000 in
  let us := a mod 1000000 in
  (if o <? 0 then "-" else "+")
  ++ Fmt.pad0 2 (a / 3600000000) ++ ":"
  ++ Fmt.pad0 2 ((a mod 3600000000) / 60000000)
  ++ (if (ss =? 0) && (us =? 0) then ""
      else ":" ++ Fmt.pad0 2 ss
           ++ (if us =? 0 then "" else "." ++ Fmt.pad0 6 us)).

(** [d.isoformat()] *)
Definition isoformat (d : t) : string :=
  Fmt.pad0 4 (year d) ++ "-" ++ Fmt.pad0 2 (month d) ++ "-"
  ++ Fmt.pad0 2 (day d) ++ "T" ++ Fmt.pad0 2 (hour d) ++ ":"
  ++ Fmt.pad0 2 (minute d) ++ ":" ++ Fmt.pad0 2 (second d)
  ++ (if microsecond d =? 0 then "" else "." ++ Fmt.pad0 6 (microsecond d))
  ++ match tzinfo d with
     | Some o => format_offset o
     | None => ""
     end.

End Datetime.

(** ** What the model takes from the Python runtime

    [datetime.fromisoformat] ([None] stands for its [ValueError]), [float]
    on a string, and [str] on a float, a list or a dict are library code;
    the resolvers are modelled for any of them. *)

Class Runtime : Type := {
  fromisoformat : string -> option Datetime.t;
  float_of_str : string -> option Q;
  repr_other : json -> string
}.

Section PythonValues.
Context {rt : Runtime}.

(** [str(j)], as an f-string renders [j]. *)
Definition py_str (j : json) : string :=
  match j with
  | JNull => "None"
  | JBool true => "True"
  | JBool false => "False"
  | JInt n => Py.str_of_Z n
  | JStr s => s
  | _ => repr_other j
  end.

(** [float(j)]: an int is rounded to the nearest double, and one too large
    for a double raises. *)
Definition py_float (j : json) : result Q :=
  match j with
  | JStr s =>
      match float_of_str s with
      | Some x => Ok x
      | None => Raise ValueError
      end
  | JInt n => Double.of_int n
  | _ =>
      match Py.num_of j with
      | Some x => Ok x
      | None => Raise TypeError
      end
  end.

(** [datetime.fromisoformat(s)] *)
Definition parse_iso (s : string) : result Datetime.t :=
  match fromisoformat s with
  | Some d => Ok d
  | None => Raise ValueError
  end.

End PythonValues.

(** ** The pydantic models (lines 32-69)

    A [str] field takes a string and nothing else; anything else is a
    validation error. *)

Definition validate_str (j : json) : result string :=
  match j with
  | JStr s => Ok s
  | _ => Raise ValidationError
  end.

Module Driver.
Record t : Type := mk {
  position : Z;
  driver_name : string;
  abbreviation : string;
  team : string;
  points : Q
}.
End Driver.

Module Team.
Record t : Type := mk {
  position : Z;
  team_name : string;
  points : Q
}.
End Team.

Module NextRace.
Record t : Type := mk {
  race_name : string;
  location : string;
  country : string;
  date : string;
  time_left : string
}.
End NextRace.

Module FastestLap.
Record t : Type := mk {
  driver_name : string;
  abbreviation : string;
  team : string;
  lap_time : string;
  race_name : string;
  date : string;
  sector_times : list Q
}.
End FastestLap.

(** ** The static tables (lines 72-108) *)

Definition POINTS_SYSTEM : list (Z * Z) :=
  [(1, 25); (2, 18); (3, 15); (4, 12); (5, 10);
   (6, 8); (7, 6); (8, 4); (9, 2); (10, 1)].

Record DriverInfo : Type := mkInfo {
  name : string;
  abbr : string;
  info_team : string
}.

Definition DRIVER_INFO : list (Z * DriverInfo) :=
  [(1, mkInfo "Max Verstappen" "VER" "Red Bull Racing");
   (22, mkInfo "Yuki Tsunoda" "TSU" "Red Bull Racing");
   (16, mkInfo "Charles Leclerc" "LEC" "Ferrari");
   (44, mkInfo "Lewis Hamilton" "HAM" "Ferrari");
   (63, mkInfo "George Russell" "RUS" "Mercedes");
   (12, mkInfo "Kimi Antonelli" "ANT" "Mercedes");
   (4, mkInfo "Lando Norris" "NOR" "McLaren");
   (81, mkInfo "Oscar Piastri" "PIA" "McLaren");
   (14, mkInfo "Fernando Alonso" "ALO" "Aston Martin");
   (18, mkInfo "Lance Stroll" "STR" "Aston Martin");
   (10, mkInfo "Pierre Gasly" "GAS" "Alpine");
   (43, mkInfo "Franco Colapinto" "COL" "Alpine");
   (31, mkInfo "Esteban Ocon" "OCO" "Haas");
   (87, mkInfo "Oliver Bearman" "BEA" "Haas");
   (27, mkInfo "Niko Hulkenberg" "HUL" "Kick Sauber");
   (5, mkInfo "Gabriel Bortoleto" "BOR" "Kick Sauber");
   (23, mkInfo "Alexander Albon" "ALB" "Williams");
   (2, mkInfo "Logan Sargeant" "SAR" "Williams");
   (55, mkInfo "Carlos Sainz" "SAI" "Williams");
   (30, mkInfo "Liam Lawson" "LAW" "Racing Bulls");
   (6, mkInfo "Isack Hadjar" "HAD" "Racing Bulls")].

(** A dict with int keys, read at a JSON key: [1], [1.0] and [True] are
    the same key, a list or a dict cannot be hashed. *)
Fixpoint int_table_find {V} (q : Q) (tbl : list (Z * V)) : option V :=
  match tbl with
  | [] => None
  | (k, v) :: tbl' =>
      if Qeq_bool q (inject_Z k) then Some v else int_table_find q tbl'
  end.

Definition int_table_get {V} (tbl : list (Z * V)) (k : json) (default : V)
  : result V :=
  if Py.hashable k then
    Ok (match Py.num_of k with
        | Some q =>
            match int_table_find q tbl with
            | Some v => v
            | None => default
            end
        | None => default
        end)
  else Raise TypeError.

(** ** The clock *)

(** [datetime.now().year] and [datetime.now(timezone.utc)]. *)
Record Clock : Type := {
  current_year : Z;
  utcnow : Datetime.t
}.

Definition now (c : Clock) : Datetime.t := Datetime.as_utc (utcnow c).

(** ** [calculate_time_left] (lines 110-143) *)

Section TimeLeft.
Context {rt : Runtime} (clock : Clock).

Local Open Scope result_scope.

(** Lines 114-123 *)
Definition target (race_datetime : string) : result Datetime.t :=
  race_dt <-
    (if Py.contains "T" race_datetime then
       if Py.endswith race_datetime "Z" then
         parse_iso (Py.replace_char "Z" "+00:00" race_datetime)
       else parse_iso race_datetime
     else parse_iso (race_datetime ++ "T00:00:00+00:00")) ;;
  Ok (match Datetime.tzinfo race_dt with
      | None => Datetime.as_utc race_dt
      | Some _ => race_dt
      end).

(** Lines 125-140 *)
Definition calculate_time_left_body (race_datetime : string)
  : result string :=
  race_dt <- target race_datetime ;;
  time_left <- Datetime.sub race_dt (now clock) ;;
  if Datetime.negative time_left then Ok "Race completed"
  else
    let days := Datetime.days time_left in
    let hours := Datetime.seconds time_left / 3600 in
    let remainder := Datetime.seconds time_left mod 3600 in
    let minutes := remainder / 60 in
    if 0 <? days then
      Ok (Py.str_of_Z days ++ " days, " ++ Py.str_of_Z hours ++ " hours")
    else if 0 <? hours then
      Ok (Py.str_of_Z hours ++ " hours, " ++ Py.str_of_Z minutes
          ++ " minutes")
    else Ok (Py.str_of_Z minutes ++ " minutes").

Definition calculate_time_left (race_datetime : string) : string :=
  match calculate_time_left_body race_datetime with
  | Ok s => s
  | Raise _ => "Unknown"
  end.

End TimeLeft.

(** ** The Source Gateway and the resolver monad

    [fetch_from_f1api_dev] (lines 145-154) returns a JSON object or [None],
    [fetch_from_openf1] (lines 156-165) a JSON array or [None]; both turn
    every fault of their own into [None].  An answer may depend on the calls
    made before it. *)

Inductive f1api_endpoint : Type :=
| StandingsDrivers (year : Z)     (* "{year}/standings/drivers" *)
| StandingsTeams (year : Z)       (* "{year}/standings/teams" *)
| Season (year : Z).              (* "{year}" *)

Inductive openf1_endpoint : Type :=
| Sessions (year : Z)             (* "sessions?session_type=Race&year={year}" *)
| Position (session_key : json)   (* "position?session_key={session_key}" *)
| Laps (session_key : json)       (* "laps?session_key={session_key}" *)
| Meetings (year : Z).            (* "meetings?year={year}" *)

Inductive call : Type :=
| F1Api (e : f1api_endpoint)
| OpenF1 (e : openf1_endpoint).

Record Gateway : Type := {
  f1api_dev : list call -> f1api_endpoint -> option (list (string * json));
  openf1 : list call -> openf1_endpoint -> option (list json)
}.

(** A computation reads the log of the calls made so far and returns a value
    or a pending exception, with the extended log. *)
Definition M (A : Type) : Type := list call -> result A * list call.

Definition ret {A} (a : A) : M A := fun log => (Ok a, log).

Definition raise {A} (e : exn) : M A := fun log => (Raise e, log).

Definition bind {A B} (m : M A) (k : A -> M B) : M B :=
  fun log =>
    match m log with
    | (Ok a, log') => k a log'
    | (Raise e, log') => (Raise e, log')
    end.

Definition lift {A} (r : result A) : M A := fun log => (r, log).

(** [try: body / except Exception: handler] *)
Definition try_except {A} (body handler : M A) : M A :=
  fun log =>
    match body log with
    | (Ok a, log') => (Ok a, log')
    | (Raise _, log') => handler log'
    end.

Declare Scope M_scope.
Delimit Scope M_scope with M.
Notation "x <- m ;; k" := (bind m (fun x => k))
  (at level 61, m at next level, right associativity) : M_scope.

Definition fetch_from_f1api_dev (gw : Gateway) (e : f1api_endpoint)
  : M (option (list (string * json))) :=
  fun log => (Ok (f1api_dev gw log e), (log ++ [F1Api e])%list).

Definition fetch_from_openf1 (gw : Gateway) (e : openf1_endpoint)
  : M (option (list json)) :=
  fun log => (Ok (openf1 gw log e), (log ++ [OpenF1 e])%list).

(** [if not xs] on what a fetch returned. *)
Definition nothing {A} (xs : option (list A)) : bool :=
  match xs with
  | Some (_ :: _) => false
  | _ => true
  end.

Definition items {A} (xs : option (list A)) : list A :=
  match xs with
  | Some l => l
  | None => []
  end.

(** ** Python's stable [sorted] *)

Section Sorted.
Context {A K : Type} (lt : K -> K -> bool) (key : A -> K).

(** [x], which stood before every element of [l], goes in front of
    the first element that is not smaller. *)
Fixpoint insert (x : A) (l : list A) : list A :=
  match l with
  | [] => [x]
  | y :: l' => if lt (key y) (key x) then y :: insert x l' else x :: l
  end.

(** [sorted(l, key=key)] for an order [lt] on the keys;
    [reverse=True] is the converse order. *)
Fixpoint sorted (l : list A) : list A :=
  match l with
  | [] => []
  | x :: l' => insert x (sorted l')
  end.

End Sorted.

Fixpoint enumerate {A} (i : Z) (l : list A) : list (Z * A) :=
  match l with
  | [] => []
  | x :: l' => (i, x) :: enumerate (i + 1) l'
  end.

(** ** The Standings Derivation Unit (lines 167-272) *)

(** [get_fallback_standings] (lines 258-272) *)
Definition get_fallback_standings : list Driver.t * list Team.t :=
  ([Driver.mk 1 "Max Verstappen" "VER" "Red Bull Racing" 393;
    Driver.mk 2 "Lando Norris" "NOR" "McLaren" 331;
    Driver.mk 3 "Charles Leclerc" "LEC" "Ferrari" 307],
   [Team.mk 1 "Red Bull Racing" 860;
    Team.mk 2 "McLaren" 608;
    Team.mk 3 "Ferrari" 584]).

(** The accumulators: [driver_points], keyed by
    [(driver_number, driver_info['name'])], and [team_points], keyed by the
    team name. *)
Definition driver_key : Type := json * string.

Definition driver_key_eqb (a b : driver_key) : bool :=
  Py.eq (fst a) (fst b) && String.eqb (snd a) (snd b).

Definition driver_points_t : Type := list (driver_key * (Z * DriverInfo)).
Definition team_points_t : Type := list (string * Z).

Section Standings.
Context {rt : Runtime} (gw : Gateway) (clock : Clock).

Local Open Scope result_scope.

(** Lines 196-200: the last position update of each driver. *)
Fixpoint final_positions_loop (positions : list json)
    (final_positions : Py.dict json) : result (Py.dict json) :=
  match positions with
  | [] => Ok final_positions
  | pos :: rest =>
      driver_number <- Py.getitem pos "driver_number" ;;
      seen <- Py.lookup driver_number final_positions ;;
      later <-
        match seen with
        | None => Ok true
        | Some kept =>
            d <- Py.getitem pos "date" ;;
            d' <- Py.getitem kept "date" ;;
            Py.gt d d'
        end ;;
      final_positions_loop rest
        (if later then Py.set driver_number pos final_positions
         else final_positions)
  end.

(** The default of [DRIVER_INFO.get] (lines 205-209). *)
Definition unknown_driver (driver_number : json) : DriverInfo :=
  mkInfo ("Driver " ++ py_str driver_number)
         ("D" ++ py_str driver_number) "Unknown".

(** Lines 204-226: the points of one final position. *)
Definition award (entry : json * json)
    (acc : driver_points_t * team_points_t)
  : result (driver_points_t * team_points_t) :=
  let (driver_number, pos_data) := entry in
  let (driver_points, team_points) := acc in
  position <- Py.getitem pos_data "position" ;;
  driver_info <-
    int_table_get DRIVER_INFO driver_number (unknown_driver driver_number) ;;
  points <- int_table_get POINTS_SYSTEM position 0 ;;
  let driver_key := (driver_number, name driver_info) in
  let driver_points :=
    if amem driver_key_eqb driver_key driver_points then driver_points
    else aset driver_key_eqb driver_key (0, driver_info) driver_points in
  let driver_points :=
    aupdate driver_key_eqb driver_key
      (fun data => (fst data + points, snd data)) driver_points in
  let team_name := info_team driver_info in
  let team_points :=
    if amem String.eqb team_name team_points then team_points
    else aset String.eqb team_name 0 team_points in
  let team_points :=
    aupdate String.eqb team_name (fun p => p + points) team_points in
  Ok (driver_points, team_points).

Fixpoint award_loop (final_positions : Py.dict json)
    (acc : driver_points_t * team_points_t)
  : result (driver_points_t * team_points_t) :=
  match final_positions with
  | [] => Ok acc
  | entry :: rest => acc' <- award entry acc ;; award_loop rest acc'
  end.

(** Lines 229-239.  [float] of a points total is written as the total
    itself, which is what it is below 2^53: a session adds at most 25 to a
    total. *)
Definition top_drivers (driver_points : driver_points_t) : list Driver.t :=
  let sorted_drivers :=
    sorted Z.gtb (fun x => fst (snd x)) driver_points in
  map (fun ix =>
         let data := snd (snd ix) in
         Driver.mk (fst ix + 1) (name (snd data)) (abbr (snd data))
                   (info_team (snd data)) (inject_Z (fst data)))
      (enumerate 0 (firstn 10 sorted_drivers)).

(** Lines 242-250 *)
Definition top_teams (team_points : team_points_t) : list Team.t :=
  let sorted_teams := sorted Z.gtb snd team_points in
  map (fun ix =>
         Team.mk (fst ix + 1) (fst (snd ix)) (inject_Z (snd (snd ix))))
      (enumerate 0 (firstn 10 sorted_teams)).

Local Open Scope M_scope.

(** Lines 186-226 *)
Fixpoint sessions_loop (sessions : list json)
    (acc : driver_points_t * team_points_t)
  : M (driver_points_t * team_points_t) :=
  match sessions with
  | [] => ret acc
  | session :: rest =>
      session_key <- lift (Py.getitem session "session_key") ;;
      positions <- fetch_from_openf1 gw (Position session_key) ;;
      if nothing positions then sessions_loop rest acc
      else
        final_positions <-
          lift (final_positions_loop (items positions) []) ;;
        acc' <- lift (award_loop final_positions acc) ;;
        sessions_loop rest acc'
  end.

Definition calculate_standings_from_results
  : M (list Driver.t * list Team.t) :=
  try_except
    (sessions <- fetch_from_openf1 gw (Sessions (current_year clock)) ;;
     sessions <-
       (if nothing sessions then
          fetch_from_openf1 gw (Sessions (current_year clock - 1))
        else ret sessions) ;;
     if nothing sessions then ret get_fallback_standings
     else
       acc <- sessions_loop (items sessions) ([], []) ;;
       ret (top_drivers (fst acc), top_teams (snd acc)))
    (ret get_fallback_standings).

Local Open Scope result_scope.

(** Lines 285-292 *)
Fixpoint drivers_of (i : Z) (standings : list json)
  : result (list Driver.t) :=
  match standings with
  | [] => Ok []
  | driver :: rest =>
      n <- Py.get driver "name" (JStr "Unknown") ;;
      n <- Py.get driver "driver_name" n ;;
      a <- Py.get driver "code" (JStr "UNK") ;;
      a <- Py.get driver "abbreviation" a ;;
      t <- Py.get driver "constructor" (JStr "Unknown") ;;
      t <- Py.get driver "team" t ;;
      p <- Py.get driver "points" (JInt 0) ;;
      p <- py_float p ;;
      n <- validate_str n ;;
      a <- validate_str a ;;
      t <- validate_str t ;;
      ds <- drivers_of (i + 1) rest ;;
      Ok (Driver.mk (i + 1) n a t p :: ds)
  end.

(** Lines 282-294 *)
Definition primary_drivers (data : list (string * json))
  : result (list Driver.t) :=
  standings <- Py.getitem (JObj data) "standings" ;;
  top <- Py.slice_to 10 standings ;;
  top <- Py.iter top ;;
  drivers_of 0 top.

(** Lines 314-319 *)
Fixpoint teams_of (i : Z) (standings : list json) : result (list Team.t) :=
  match standings with
  | [] => Ok []
  | team :: rest =>
      n <- Py.get team "name" (JStr "Unknown") ;;
      n <- Py.get team "team_name" n ;;
      p <- Py.get team "points" (JInt 0) ;;
      p <- py_float p ;;
      n <- validate_str n ;;
      ts <- teams_of (i + 1) rest ;;
      Ok (Team.mk (i + 1) n p :: ts)
  end.

(** Lines 311-321 *)
Definition primary_teams (data : list (string * json))
  : result (list Team.t) :=
  standings <- Py.getitem (JObj data) "standings" ;;
  top <- Py.slice_to 10 standings ;;
  top <- Py.iter top ;;
  teams_of 0 top.

(** [data and 'standings' in data], then the [try] block; [None] when
    the resolver goes on to the calculated standings. *)
Definition from_primary {A} (key : string)
    (read : list (string * json) -> result A)
    (data : option (list (string * json))) : option A :=
  if nothing data then None
  else if Py.amem_str key (items data) then
    match read (items data) with
    | Ok a => Some a
    | Raise _ => None
    end
  else None.

Local Open Scope M_scope.

(** Lines 274-301 *)
Definition fetch_driver_standings : M (list Driver.t) :=
  data <- fetch_from_f1api_dev gw (StandingsDrivers (current_year clock)) ;;
  match from_primary "standings" primary_drivers data with
  | Some top_drivers => ret top_drivers
  | None =>
      r <- calculate_standings_from_results ;;
      ret (fst r)
  end.

(** Lines 303-328 *)
Definition fetch_constructor_standings : M (list Team.t) :=
  data <- fetch_from_f1api_dev gw (StandingsTeams (current_year clock)) ;;
  match from_primary "standings" primary_teams data with
  | Some top_teams => ret top_teams
  | None =>
      r <- calculate_standings_from_results ;;
      ret (snd r)
  end.

End Standings.

(** ** The Next-Race Resolver (lines 330-433) *)

(** [min(l, key=key)] and [max(l, key=key)]: the first extremal element. *)
Section MinMax.
Context (better : json -> json -> result bool) (key : json -> result json).

Local Open Scope result_scope.

Fixpoint extremum_loop (best kbest : json) (l : list json) : result json :=
  match l with
  | [] => Ok best
  | x :: l' =>
      k <- key x ;;
      b <- better k kbest ;;
      if b then extremum_loop x k l' else extremum_loop best kbest l'
  end.

Definition extremum (l : list json) : result json :=
  match l with
  | [] => Raise ValueError
  | x :: l' => k <- key x ;; extremum_loop x k l'
  end.

End MinMax.

Definition py_max := extremum Py.gt.
Definition py_min := extremum Py.lt.

(** A list comprehension with a condition that can raise. *)
Fixpoint filter_r {A} (p : A -> result bool) (l : list A) : result (list A) :=
  match l with
  | [] => Ok []
  | x :: l' =>
      rbind (p x) (fun b =>
      rbind (filter_r p l') (fun r => Ok (if b then x :: r else r)))
  end.

(** The order [list.sort] and [sorted] use on datetimes and on JSON keys
    that compare without raising. *)
Definition datetime_lt (a b : Datetime.t) : bool :=
  match Datetime.lt a b with
  | Ok b => b
  | Raise _ => false
  end.

Definition json_lt (a b : json) : bool :=
  match Py.lt a b with
  | Ok b => b
  | Raise _ => false
  end.

Definition season_break : NextRace.t :=
  NextRace.mk "Season Break" "Checking for upcoming races..." "Unknown"
              "TBD" "Season break".

Section NextRaceResolver.
Context {rt : Runtime} (gw : Gateway) (clock : Clock).

Local Open Scope result_scope.

(** Lines 349-352 *)
Definition race_start (race_date : json) : result Datetime.t :=
  has_t <- Py.in_ "T" race_date ;;
  if has_t then
    s <- Py.replace race_date "Z" "+00:00" ;;
    parse_iso s
  else parse_iso (py_str race_date ++ "T15:00:00+00:00").

(** Line 385 *)
Definition meeting_start (meeting_date : json) : result Datetime.t :=
  s <- Py.replace meeting_date "Z" "+00:00" ;;
  parse_iso s.

(** The inner [try] of both loops (lines 347-358, 384-390): the start
    time when it parses and lies after [now]. *)
Definition upcoming (start : json -> result Datetime.t) (d : json)
  : option Datetime.t :=
  match (dt <- start d ;;
         after <- Datetime.gt dt (now clock) ;;
         Ok (if after then Some dt else None)) with
  | Ok r => r
  | Raise _ => None
  end.

(** Lines 343-358 and 380-390 *)
Fixpoint upcoming_loop (field : string) (start : json -> result Datetime.t)
    (entries : list json) : result (list (json * Datetime.t)) :=
  match entries with
  | [] => Ok []
  | entry :: rest =>
      d <- Py.get entry field (JStr "") ;;
      more <- upcoming_loop field start rest ;;
      Ok (if Py.truthy d then
            match upcoming start d with
            | Some dt => (entry, dt) :: more
            | None => more
            end
          else more)
  end.

(** Lines 340-371: the body of the first [try]. *)
Definition tier1 (data : list (string * json)) : result (option NextRace.t) :=
  races <- Py.getitem (JObj data) "races" ;;
  races <- Py.iter races ;;
  upcoming_races <- upcoming_loop "date" race_start races ;;
  match sorted datetime_lt snd upcoming_races with
  | [] => Ok None
  | (next_race, race_dt) :: _ =>
      n <- Py.get next_race "name" (JStr "Unknown") ;;
      n <- Py.get next_race "race_name" n ;;
      l <- Py.get next_race "circuit" (JStr "Unknown") ;;
      l <- Py.get next_race "location" l ;;
      c <- Py.get next_race "country" (JStr "Unknown") ;;
      n <- validate_str n ;;
      l <- validate_str l ;;
      c <- validate_str c ;;
      Ok (Some (NextRace.mk n l c (Datetime.strftime race_dt)
                  (calculate_time_left clock (Datetime.isoformat race_dt))))
  end.

(** Lines 380-403 *)
Definition tier2 (meetings : list json) : result (option NextRace.t) :=
  upcoming_meetings <- upcoming_loop "date_start" meeting_start meetings ;;
  match sorted datetime_lt snd upcoming_meetings with
  | [] => Ok None
  | (next_meeting, meeting_dt) :: _ =>
      n <- Py.get next_meeting "meeting_name" (JStr "Unknown") ;;
      l <- Py.get next_meeting "location" (JStr "Unknown") ;;
      c <- Py.get next_meeting "country_name" (JStr "Unknown") ;;
      n <- validate_str n ;;
      l <- validate_str l ;;
      c <- validate_str c ;;
      Ok (Some (NextRace.mk n l c (Datetime.strftime meeting_dt)
                  (calculate_time_left clock
                     (Datetime.isoformat meeting_dt))))
  end.

(** Lines 413-422 *)
Definition tier3 (next_year : Z) (next_year_data : list (string * json))
  : result NextRace.t :=
  races <- Py.getitem (JObj next_year_data) "races" ;;
  first_race <- Py.first races ;;
  race_date <-
    Py.get first_race "date"
      (JStr (Py.str_of_Z next_year ++ "-03-01T15:00:00Z")) ;;
  n <- Py.get first_race "race_name"
         (JStr (Py.str_of_Z next_year ++ " Season Opener")) ;;
  l <- Py.get first_race "location" (JStr "TBD") ;;
  c <- Py.get first_race "country" (JStr "TBD") ;;
  d <- Py.replace race_date "T" " " ;;
  let d := Py.replace_char "Z" " UTC" d in
  let time_left :=
    match race_date with
    | JStr s => calculate_time_left clock s
    | _ => "Unknown"
    end in
  n <- validate_str n ;;
  l <- validate_str l ;;
  c <- validate_str c ;;
  Ok (NextRace.mk n l c d time_left).

Local Open Scope M_scope.

Definition flatten {A} (o : option (option A)) : option A :=
  match o with
  | Some r => r
  | None => None
  end.

(** Lines 376-405 *)
Definition second_tier : M (option NextRace.t) :=
  try_except
    (meetings <- fetch_from_openf1 gw (Meetings (current_year clock)) ;;
     if nothing meetings then ret None
     else lift (tier2 (items meetings)))
    (ret None).

(** Lines 408-424 *)
Definition third_tier : M (option NextRace.t) :=
  try_except
    (let next_year := current_year clock + 1 in
     next_year_data <- fetch_from_f1api_dev gw (Season next_year) ;;
     match from_primary "races" (tier3 next_year) next_year_data with
     | Some r => ret (Some r)
     | None => ret None
     end)
    (ret None).

Definition fetch_next_race : M NextRace.t :=
  data <- fetch_from_f1api_dev gw (Season (current_year clock)) ;;
  match flatten (from_primary "races" tier1 data) with
  | Some r => ret r
  | None =>
      r2 <- second_tier ;;
      match r2 with
      | Some r => ret r
      | None =>
          r3 <- third_tier ;;
          match r3 with
          | Some r => ret r
          | None => ret season_break
          end
      end
  end.

End NextRaceResolver.

(** ** The Fastest-Lap Extractor (lines 435-588) *)

(** [get_fallback_fastest_lap] (lines 578-588) *)
Definition get_fallback_fastest_lap : FastestLap.t :=
  FastestLap.mk "Max Verstappen" "VER" "Red Bull Racing" "1:20.554"
    "Abu Dhabi Grand Prix" "2024-12-08" [25.5; 35.2; 19.854]%Q.

(** [get_sector_times] is called at lines 489 and 560 and is bound nowhere
    in the module: evaluating the name raises [NameError], before any of the
    arguments is evaluated. *)
Definition get_sector_times : M (list Q) := raise NameError.

(** Lines 483-486 and 555-558:
    [minutes = int(duration // 60)], [seconds = duration % 60],
    [f"{minutes}:{seconds:06.3f}"].  On an int (or a bool) [//] and [%] are
    exact; on a float they are those of doubles, and [int] of the integral
    quotient is exact. *)
Definition format_lap_time (duration : json) : result string :=
  match duration with
  | JFloat d =>
      let minutes := Qfloor (Double.floordiv d 60) in
      let seconds := Double.rem d 60 in
      Ok (Py.str_of_Z minutes ++ ":" ++ Fmt.fixed 6 3 seconds)
  | _ =>
      match Py.num_of duration with
      | Some d =>
          let minutes := Qfloor (d / 60) in
          let seconds := (d - 60 * inject_Z minutes)%Q in
          Ok (Py.str_of_Z minutes ++ ":" ++ Fmt.fixed 6 3 seconds)
      | None => Raise TypeError
      end
  end.

Section FastestLapExtractor.
Context {rt : Runtime} (gw : Gateway) (clock : Clock).

Local Open Scope result_scope.

(** The condition of lines 450-453 and 518-521. *)
Definition has_ended (s : json) : result bool :=
  has <- Py.in_ "date_end" s ;;
  if has then
    e <- Py.getitem s "date_end" ;;
    e <- Py.replace e "Z" "+00:00" ;;
    d <- parse_iso e ;;
    Datetime.lt d (now clock)
  else Ok false.

(** The condition of lines 468 and 536. *)
Definition valid_lap (lap : json) : result bool :=
  d <- Py.get lap "lap_duration" JNull ;;
  if Py.truthy d then
    d <- Py.getitem lap "lap_duration" ;;
    Py.gt d (JInt 0)
  else Ok false.

(** Lines 534-539: each driver's best lap. *)
Fixpoint best_laps_loop (laps : list json) (driver_best_laps : Py.dict json)
  : result (Py.dict json) :=
  match laps with
  | [] => Ok driver_best_laps
  | lap :: rest =>
      valid <- valid_lap lap ;;
      if valid then
        dnum <- Py.getitem lap "driver_number" ;;
        seen <- Py.lookup dnum driver_best_laps ;;
        faster <-
          match seen with
          | None => Ok true
          | Some best =>
              d <- Py.getitem lap "lap_duration" ;;
              d' <- Py.getitem best "lap_duration" ;;
              Py.lt d d'
          end ;;
        best_laps_loop rest
          (if faster then Py.set dnum lap driver_best_laps
           else driver_best_laps)
      else best_laps_loop rest driver_best_laps
  end.

Fixpoint map_r {A B} (f : A -> result B) (l : list A) : result (list B) :=
  match l with
  | [] => Ok []
  | x :: l' => y <- f x ;; r <- map_r f l' ;; Ok (y :: r)
  end.

(** Line 542: [sorted(driver_best_laps.values(),
    key=lambda x: x['lap_duration'])[:10]]. *)
Definition top_laps_of (driver_best_laps : Py.dict json)
  : result (list json) :=
  keyed <-
    map_r (fun lap => k <- Py.getitem lap "lap_duration" ;; Ok (k, lap))
          (map snd driver_best_laps) ;;
  Ok (firstn 10 (map snd (sorted json_lt fst keyed))).

(** Lines 534-542 *)
Definition select_top_laps (laps : list json) : result (list json) :=
  driver_best_laps <- best_laps_loop laps [] ;;
  top_laps_of driver_best_laps.

Local Open Scope M_scope.

(** Lines 474-499 and 546-570: the record of one lap. *)
Definition lap_record (latest_session lap : json) (top_n : bool)
  : M FastestLap.t :=
  driver_number <- lift (Py.getitem lap "driver_number") ;;
  _ <- (if top_n then lift (Py.get lap "lap_number" (JInt 1))
        else ret JNull) ;;
  driver_info <-
    lift (int_table_get DRIVER_INFO driver_number
            (unknown_driver driver_number)) ;;
  duration <- lift (Py.getitem lap "lap_duration") ;;
  lap_time <- lift (format_lap_time duration) ;;
  sector_times <- get_sector_times ;;
  race_name <- lift (Py.get latest_session "meeting_name" (JStr "Unknown")) ;;
  date <- lift (Py.get latest_session "date_start" (JStr "")) ;;
  date <- lift (Py.slice_to 10 date) ;;
  race_name <- lift (validate_str race_name) ;;
  date <- lift (validate_str date) ;;
  ret (FastestLap.mk (name driver_info) (abbr driver_info)
         (info_team driver_info) lap_time race_name date sector_times).

(** Lines 441-465 and 511-531: the laps of the most recent completed
    race, [None] where the resolver returns the fallback at once. *)
Definition latest_laps : M (option (json * json * list json)) :=
  sessions <- fetch_from_openf1 gw (Sessions (current_year clock)) ;;
  sessions <-
    (if nothing sessions then
       fetch_from_openf1 gw (Sessions (current_year clock - 1))
     else ret sessions) ;;
  if nothing sessions then ret None
  else
    past_races <- lift (filter_r has_ended (items sessions)) ;;
    match past_races with
    | [] => ret None
    | _ :: _ =>
        latest_session <-
          lift (py_max (fun s => Py.getitem s "date_end") past_races) ;;
        session_key <- lift (Py.getitem latest_session "session_key") ;;
        laps <- fetch_from_openf1 gw (Laps session_key) ;;
        if nothing laps then ret None
        else ret (Some (latest_session, session_key, items laps))
    end.

(** Lines 435-503 *)
Definition fetch_fastest_lap : M FastestLap.t :=
  try_except
    (found <- latest_laps ;;
     match found with
     | None => ret get_fallback_fastest_lap
     | Some (latest_session, session_key, laps) =>
         valid_laps <- lift (filter_r valid_lap laps) ;;
         match valid_laps with
         | [] => ret get_fallback_fastest_lap
         | _ :: _ =>
             fastest_lap <-
               lift (py_min (fun x => Py.getitem x "lap_duration")
                       valid_laps) ;;
             lap_record latest_session fastest_lap false
         end
     end)
    (ret get_fallback_fastest_lap).

(** Lines 544-570 *)
Fixpoint lap_records (latest_session : json) (top_laps : list json)
  : M (list FastestLap.t) :=
  match top_laps with
  | [] => ret []
  | lap :: rest =>
      r <- lap_record latest_session lap true ;;
      rs <- lap_records latest_session rest ;;
      ret (r :: rs)
  end.

(** Lines 505-576 *)
Definition fetch_fastest_laps : M (list FastestLap.t) :=
  try_except
    (found <- latest_laps ;;
     match found with
     | None => ret [get_fallback_fastest_lap]
     | Some (latest_session, session_key, laps) =>
         top_laps <- lift (select_top_laps laps) ;;
         lap_records latest_session top_laps
     end)
    (ret [get_fallback_fastest_lap]).

End FastestLapExtractor.

(** ** A reference runtime, for running the model on concrete inputs

    It reads the ISO 8601 forms that [isoformat()] emits,
    [YYYY-MM-DD[*HH:MM:SS[.fff[fff]]][(+|-)HH:MM]], and unsigned plain
    decimal numerals within the range of the doubles, as CPython reads
    them.  The other forms that CPython accepts (week dates, a sign, an
    exponent, "inf", "nan") are not read, and [str] of a float, a list or a
    dict is not rendered: the runtime is for inputs of the forms it
    reads. *)

Module CPython.

Definition digit (a : ascii) : option Z :=
  let n := Z.of_nat (nat_of_ascii a) in
  if (48 <=? n) && (n <=? 57) then Some (n - 48) else None.

(** The number written by the first [n] characters, and the rest. *)
Fixpoint number (n : nat) (acc : Z) (s : string) : option (Z * string) :=
  match n with
  | O => Some (acc, s)
  | S n' =>
      match s with
      | String a s' =>
          match digit a with
          | Some d => number n' (acc * 10 + d) s'
          | None => None
          end
      | EmptyString => None
      end
  end.

Definition expect (c : ascii) (s : string) : option string :=
  match s with
  | String a s' => if Ascii.eqb a c then Some s' else None
  | EmptyString => None
  end.

Definition obind {A B} (o : option A) (k : A -> option B) : option B :=
  match o with
  | Some a => k a
  | None => None
  end.

Notation "' pat <- o ;; k" :=
  (obind o (fun x => match x with pat => k end))
  (at level 61, pat pattern, o at next level, right associativity).
Notation "x <- o ;; k" := (obind o (fun x => k))
  (at level 61, o at next level, right associativity).

Definition days_in_month (y m : Z) : Z :=
  if m =? 2 then (if Datetime.is_leap y then 29 else 28)
  else if (m =? 4) || (m =? 6) || (m =? 9) || (m =? 11) then 30 else 31.

Definition fraction (s : string) : option (Z * string) :=
  match s with
  | String "." s' =>
      match number 6 0 s' with
      | Some r => Some r
      | None => '(ms, s'') <- number 3 0 s' ;; Some (ms * 1000, s'')
      end
  | _ => Some (0, s)
  end.

Definition offset (s : string) : option (option Z) :=
  match s with
  | EmptyString => Some None
  | String sign s' =>
      '(hh, s') <- number 2 0 s' ;;
      s' <- expect ":" s' ;;
      '(mm, s') <- number 2 0 s' ;;
      let o := (hh * 3600 + mm * 60) * 1000000 in
      match s' with
      | EmptyString =>
          if (hh <? 24) && (mm <? 60) then
            if Ascii.eqb sign "+" then Some (Some o)
            else if Ascii.eqb sign "-" then Some (Some (- o))
            else None
          else None
      | _ => None
      end
  end.

Definition parse (s : string) : option Datetime.t :=
  '(y, s) <- number 4 0 s ;;
  s <- expect "-" s ;;
  '(m, s) <- number 2 0 s ;;
  s <- expect "-" s ;;
  '(d, s) <- number 2 0 s ;;
  if (1 <=? y) && (1 <=? m) && (m <=? 12) && (1 <=? d)
     && (d <=? days_in_month y m) then
    match s with
    | EmptyString => Some (Datetime.mk y m d 0 0 0 0 None)
    | String _ s =>
        '(hh, s) <- number 2 0 s ;;
        s <- expect ":" s ;;
        '(mi, s) <- number 2 0 s ;;
        s <- expect ":" s ;;
        '(ss, s) <- number 2 0 s ;;
        '(us, s) <- fraction s ;;
        tz <- offset s ;;
        if (hh <? 24) && (mi <? 60) && (ss <? 60) then
          Some (Datetime.mk y m d hh mi ss us tz)
        else None
    end
  else None.

(** Digits, with an optional fraction. *)
Fixpoint decimal (acc : Z) (s : string) : option (Z * string) :=
  match s with
  | String a s' =>
      match digit a with
      | Some d => decimal (acc * 10 + d) s'
      | None => Some (acc, s)
      end
  | EmptyString => Some (acc, s)
  end.

(** The value of a plain decimal numeral. *)
Definition numeral (s : string) : option Q :=
  match s with
  | EmptyString => None
  | String a _ =>
      match digit a with
      | None => None
      | Some _ =>
          '(n, s') <- decimal 0 s ;;
          match s' with
          | EmptyString => Some (inject_Z n)
          | String "." f =>
              '(m, rest) <- decimal 0 f ;;
              match rest with
              | EmptyString =>
                  Some (inject_Z n
                        + Qmake m (Pos.of_nat
                                     (Z.to_nat (10 ^ Z.of_nat (String.length f)))))%Q
              | _ => None
              end
          | _ => None
          end
      end
  end.

(** [float(s)] on a plain decimal numeral: the double nearest to its
    value. *)
Definition float_of (s : string) : option Q :=
  match numeral s with
  | Some x => if Double.overflows (Double.round x) then None
              else Some (Double.round x)
  | None => None
  end.

Definition runtime : Runtime := {|
  fromisoformat := parse;
  float_of_str := float_of;
  repr_other := fun _ => "?"
|}.

End CPython.

(** ** Predicates on resolver computations *)

(** [m] returns a value, whatever calls were made before. *)
Definition returns {A} (m : M A) : Prop :=
  forall log, exists a log', m log = (Ok a, log').

(** Whenever [m] returns a value, the value satisfies [P]. *)
Definition yields {A} (P : A -> Prop) (m : M A) : Prop :=
  forall log,
    match m log with
    | (Ok a, _) => P a
    | (Raise _, _) => True
    end.

(** [m] returns a value, whatever calls were made before, and the value
    satisfies [P]. *)
Definition always {A} (P : A -> Prop) (m : M A) : Prop :=
  forall log, exists a log', m log = (Ok a, log') /\ P a.

(** The value a resolver hands to its caller. *)
Definition outcome {A} (m : M A) (log : list call) : result A := fst (m log).

(** The upstream calls a resolver has made when it is done. *)
Definition calls {A} (m : M A) (log : list call) : list call := snd (m log).

(** ** The specification's words, to compare the code with *)

(** The rendered lap time as the specification words it: the integer floor
    of [d / 60], a colon, then [d mod 60] to three decimal places, two
    digits before the point and three after. *)
Definition lap_time_spec (d : Q) : string :=
  let minutes := Qfloor (d / 60) in
  let seconds := (d - 60 * inject_Z minutes)%Q in
  let thousandths := Fmt.round_half_even (seconds * 1000) in
  Py.str_of_Z minutes ++ ":" ++ Fmt.pad0 2 (thousandths / 1000)
  ++ "." ++ Fmt.pad0 3 (thousandths mod 1000).

(** The UTC instant of an aware datetime, in microseconds. *)
Definition instant (d : Datetime.t) : Z :=
  (Datetime.toordinal d * 86400 + Datetime.seconds_of_day d) * 1000000
  + Datetime.microsecond d
  - match Datetime.tzinfo d with
    | Some o => o
    | None => 0
    end.

(** The countdown as the specification words it, for a remaining interval
    in microseconds: days and hours when a day or more remains, else hours
    and minutes when an hour or more remains, else minutes; "Race
    completed" when the target lies in the past. *)
Definition countdown_spec (remaining : Z) : string :=
  if remaining <? 0 then "Race completed"
  else
    let days := remaining / 86400000000 in
    let hours := (remaining mod 86400000000) / 3600000000 in
    let minutes := (remaining mod 3600000000) / 60000000 in
    if 0 <? days then
      Py.str_of_Z days ++ " days, " ++ Py.str_of_Z hours ++ " hours"
    else if 0 <? hours then
      Py.str_of_Z hours ++ " hours, " ++ Py.str_of_Z minutes ++ " minutes"
    else Py.str_of_Z minutes ++ " minutes".

(** Positions are exactly 1..k, in list order, for some k <= 10. *)
Definition positions_from_one (ps : list Z) : Prop :=
  ps = map Z.of_nat (seq 1 (List.length ps)) /\ (List.length ps <= 10)%nat.

(** Points do not increase along the list. *)
Definition points_nonincreasing (pts : list Q) : Prop :=
  StronglySorted (fun a b => (b <= a)%Q) pts.

(** What both halves of a standings pair satisfy on the calculated and on
    the static path. *)
Definition ranked (r : list Driver.t * list Team.t) : Prop :=
  (positions_from_one (map Driver.position (fst r))
   /\ points_nonincreasing (map Driver.points (fst r)))
  /\ (positions_from_one (map Team.position (snd r))
      /\ points_nonincreasing (map Team.points (snd r))).

(** ** Dict invariants *)

(** Every key of the dict satisfies [D]. *)
Definition keys_in {K V} (D : K -> Prop) (d : list (K * V)) : Prop :=
  Forall (fun e => D (fst e)) d.

(** No two entries of the dict have equal keys. *)
Definition distinct_keys {K V} (eqb : K -> K -> bool) (d : list (K * V))
  : Prop :=
  StronglySorted (fun a b => eqb (fst a) (fst b) = false) d.

Definition is_hashable (j : json) : Prop := Py.hashable j = true.

(** What a hashable JSON value is as a dict key. *)
Inductive hkey : Type :=
| KNone
| KNum (q : Q)
| KStr (s : string).

Definition hkey_of (j : json) : hkey :=
  match j with
  | JStr s => KStr s
  | JNull | JArr _ | JObj _ => KNone
  | _ =>
      match Py.num_of j with
      | Some q => KNum q
      | None => KNone
      end
  end.

Definition hkey_eqb (a b : hkey) : bool :=
  match a, b with
  | KNone, KNone => true
  | KNum x, KNum y => Qeq_bool x y
  | KStr s, KStr t => String.eqb s t
  | _, _ => false
  end.

(** ** Position records *)

(** The timestamp of a position record, when it is a string. *)
Definition date_of (pos : json) : option string :=
  match Py.getitem pos "date" with
  | Ok (JStr s) => Some s
  | _ => None
  end.



(** [pos] is strictly later than [kept]. *)
Definition later (pos kept : json) : Prop :=
  exists s t,
    date_of pos = Some s /\ date_of kept = Some t /\ String.ltb t s = true.

(** What holds of a dict that keeps, per car number, the best of the records
    [seen] so far: [P] are the records that count, [R p kept] says that [p]
    is no better than [kept]. *)
Record kept_inv (P : json -> Prop) (R : json -> json -> Prop)
    (seen : list json) (d : Py.dict json) : Prop := {
  inv_keys : keys_in is_hashable d;
  inv_distinct : distinct_keys Py.eq d;
  inv_kept :
    forall k kept,
      is_hashable k -> Py.find k d = Some kept ->
      In kept seen /\ P kept
      /\ exists dn,
           Py.getitem kept "driver_number" = Ok dn
           /\ is_hashable dn /\ Py.eq k dn = true;
  inv_best :
    forall p dn,
      In p seen -> P p -> Py.getitem p "driver_number" = Ok dn ->
      is_hashable dn
      /\ exists kept, Py.find dn d = Some kept /\ R p kept
}.

(** ** Points accumulation *)

(** The points of one final position record. *)
Definition position_points (pos_data : json) : Z :=
  match rbind (Py.getitem pos_data "position")
          (fun position => int_table_get POINTS_SYSTEM position 0) with
  | Ok points => points
  | Raise _ => 0
  end.

(** The key under which the points of a car number accumulate. *)
Definition key_of_driver {rt : Runtime} (driver_number : json) : driver_key :=
  (driver_number,
   name (match int_table_get DRIVER_INFO driver_number
                 (unknown_driver driver_number) with
         | Ok driver_info => driver_info
         | Raise _ => unknown_driver driver_number
         end)).

(** What one session is worth to a driver: the points of the final
    position kept under the driver's key. *)
Definition session_points {rt : Runtime} (key : driver_key)
    (final_positions : Py.dict json) : Z :=
  fold_right Z.add 0
    (map (fun e =>
            if driver_key_eqb key (key_of_driver (fst e))
            then position_points (snd e) else 0)
         final_positions).

(** A driver's accumulated points. *)
Definition driver_total (driver_points : driver_points_t) (key : driver_key)
  : Z :=
  match afind driver_key_eqb key driver_points with
  | Some data => fst data
  | None => 0
  end.

(** The final positions of the sessions that [sessions_loop] processes,
    in order: the session list is replayed against the gateway, starting
    from the call log [log]. *)
Fixpoint session_finals (gw : Gateway) (sessions : list json)
    (log : list call) : list (Py.dict json) :=
  match sessions with
  | [] => []
  | session :: rest =>
      match Py.getitem session "session_key" with
      | Ok session_key =>
          let positions := openf1 gw log (Position session_key) in
          let log' := (log ++ [OpenF1 (Position session_key)])%list in
          if nothing positions then session_finals gw rest log'
          else
            match final_positions_loop (items positions) [] with
            | Ok final_positions =>
                final_positions :: session_finals gw rest log'
            | Raise _ => []
            end
      | Raise _ => []
      end
  end.

Definition hashable_driver (key : driver_key) : Prop := is_hashable (fst key).

(** ** Lap records *)

(** The duration of a lap record, when it is a number. *)
Definition duration_of (lap : json) : option Q :=
  match Py.getitem lap "lap_duration" with
  | Ok d => Py.num_of d
  | Raise _ => None
  end.

(** A valid lap: the condition of lines 468 and 536 holds. *)
Definition timed (lap : json) : Prop := valid_lap lap = Ok true.

(** [lap] took at least as long as [best]. *)
Definition not_faster (lap best : json) : Prop :=
  exists x y,
    duration_of lap = Some x /\ duration_of best = Some y /\ (y <= x)%Q.

(** [lap] took less time than [best]. *)
Definition faster (lap best : json) : Prop :=
  exists x y,
    duration_of lap = Some x /\ duration_of best = Some y /\ (x < y)%Q.

(** The lap was driven by car [dn]. *)
Definition car_is (dn : json) (lap : json) : bool :=
  match Py.getitem lap "driver_number" with
  | Ok dn' => Py.eq dn dn'
  | Raise _ => false
  end.

Definition same_car (a b : json) : Prop :=
  exists dn dn',
    Py.getitem a "driver_number" = Ok dn
    /\ Py.getitem b "driver_number" = Ok dn'
    /\ Py.eq dn dn' = true.

(** A lap with its sort key, as [sorted] pairs them. *)
Definition keyed_lap (e : json * json) : Prop :=
  Py.getitem (snd e) "lap_duration" = Ok (fst e)
  /\ exists x, Py.num_of (fst e) = Some x.

(** ** Concrete upstream behaviours *)

(** 1 June 2025, 12:00 UTC. *)
Definition clock_2025 : Clock :=
  {| current_year := 2025; utcnow := Datetime.mk 2025 6 1 12 0 0 0 None |}.

(** Both providers down. *)
Definition unavailable : Gateway :=
  {| f1api_dev := fun _ _ => None; openf1 := fun _ _ => None |}.

Definition melbourne : json :=
  JObj [("session_key", JInt 9693);
        ("meeting_name", JStr "Australian Grand Prix");
        ("date_start", JStr "2025-03-16T04:00:00+00:00");
        ("date_end", JStr "2025-03-16T06:00:00+00:00")].

Definition lap_of (driver_number lap_number : Z) (lap_duration : json)
  : json :=
  JObj [("driver_number", JInt driver_number);
        ("lap_number", JInt lap_number);
        ("lap_duration", lap_duration)].

(** OpenF1 knows one completed race and the given laps of it. *)
Definition one_race (laps : list json) : Gateway :=
  {| f1api_dev := fun _ _ => None;
     openf1 := fun _ e =>
       match e with
       | Sessions 2025 => Some [melbourne]
       | Laps (JInt 9693) => Some laps
       | _ => None
       end |}.

(** A race with one timed lap, by car 44. *)
Definition timed_race : Gateway :=
  one_race [lap_of 44 43 (JFloat 82.167)].

(** A race whose only lap record has no duration. *)
Definition untimed_race : Gateway :=
  one_race [lap_of 44 1 JNull].

(** OpenF1 answers with a session list that holds no session object. *)
Definition broken_sessions : Gateway :=
  {| f1api_dev := fun _ _ => None;
     openf1 := fun _ e =>
       match e with
       | Sessions _ => Some [JNull]
       | _ => None
       end |}.

(** f1api.dev answers the driver standings out of order; everything else
    is down. *)
Definition unsorted_standings : Gateway :=
  {| f1api_dev := fun _ e =>
       match e with
       | StandingsDrivers _ =>
           Some [("standings",
                  JArr [JObj [("driver_name", JStr "Oscar Piastri");
                              ("abbreviation", JStr "PIA");
                              ("team", JStr "McLaren");
                              ("points", JInt 10)];
                        JObj [("driver_name", JStr "Lando Norris");
                              ("abbreviation", JStr "NOR");
                              ("team", JStr "McLaren");
                              ("points", JInt 20)]])]
       | _ => None
       end;
     openf1 := fun _ _ => None |}.

(** The race f1api.dev lists for 7 December 2025. *)
Definition abu_dhabi : json :=
  JObj [("race_name", JStr "Abu Dhabi Grand Prix");
        ("location", JStr "Yas Marina");
        ("country", JStr "UAE");
        ("date", JStr "2025-12-07")].

(** f1api.dev answers the season with the given race list; everything else
    is down. *)
Definition season_of (races : list json) : Gateway :=
  {| f1api_dev := fun _ e =>
       match e with
       | Season 2025 => Some [("races", JArr races)]
       | _ => None
       end;
     openf1 := fun _ _ => None |}.

Definition position_record (driver_number : json) (date : string)
    (position : Z) : json :=
  JObj [("driver_number", driver_number); ("date", JStr date);
        ("position", JInt position)].

(** Car 44 starts second and finishes first, car 1 starts first and
    finishes second; car 44 is reported once as [44] and once as [44.0]. *)
Definition melbourne_positions : list json :=
  [position_record (JInt 1) "2025-03-16T04:00:00+00:00" 1;
   position_record (JInt 44) "2025-03-16T04:00:00+00:00" 2;
   position_record (JFloat 44) "2025-03-16T05:30:00+00:00" 1;
   position_record (JInt 1) "2025-03-16T05:30:00+00:00" 2].

(** OpenF1 knows the Melbourne race and its position records. *)
Definition melbourne_results : Gateway :=
  {| f1api_dev := fun _ _ => None;
     openf1 := fun _ e =>
       match e with
       | Sessions 2025 => Some [melbourne]
       | Position (JInt 9693) => Some melbourne_positions
       | _ => None
       end |}.

(** Car 44 under its accumulator key. *)
Definition hamilton : driver_key := (JInt 44, "Lewis Hamilton").

(** The accumulators after the Melbourne race. *)
Definition melbourne_totals : driver_points_t * team_points_t :=
  match outcome (sessions_loop (rt := CPython.runtime) melbourne_results
                   [melbourne] ([], [])) [] with
  | Ok acc => acc
  | Raise _ => ([], [])
  end.

(** Three cars; car 44 sets two valid laps and one lap without a time. *)
Definition melbourne_laps : list json :=
  [lap_of 44 10 (JFloat 83.5);
   lap_of 1 10 (JFloat 82.9);
   lap_of 44 11 JNull;
   lap_of 44 12 (JFloat 82.167);
   lap_of 16 12 (JInt 84)].

(** ** Upstream calls *)

(** [m] makes no upstream call. *)
Definition quiet {A} (m : M A) : Prop := forall log, snd (m log) = log.

Definition is_position_call (c : call) : Prop :=
  match c with
  | OpenF1 (Position _) => True
  | _ => False
  end.

Definition is_openf1_call (c : call) : Prop :=
  match c with
  | OpenF1 _ => True
  | F1Api _ => False
  end.

(** The tiers of the next-race resolver, as upstream calls in the order
    the resolver tries them. *)
Definition next_race_calls (clock : Clock) : list call :=
  [F1Api (Season (current_year clock));
   OpenF1 (Meetings (current_year clock));
   F1Api (Season (current_year clock + 1))].

(** The session-list requests of the standings derivation and of the
    fastest-lap resolvers: the current year, then the year before when the
    first answer is empty. *)
Definition session_calls (gw : Gateway) (clock : Clock) (log : list call)
  : list call :=
  OpenF1 (Sessions (current_year clock))
  :: (if nothing (openf1 gw log (Sessions (current_year clock)))
      then [OpenF1 (Sessions (current_year clock - 1))] else []).

(** The race sessions those requests yield. *)
Definition race_sessions (gw : Gateway) (clock : Clock) (log : list call)
  : list json :=
  let first := openf1 gw log (Sessions (current_year clock)) in
  if nothing first then
    items (openf1 gw (log ++ [OpenF1 (Sessions (current_year clock))])%list
             (Sessions (current_year clock - 1)))
  else items first.

(** ** Team points and season totals *)

(** The team whose total the points of a car number go to. *)
Definition team_of_driver {rt : Runtime} (driver_number : json) : string :=
  info_team (match int_table_get DRIVER_INFO driver_number
                     (unknown_driver driver_number) with
             | Ok driver_info => driver_info
             | Raise _ => unknown_driver driver_number
             end).

(** What a list of final positions is worth to a team. *)
Definition team_session_points {rt : Runtime} (team : string)
    (final_positions : Py.dict json) : Z :=
  fold_right Z.add 0
    (map (fun e =>
            if String.eqb team (team_of_driver (fst e))
            then position_points (snd e) else 0)
         final_positions).

(** A team's accumulated points. *)
Definition team_total (team_points : team_points_t) (team : string) : Z :=
  match afind String.eqb team team_points with
  | Some points => points
  | None => 0
  end.

(** All the points in the drivers' accumulator, in the teams' accumulator,
    and all the points a list of final positions is worth. *)
Definition drivers_sum (driver_points : driver_points_t) : Z :=
  fold_right Z.add 0 (map (fun e => fst (snd e)) driver_points).

Definition teams_sum (team_points : team_points_t) : Z :=
  fold_right Z.add 0 (map snd team_points).

Definition awarded (final_positions : Py.dict json) : Z :=
  fold_right Z.add 0 (map (fun e => position_points (snd e)) final_positions).

(** [kept] are the ten entries of [l] with the most points, best first,
    entries level on points in the order they have in [l]. *)
Definition ten_best {A} (pts : A -> Z) (l kept : list A) : Prop :=
  exists dropped,
    Permutation l (kept ++ dropped)
    /\ List.length kept = Nat.min 10 (List.length l)
    /\ StronglySorted (fun a b => pts b <= pts a) kept
    /\ (forall a b, In a kept -> In b dropped -> pts b <= pts a)
    /\ (forall p,
           filter (fun e => pts e =? p) (kept ++ dropped)
           = filter (fun e => pts e =? p) l).

(** Two meetings as OpenF1 lists them, one before and one after the
    clock's now. *)
Definition imola : json :=
  JObj [("meeting_name", JStr "Emilia Romagna Grand Prix");
        ("location", JStr "Imola");
        ("country_name", JStr "Italy");
        ("date_start", JStr "2025-05-16T11:30:00+00:00")].

Definition zandvoort : json :=
  JObj [("meeting_name", JStr "Dutch Grand Prix");
        ("location", JStr "Zandvoort");
        ("country_name", JStr "Netherlands");
        ("date_start", JStr "2025-08-29T10:30:00+00:00")].

(** ** The latest session *)

(** The raw [date_end] of a session, where it is a string. *)
Definition end_of (s : json) : option string :=
  match Py.getitem s "date_end" with
  | Ok (JStr e) => Some e
  | _ => None
  end.

(** f1api.dev answers every standings request with an empty list. *)
Definition empty_standings : Gateway :=
  {| f1api_dev := fun _ e =>
       match e with
       | Season _ => None
       | _ => Some [("standings", JArr [])]
       end;
     openf1 := fun _ _ => None |}.

(** ** Timestamps as times *)




(** ** Durations *)

(** A duration on which [//] is exact: an int, or a float below 2^53. *)
Definition exact_quotient (duration : json) : Prop :=
  match duration with
  | JFloat x => (x < inject_Z (2 ^ 53))%Q
  | _ => True
  end.

(** ** Displayed fields *)

(** [fields.get(k, default)] *)
Definition field_or (fields : list (string * json)) (k : string)
    (default : json) : json :=
  match Py.assoc k fields with
  | Some v => v
  | None => default
  end.

(** ** Upcoming entries *)

(** The entry's date under [field] is read by [start] as the
    timezone-aware datetime [dt]. *)
Definition starts_at (field : string) (start : json -> result Datetime.t)
    (entry : json) (dt : Datetime.t) : Prop :=
  exists d o,
    Py.get entry field (JStr "") = Ok d
    /\ Py.truthy d = true
    /\ start d = Ok dt
    /\ Datetime.tzinfo dt = Some o.

(** The entry starts at [dt], an instant strictly after now. *)
Definition upcoming_at (clock : Clock) (field : string)
    (start : json -> result Datetime.t) (entry : json) (dt : Datetime.t)
  : Prop :=
  starts_at field start entry dt /\ instant (now clock) < instant dt.

(** [entry], starting at [dt], is the next of [entries]: it is upcoming,
    every upcoming entry listed before it starts later, and no upcoming
    entry listed after it starts earlier. *)
Definition next_of (clock : Clock) (field : string)
    (start : json -> result Datetime.t) (entries : list json)
    (entry : json) (dt : Datetime.t) : Prop :=
  upcoming_at clock field start entry dt
  /\ exists before after,
       entries = (before ++ entry :: after)%list
       /\ (forall entry' dt',
              In entry' before -> upcoming_at clock field start entry' dt' ->
              instant dt < instant dt')
       /\ (forall entry' dt',
              In entry' after -> upcoming_at clock field start entry' dt' ->
              instant dt <= instant dt').

(** What is shown of a race: the string under [race_name], else under
    [name], the string under [location], else under [circuit], the string
    under [country], each "Unknown" where no such field is present. *)
Definition shows_race (race : json) (n l c : string) : Prop :=
  exists fields,
    race = JObj fields
    /\ field_or fields "race_name" (field_or fields "name" (JStr "Unknown"))
       = JStr n
    /\ field_or fields "location" (field_or fields "circuit" (JStr "Unknown"))
       = JStr l
    /\ field_or fields "country" (JStr "Unknown") = JStr c.

(** What is shown of a meeting. *)
Definition shows_meeting (meeting : json) (n l c : string) : Prop :=
  exists fields,
    meeting = JObj fields
    /\ field_or fields "meeting_name" (JStr "Unknown") = JStr n
    /\ field_or fields "location" (JStr "Unknown") = JStr l
    /\ field_or fields "country_name" (JStr "Unknown") = JStr c.

(** What the scan of lines 343-358 and 380-390 keeps of one entry. *)
Definition candidate (clock : Clock) (field : string)
    (start : json -> result Datetime.t) (entry : json)
  : list (json * Datetime.t) :=
  match Py.get entry field (JStr "") with
  | Ok d =>
      if Py.truthy d then
        match upcoming clock start d with
        | Some dt => [(entry, dt)]
        | None => []
        end
      else []
  | Raise _ => []
  end.

(** A race on 10 June 2025 whose date carries no UTC offset. *)
Definition naive_race : json :=
  JObj [("race_name", JStr "Canadian Grand Prix");
        ("location", JStr "Montreal");
        ("country", JStr "Canada");
        ("date", JStr "2025-06-10T15:00:00")].

(** A race on 7 December 2025 whose name is [null]. *)
Definition unnamed_race : json :=
  JObj [("race_name", JNull);
        ("location", JStr "Yas Marina");
        ("country", JStr "UAE");
        ("date", JStr "2025-12-07")].

(** What one [award] does to the two accumulators. *)
Record award_step {rt : Runtime} (driver_number pos_data : json)
    (acc acc' : driver_points_t * team_points_t) : Prop := {
  step_team :
    forall team,
      team_total (snd acc') team
      = team_total (snd acc) team
        + (if String.eqb team (team_of_driver driver_number)
           then position_points pos_data else 0);
  step_drivers :
    drivers_sum (fst acc') = drivers_sum (fst acc) + position_points pos_data;
  step_teams :
    teams_sum (snd acc') = teams_sum (snd acc) + position_points pos_data;
  step_driver_values :
    Forall (fun e => 0 <= fst (snd e)) (fst acc) ->
    Forall (fun e => 0 <= fst (snd e)) (fst acc');
  step_team_values :
    Forall (fun e => 0 <= snd e) (snd acc) ->
    Forall (fun e => 0 <= snd e) (snd acc');
  step_distinct :
    distinct_keys String.eqb (snd acc) ->
    distinct_keys String.eqb (snd acc')
}.

(** * Properties *)

(** ** Reasoning about resolver computations *)

Lemma returns_ret {A} (a : A) : returns (ret a).
Proof. intro log. now exists a, log. Qed.

Lemma returns_bind {A B} (m : M A) (k : A -> M B) :
  returns m -> (forall a, returns (k a)) -> returns (bind m k).
Proof.
  intros Hm Hk log. destruct (Hm log) as (a & log' & E).
  unfold bind. rewrite E. apply Hk.
Qed.

Lemma returns_try_except {A} (body handler : M A) :
  returns handler -> returns (try_except body handler).
Proof.
  intros Hh log. unfold try_except.
  destruct (body log) as [[a | e] log'].
  - now exists a, log'.
  - apply Hh.
Qed.

Lemma returns_f1api gw e : returns (fetch_from_f1api_dev gw e).
Proof. intro log. unfold fetch_from_f1api_dev. eauto. Qed.

Lemma returns_openf1 gw e : returns (fetch_from_openf1 gw e).
Proof. intro log. unfold fetch_from_openf1. eauto. Qed.

Lemma yields_ret {A} (P : A -> Prop) (a : A) : P a -> yields P (ret a).
Proof. intros H log. exact H. Qed.

Lemma yields_bind {A B} (P : B -> Prop) (m : M A) (k : A -> M B) :
  (forall a, yields P (k a)) -> yields P (bind m k).
Proof.
  intros Hk log. unfold bind.
  destruct (m log) as [[a | e] log'].
  - apply Hk.
  - exact I.
Qed.

Lemma yields_bind_with {A B} (Q : A -> Prop) (P : B -> Prop)
    (m : M A) (k : A -> M B) :
  yields Q m -> (forall a, Q a -> yields P (k a)) -> yields P (bind m k).
Proof.
  intros Hm Hk log. unfold bind. specialize (Hm log).
  destruct (m log) as [[a | e] log'].
  - now apply Hk.
  - exact I.
Qed.

Lemma yields_weaken {A} (P Q : A -> Prop) (m : M A) :
  (forall a, P a -> Q a) -> yields P m -> yields Q m.
Proof.
  intros HPQ Hm log. specialize (Hm log).
  destruct (m log) as [[a | e] log']; auto.
Qed.

(** A [try] whose handler returns [v] returns what its body yields, or [v]. *)
Lemma try_except_yields {A} (P : A -> Prop) (body : M A) (v : A) :
  yields P body -> P v ->
  forall log, exists a log', try_except body (ret v) log = (Ok a, log') /\ P a.
Proof.
  intros Hb Hv log. unfold try_except. specialize (Hb log).
  destruct (body log) as [[a | e] log'].
  - now exists a, log'.
  - now exists v, log'.
Qed.

Ltac returns_auto :=
  repeat first
    [ apply returns_ret
    | apply returns_f1api
    | apply returns_openf1
    | apply returns_try_except
    | apply returns_bind; [ | intro ]
    | match goal with
      | |- returns (match ?x with _ => _ end) => destruct x
      | |- returns (if ?x then _ else _) => destruct x
      end ].

(** ** The resolvers return *)

Section Returns.
Context {rt : Runtime} (gw : Gateway) (clock : Clock).

Lemma calculate_standings_returns :
  returns (calculate_standings_from_results gw clock).
Proof. unfold calculate_standings_from_results. returns_auto. Qed.

Lemma fetch_driver_standings_returns :
  returns (fetch_driver_standings gw clock).
Proof.
  unfold fetch_driver_standings.
  apply returns_bind; [ apply returns_f1api | intro data ].
  destruct (from_primary _ _ _).
  - apply returns_ret.
  - apply returns_bind; [ apply calculate_standings_returns | intro ].
    apply returns_ret.
Qed.

Lemma fetch_constructor_standings_returns :
  returns (fetch_constructor_standings gw clock).
Proof.
  unfold fetch_constructor_standings.
  apply returns_bind; [ apply returns_f1api | intro data ].
  destruct (from_primary _ _ _).
  - apply returns_ret.
  - apply returns_bind; [ apply calculate_standings_returns | intro ].
    apply returns_ret.
Qed.

Lemma fetch_next_race_returns : returns (fetch_next_race gw clock).
Proof.
  unfold fetch_next_race, second_tier, third_tier. returns_auto.
Qed.

Lemma fetch_fastest_lap_returns : returns (fetch_fastest_lap gw clock).
Proof. unfold fetch_fastest_lap. returns_auto. Qed.

Lemma fetch_fastest_laps_returns : returns (fetch_fastest_laps gw clock).
Proof. unfold fetch_fastest_laps. returns_auto. Qed.

End Returns.

(** ** The fastest-lap resolvers and the unbound [get_sector_times] *)

Section SectorTimes.
Context {rt : Runtime} (gw : Gateway) (clock : Clock).

(** No lap record is ever completed. *)
Lemma lap_record_raises latest_session lap top_n :
  yields (fun _ => False) (lap_record latest_session lap top_n).
Proof.
  unfold lap_record.
  do 5 (apply yields_bind; intro).
  unfold get_sector_times. intro log. exact I.
Qed.

Lemma lap_records_empty latest_session top_laps :
  yields (fun rs => rs = []) (lap_records latest_session top_laps).
Proof.
  destruct top_laps as [| lap rest]; simpl.
  - now apply yields_ret.
  - apply yields_bind_with with (Q := fun _ => False).
    + apply lap_record_raises.
    + tauto.
Qed.

End SectorTimes.

(** The two fastest-lap resolvers, whatever the providers answer. *)
Lemma fastest_lap_outcomes {rt : Runtime} gw clock log :
  outcome (fetch_fastest_lap gw clock) log = Ok get_fallback_fastest_lap
  /\ (outcome (fetch_fastest_laps gw clock) log
        = Ok [get_fallback_fastest_lap]
      \/ outcome (fetch_fastest_laps gw clock) log = Ok []).
Proof.
split.
- unfold outcome, fetch_fastest_lap.
  match goal with
  | |- fst (try_except ?b _ _) = _ =>
      destruct (try_except_yields (fun r => r = get_fallback_fastest_lap)
                  b get_fallback_fastest_lap) with (log := log)
        as (a & log' & E & Ha)
  end.
  + apply yields_bind. intros [[[latest_session session_key] laps] |].
    * apply yields_bind. intros [| lap valid_laps].
      -- now apply yields_ret.
      -- apply yields_bind. intro fastest_lap.
         eapply yields_weaken; [ | apply lap_record_raises ]. intros ? [].
    * now apply yields_ret.
  + reflexivity.
  + rewrite E. simpl. now rewrite Ha.
- unfold outcome, fetch_fastest_laps.
  match goal with
  | |- fst (try_except ?b _ _) = _ \/ _ =>
      destruct (try_except_yields
                  (fun r => r = [get_fallback_fastest_lap] \/ r = [])
                  b [get_fallback_fastest_lap]) with (log := log)
        as (a & log' & E & Ha)
  end.
  + apply yields_bind. intros [[[latest_session session_key] laps] |].
    * apply yields_bind. intro top_laps.
      eapply yields_weaken; [ | apply lap_records_empty ].
      intros a Ha. now right.
    * apply yields_ret. now left.
  + now left.
  + rewrite E. simpl. destruct Ha as [-> | ->]; auto.
Qed.

(** ** Claims on the fastest-lap resolvers and on termination *)

(** C1 (the code departs from the claim).  OpenF1 reports one completed
    race whose only lap, by car 44, took 82.167 s: the session is selected,
    the lap is valid and is the fastest, it would render as "1:22.167", and
    yet [fetch_fastest_lap] returns the static fallback record instead of
    that lap, because building the record evaluates the unbound name
    [get_sector_times]. *)
Theorem fetch_fastest_lap_drops_timed_lap :
  let lap := lap_of 44 43 (JFloat 82.167) in
  outcome (latest_laps (rt := CPython.runtime) timed_race clock_2025) []
    = Ok (Some (melbourne, JInt 9693, [lap]))
  /\ filter_r valid_lap [lap] = Ok [lap]
  /\ py_min (fun x => Py.getitem x "lap_duration") [lap] = Ok lap
  /\ format_lap_time (JFloat 82.167) = Ok "1:22.167"
  /\ outcome (fetch_fastest_lap (rt := CPython.runtime) timed_race clock_2025)
       [] = Ok get_fallback_fastest_lap
  /\ FastestLap.lap_time get_fallback_fastest_lap = "1:20.554"
  /\ FastestLap.sector_times get_fallback_fastest_lap
     = [25.5; 35.2; 19.854]%Q.
Proof. vm_compute. repeat split; reflexivity. Qed.

(** C2, counterexample.  When the selected race has lap records but none
    with a duration, [fetch_fastest_laps] returns the empty list, not the
    one-element list of the fallback record. *)
Lemma fetch_fastest_laps_untimed_is_empty :
  outcome (fetch_fastest_laps (rt := CPython.runtime) untimed_race clock_2025)
    [] = Ok []
  /\ outcome (fetch_fastest_laps (rt := CPython.runtime) untimed_race
                clock_2025) [] <> Ok [get_fallback_fastest_lap].
Proof. split; [ reflexivity | discriminate ]. Qed.

(** C2, as amended.  Whatever the providers answer and whatever the time,
    [fetch_fastest_lap] returns exactly the static fallback record, and
    [fetch_fastest_laps] returns the one-element list of that record or the
    empty list: no lap record is ever built, since [get_sector_times] is
    unbound. *)
Theorem fastest_lap_resolvers_never_report_a_lap :
  forall (rt : Runtime) (gw : Gateway) (clock : Clock) (log : list call),
    outcome (fetch_fastest_lap gw clock) log = Ok get_fallback_fastest_lap
    /\ FastestLap.driver_name get_fallback_fastest_lap = "Max Verstappen"
    /\ FastestLap.lap_time get_fallback_fastest_lap = "1:20.554"
    /\ FastestLap.sector_times get_fallback_fastest_lap
       = [25.5; 35.2; 19.854]%Q
    /\ (outcome (fetch_fastest_laps gw clock) log
          = Ok [get_fallback_fastest_lap]
        \/ outcome (fetch_fastest_laps gw clock) log = Ok []).
Proof.
intros rt gw clock log.
destruct (fastest_lap_outcomes gw clock log) as [H1 H2].
repeat split; auto.
Qed.

(** ** Lap-time rendering *)

(** A check run on every integer below a bound holds of each of them. *)
Lemma forall_below (P : Z -> bool) (n : nat) :
  forallb P (map Z.of_nat (seq 0 n)) = true ->
  forall z, 0 <= z < Z.of_nat n -> P z = true.
Proof.
intros H z Hz. rewrite forallb_forall in H. apply H.
apply in_map_iff. exists (Z.to_nat z). split; [ lia | ].
apply in_seq. lia.
Qed.

Lemma pad0_3_length r : 0 <= r < 1000 -> String.length (Fmt.pad0 3 r) = 3%nat.
Proof.
intro Hr.
apply (forall_below (fun r => Nat.eqb (String.length (Fmt.pad0 3 r)) 3) 1000)
  in Hr; [ now apply Nat.eqb_eq | vm_compute; reflexivity ].
Qed.

Lemma pad0_2_length k : 0 <= k < 100 -> String.length (Fmt.pad0 2 k) = 2%nat.
Proof.
intro Hk.
apply (forall_below (fun r => Nat.eqb (String.length (Fmt.pad0 2 r)) 2) 100)
  in Hk; [ now apply Nat.eqb_eq | vm_compute; reflexivity ].
Qed.

Lemma string_length_append (s t : string) :
  String.length (s ++ t) = (String.length s + String.length t)%nat.
Proof. induction s as [| a s IH]; simpl; [ reflexivity | now rewrite IH ]. Qed.

Lemma string_append_assoc (s t u : string) : (s ++ t) ++ u = s ++ (t ++ u).
Proof. induction s as [| a s IH]; simpl; [ reflexivity | now rewrite IH ]. Qed.

Lemma zfill_append (w : nat) (s t : string) :
  Fmt.zfill (w + String.length t) (s ++ t) = Fmt.zfill w s ++ t.
Proof.
unfold Fmt.zfill. rewrite string_length_append, string_append_assoc.
now replace (w + String.length t - (String.length s + String.length t))%nat
  with (w - String.length s)%nat by lia.
Qed.

Lemma round_half_even_comp x y :
  (x == y)%Q -> Fmt.round_half_even x = Fmt.round_half_even y.
Proof.
intro E. unfold Fmt.round_half_even.
rewrite (Qfloor_comp x y E).
assert (E' : (x - inject_Z (Qfloor y) == y - inject_Z (Qfloor y))%Q)
  by (rewrite E; reflexivity).
now rewrite (Qcompare_comp _ _ E' (1 # 2) (1 # 2) (Qeq_refl _)).
Qed.

Lemma round_half_even_bounds x :
  Qfloor x <= Fmt.round_half_even x <= Qfloor x + 1.
Proof.
unfold Fmt.round_half_even.
destruct (Qcompare _ _); [ destruct (Z.even _) | | ]; lia.
Qed.

(** [d mod 60] lies in [[0, 60)]. *)
Lemma seconds_range (d : Q) :
  let seconds := (d - 60 * inject_Z (Qfloor (d / 60)))%Q in
  (0 <= seconds /\ seconds < 60)%Q.
Proof.
cbv zeta.
pose proof (Qfloor_le (d / 60)) as Hlo.
pose proof (Qlt_floor (d / 60)) as Hhi.
rewrite inject_Z_plus in Hhi.
assert (E : (60 * (d / 60) == d)%Q) by (apply Qmult_div_r; discriminate).
change (inject_Z 1) with 1%Q in Hhi.
revert Hlo Hhi E. generalize (d / 60)%Q. intros q Hlo Hhi E.
generalize dependent (inject_Z (Qfloor q)). intros m Hlo Hhi.
split; lra.
Qed.

Lemma minutes_nonneg (d : Q) : (0 < d)%Q -> 0 <= Qfloor (d / 60).
Proof.
intro Hd. change 0 with (Qfloor 0). apply Qfloor_resp_le.
assert (E : (60 * (d / 60) == d)%Q) by (apply Qmult_div_r; discriminate).
revert E. generalize (d / 60)%Q. intros q E. lra.
Qed.

Lemma thousandths_range (x : Q) :
  (0 <= x /\ x < 60)%Q -> 0 <= Fmt.round_half_even (x * 1000) <= 60000.
Proof.
intros [Hlo Hhi].
pose proof (round_half_even_bounds (x * 1000)) as [H1 H2].
assert (0 <= Qfloor (x * 1000)).
{ change 0 with (Qfloor 0). apply Qfloor_resp_le. lra. }
assert (Qfloor (x * 1000) <= 59999).
{ assert (Qfloor (x * 1000) < 60000); [ | lia ].
  apply Z.lt_nge. intro Hc.
  pose proof (Qfloor_le (x * 1000)) as Hf.
  assert (inject_Z 60000 <= inject_Z (Qfloor (x * 1000)))%Q
    by (rewrite <- Zle_Qle; exact Hc).
  change (inject_Z 60000) with 60000%Q in *. lra. }
lia.
Qed.

(** The [06.3f] field of a value in [[0, 60)]: two digits, the point and
    three digits. *)
Lemma fixed_seconds (x : Q) :
  (0 <= x /\ x < 60)%Q ->
  let n := Fmt.round_half_even (x * 1000) in
  Fmt.fixed 6 3 x = Fmt.pad0 2 (n / 1000) ++ "." ++ Fmt.pad0 3 (n mod 1000)
  /\ String.length (Fmt.fixed 6 3 x) = 6%nat.
Proof.
intros Hx n.
pose proof (thousandths_range x Hx) as Hn. fold n in Hn.
assert (Hk : 0 <= n / 1000 < 100).
{ split; [ apply Z.div_pos; lia | apply Z.div_lt_upper_bound; lia ]. }
assert (Hr : 0 <= n mod 1000 < 1000) by (apply Z.mod_pos_bound; lia).
assert (E : Fmt.fixed 6 3 x
            = Fmt.pad0 2 (n / 1000) ++ "." ++ Fmt.pad0 3 (n mod 1000)).
{ unfold Fmt.fixed.
  replace (Py.Qlt_bool x 0) with false.
  2:{ symmetry. unfold Py.Qlt_bool. apply negb_false_iff.
      apply Qle_bool_iff. tauto. }
  change (10 ^ Z.of_nat 3) with 1000.
  rewrite (round_half_even_comp (Qabs x * inject_Z 1000) (x * 1000)).
  2:{ rewrite (Qabs_pos x) by tauto. reflexivity. }
  fold n.
  assert (L : String.length ("." ++ Fmt.pad0 3 (n mod 1000)) = 4%nat)
    by (simpl; now rewrite (pad0_3_length _ Hr)).
  change 6%nat with (2 + 4)%nat. rewrite <- L at 1.
  apply zfill_append. }
split; [ exact E | ].
rewrite E, !string_length_append, (pad0_2_length _ Hk), (pad0_3_length _ Hr).
reflexivity.
Qed.

(** *** Floats that are whole numbers *)

Lemma round_half_even_Z x z :
  (x == inject_Z z)%Q -> Fmt.round_half_even x = z.
Proof.
intro E. rewrite (round_half_even_comp x (inject_Z z) E).
unfold Fmt.round_half_even. rewrite Qfloor_Z.
assert (H : (inject_Z z - inject_Z z < 1 # 2)%Q)
  by (generalize (inject_Z z); intro q; lra).
apply Qlt_alt in H. unfold Qcompare in *. rewrite H. reflexivity.
Qed.

Lemma Qred_inject_Z n : Qred (inject_Z n) = inject_Z n.
Proof. apply Qcanon.Qred_identity. simpl. apply Z.gcd_1_r. Qed.

Lemma floor_log2_int n :
  0 < n -> n < 2 ^ 53 -> Double.floor_log2 (n # 1) <= 52.
Proof.
intros H0 H. unfold Double.floor_log2. cbn [Qnum Qden].
change (Z.log2 1) with 0.
assert (Z.log2 n < 53) by (apply Z.log2_lt_pow2; lia).
match goal with
| |- (if ?c then _ else _) <= _ => destruct c
end; lia.
Qed.

(** A whole number below 2^53 is a double. *)
Lemma round_int x n :
  (x == inject_Z n)%Q -> Z.abs n < 2 ^ 53 -> Double.round x = inject_Z n.
Proof.
intros E Hn. unfold Double.round.
rewrite (Qred_complete x (inject_Z n) E), Qred_inject_Z.
destruct (Z.eq_dec n 0) as [-> | Hne]; [ reflexivity | ].
replace (Qeq_bool (inject_Z n) 0) with false.
2:{ symmetry. apply not_true_is_false. intro H. apply Qeq_bool_eq in H.
    unfold Qeq in H. simpl in H. lia. }
cbv zeta.
assert (He : Double.ulp_exponent (Qabs (inject_Z n)) <= 0).
{ unfold Double.ulp_exponent. change (Qabs (inject_Z n)) with (Z.abs n # 1).
  pose proof (floor_log2_int (Z.abs n)). lia. }
revert He. generalize (Double.ulp_exponent (Qabs (inject_Z n))). intros e He.
destruct (Z.leb_spec 0 e) as [H0 | H0].
- assert (e = 0) by lia. subst e. change (2 ^ 0) with 1.
  rewrite Z.mul_1_r. f_equal. apply round_half_even_Z.
  unfold Qdiv. change (/ inject_Z 1)%Q with 1%Q. ring.
- assert (Hp : 0 < 2 ^ (- e)) by (apply Z.pow_pos_nonneg; lia).
  revert Hp. generalize (2 ^ (- e)). intros p Hp.
  rewrite (round_half_even_Z (inject_Z n * inject_Z p) (n * p))
    by (rewrite inject_Z_mult; reflexivity).
  rewrite <- Qred_inject_Z. apply Qred_complete.
  unfold Qeq. simpl. rewrite Z2Pos.id by exact Hp. ring.
Qed.

Lemma Qlt_bool_ge x y : (y <= x)%Q -> Py.Qlt_bool x y = false.
Proof.
intro H. unfold Py.Qlt_bool. apply negb_false_iff. now apply Qle_bool_iff.
Qed.

(** [fmod] of a positive duration. *)
Lemma fmod_pos d :
  (0 < d)%Q ->
  (Double.fmod d 60 == d - 60 * inject_Z (Qfloor (d / 60)))%Q.
Proof.
intro Hd. unfold Double.fmod.
rewrite (Qlt_bool_ge d 0) by lra.
assert (Ea : (Qabs d == d)%Q) by (apply Qabs_pos; lra).
rewrite (Qfloor_comp (Qabs d / 60) (d / 60)) by (rewrite Ea; reflexivity).
rewrite Ea. reflexivity.
Qed.

(** [%] is exact on a positive float. *)
Lemma rem_pos d :
  (0 < d)%Q ->
  (Double.rem d 60 == d - 60 * inject_Z (Qfloor (d / 60)))%Q.
Proof.
intro Hd. unfold Double.rem.
pose proof (fmod_pos d Hd) as Em.
pose proof (seconds_range d) as Hs. cbv zeta in Hs.
rewrite (Qlt_bool_ge (Double.fmod d 60) 0) by (rewrite Em; tauto).
exact Em.
Qed.

(** [//] is exact on a positive float below 2^53. *)
Lemma floordiv_exact d :
  (0 < d)%Q -> (d < inject_Z (2 ^ 53))%Q ->
  Double.floordiv d 60 = inject_Z (Qfloor (d / 60)).
Proof.
intros Hd Hbig.
pose proof (fmod_pos d Hd) as Em.
pose proof (seconds_range d) as Hs. cbv zeta in Hs.
pose proof (minutes_nonneg d Hd) as Hq.
revert Em Hs Hq. generalize (Qfloor (d / 60)). intros q Em [Hlo Hhi] Hq.
assert (Hq60 : 60 * q < 2 ^ 53).
{ rewrite Zlt_Qlt. apply Qle_lt_trans with d; [ | exact Hbig ].
  rewrite inject_Z_mult. change (inject_Z 60) with 60%Q. lra. }
unfold Double.floordiv. cbv zeta.
rewrite (round_int (d - Double.fmod d 60) (60 * q)).
2:{ rewrite Em, inject_Z_mult. change (inject_Z 60) with 60%Q. ring. }
2:{ lia. }
rewrite (round_int (inject_Z (60 * q) / 60) q).
2:{ rewrite inject_Z_mult. change (inject_Z 60) with 60%Q. field. }
2:{ lia. }
rewrite (Qlt_bool_ge (Double.fmod d 60) 0) by (rewrite Em; exact Hlo).
rewrite Qfloor_Z.
rewrite (Qlt_bool_ge (1 # 2) (inject_Z q - inject_Z q)); [ reflexivity | ].
generalize (inject_Z q). intro x. lra.
Qed.

(** C8, counterexample.  The float 1e22 is a positive duration; the floor
    of its quotient by 60 is 166666666666666666666, and the minutes
    rendered are those of the rounded float quotient,
    166666666666666655744. *)
Lemma huge_duration_minutes_are_rounded :
  Double.round (inject_Z (10 ^ 22)) = inject_Z (10 ^ 22)
  /\ (0 < inject_Z (10 ^ 22))%Q
  /\ format_lap_time (JFloat (inject_Z (10 ^ 22)))
     = Ok "166666666666666655744:40.000"
  /\ lap_time_spec (inject_Z (10 ^ 22)) = "166666666666666666666:40.000"
  /\ Qfloor (inject_Z (10 ^ 22) / 60) = 166666666666666666666.
Proof. repeat split; vm_compute; reflexivity. Qed.

(** C8, as amended.  For every positive lap duration [d] that is an int,
    or a float below 2^53, the rendered string is the integer floor of
    [d / 60], a colon, and [d mod 60] to three decimal places in a field of
    width 6 (two digits, the point, three digits); the floats 80.554 and
    59.001 render "1:20.554" and "0:59.001". *)
Theorem lap_time_rendering :
  (forall (duration : json) (d : Q),
      Py.num_of duration = Some d -> (0 < d)%Q ->
      exact_quotient duration ->
      format_lap_time duration = Ok (lap_time_spec d)
      /\ 0 <= Qfloor (d / 60)
      /\ String.length (lap_time_spec d)
         = (String.length (Py.str_of_Z (Qfloor (d / 60))) + 1 + 6)%nat)
  /\ format_lap_time (JFloat (Double.round 80.554)) = Ok "1:20.554"
  /\ format_lap_time (JFloat (Double.round 59.001)) = Ok "0:59.001".
Proof.
split; [ | split; vm_compute; reflexivity ].
intros duration d Hnum Hd Hex.
pose proof (seconds_range d) as Hs. cbv zeta in Hs.
destruct (fixed_seconds _ Hs) as [E L].
repeat split.
- destruct duration; simpl in Hnum; try discriminate; injection Hnum as <-.
  + unfold format_lap_time, lap_time_spec. cbn [Py.num_of]. now rewrite E.
  + unfold format_lap_time, lap_time_spec. cbn [Py.num_of]. now rewrite E.
  + simpl in Hex. unfold format_lap_time.
    rewrite (floordiv_exact x Hd Hex), Qfloor_Z.
    pose proof (rem_pos x Hd) as Er.
    assert (Hr : (0 <= Double.rem x 60 /\ Double.rem x 60 < 60)%Q)
      by (rewrite Er; exact Hs).
    destruct (fixed_seconds _ Hr) as [Ef _]. cbv zeta in Ef. rewrite Ef.
    rewrite (round_half_even_comp (Double.rem x 60 * 1000)
               ((x - 60 * inject_Z (Qfloor (x / 60))) * 1000))
      by (rewrite Er; reflexivity).
    reflexivity.
- now apply minutes_nonneg.
- unfold lap_time_spec. rewrite <- E, !string_length_append, L.
  simpl String.length. lia.
Qed.

(** C8 at a lap of 80.554 s. *)
Lemma lap_time_rendering_witness :
  format_lap_time (JFloat (Double.round 80.554))
  = Ok (lap_time_spec (Double.round 80.554))
  /\ 0 <= Qfloor (Double.round 80.554 / 60)
  /\ String.length (lap_time_spec (Double.round 80.554))
     = (String.length
          (Py.str_of_Z (Qfloor (Double.round 80.554 / 60))) + 1 + 6)%nat.
Proof.
apply (proj1 lap_time_rendering (JFloat (Double.round 80.554))
         (Double.round 80.554)).
- reflexivity.
- vm_compute. reflexivity.
- vm_compute. reflexivity.
Defined.

(** ** The countdown *)

Lemma normalize_spec dd ds us :
  let T := (dd * 86400 + ds) * 1000000 + us in
  Datetime.days (Datetime.normalize dd ds us) = T / 86400000000
  /\ Datetime.seconds (Datetime.normalize dd ds us) / 3600
     = (T mod 86400000000) / 3600000000
  /\ (Datetime.seconds (Datetime.normalize dd ds us) mod 3600) / 60
     = (T mod 3600000000) / 60000000.
Proof.
intro T. unfold Datetime.normalize.
cbn [Datetime.days Datetime.seconds]. subst T.
repeat split; Z.div_mod_to_equations; lia.
Qed.

Lemma target_is_aware {rt : Runtime} s t :
  target s = Ok t -> exists o, Datetime.tzinfo t = Some o.
Proof.
unfold target. intro H.
destruct (if Py.contains "T" s then _ else _) as [d | e]; [ | discriminate ].
simpl in H. injection H as <-.
destruct (Datetime.tzinfo d) as [o |] eqn:E.
- exists o. exact E.
- exists 0. reflexivity.
Qed.

(** The difference of two aware datetimes is the difference of their
    instants. *)
Lemma sub_aware t n o :
  Datetime.tzinfo t = Some o -> Datetime.tzinfo n = Some 0 ->
  exists td,
    Datetime.sub t n = Ok td
    /\ Datetime.days td = (instant t - instant n) / 86400000000
    /\ Datetime.seconds td / 3600
       = ((instant t - instant n) mod 86400000000) / 3600000000
    /\ (Datetime.seconds td mod 3600) / 60
       = ((instant t - instant n) mod 3600000000) / 60000000.
Proof.
intros Ht Hn. unfold Datetime.sub. rewrite Ht, Hn.
eexists. split; [ reflexivity | ].
replace (instant t - instant n)
  with ((((Datetime.toordinal t - Datetime.toordinal n) * 86400
          + (Datetime.seconds_of_day t - Datetime.seconds_of_day n)) * 1000000)
        + (Datetime.microsecond t - Datetime.microsecond n + 0 - o))
  by (unfold instant; rewrite Ht, Hn; ring).
apply normalize_spec.
Qed.

(** C7.  For any target string and any current time, [calculate_time_left]
    returns "Unknown" when the string does not parse and otherwise renders
    the interval from now to the target: "Race completed" when it is
    negative, else days and hours when days > 0, else hours and minutes when
    hours > 0, else minutes.  A target 2 days 3 hours ahead renders
    "2 days, 3 hours", one 45 minutes ahead "45 minutes", one 10 minutes in
    the past "Race completed". *)
Theorem countdown_rendering :
  (forall (rt : Runtime) (clock : Clock) (race_datetime : string),
      calculate_time_left clock race_datetime
      = match target race_datetime with
        | Ok race_dt => countdown_spec (instant race_dt - instant (now clock))
        | Raise _ => "Unknown"
        end)
  /\ countdown_spec ((2 * 86400 + 3 * 3600) * 1000000) = "2 days, 3 hours"
  /\ countdown_spec (45 * 60 * 1000000) = "45 minutes"
  /\ countdown_spec (- (10 * 60 * 1000000)) = "Race completed"
  /\ calculate_time_left (rt := CPython.runtime) clock_2025
       "2025-06-03T15:00:00Z" = "2 days, 3 hours"
  /\ calculate_time_left (rt := CPython.runtime) clock_2025
       "2025-06-01T12:45:00+00:00" = "45 minutes"
  /\ calculate_time_left (rt := CPython.runtime) clock_2025
       "2025-06-01T11:50:00" = "Race completed"
  /\ calculate_time_left (rt := CPython.runtime) clock_2025
       "next Sunday" = "Unknown".
Proof.
split; [ | repeat split; reflexivity ].
intros rt clock s.
unfold calculate_time_left, calculate_time_left_body.
destruct (target s) as [t | e] eqn:Ht; [ | reflexivity ].
destruct (target_is_aware s t Ht) as [o Ho].
destruct (sub_aware t (now clock) o Ho eq_refl) as (td & E & Hd & Hh & Hm).
simpl rbind. rewrite E. simpl rbind.
unfold countdown_spec, Datetime.negative.
cbv zeta. rewrite Hd, Hh, Hm.
set (T := instant t - instant (now clock)).
replace (T / 86400000000 <? 0) with (T <? 0).
{ destruct (T <? 0); [ reflexivity | ].
  destruct (0 <? T / 86400000000); [ reflexivity | ].
  destruct (0 <? _); reflexivity. }
destruct (Z.ltb_spec T 0), (Z.ltb_spec (T / 86400000000) 0);
  try reflexivity; exfalso; Z.div_mod_to_equations; lia.
Qed.

(** ** Sorting *)

Section SortedFacts.
Context {A K : Type} (lt : K -> K -> bool) (key : A -> K).

Lemma insert_perm x l : Permutation (insert lt key x l) (x :: l).
Proof.
induction l as [| y l IH]; simpl; [ reflexivity | ].
destruct (lt (key y) (key x)); [ | reflexivity ].
rewrite IH. apply perm_swap.
Qed.

Lemma sorted_perm l : Permutation (sorted lt key l) l.
Proof.
induction l as [| x l IH]; simpl; [ reflexivity | ].
rewrite insert_perm. now constructor.
Qed.

(** [R] is the order the result is sorted by; it need only agree with [lt]
    on the elements that satisfy [P]. *)
Context (R : A -> A -> Prop) (P : A -> Prop).
Hypothesis R_trans : forall x y z, R x y -> R y z -> R x z.
Hypothesis lt_true : forall x y, P x -> P y -> lt (key y) (key x) = true -> R y x.
Hypothesis lt_false :
  forall x y, P x -> P y -> lt (key y) (key x) = false -> R x y.

Lemma insert_sorted x l :
  P x -> Forall P l -> StronglySorted R l ->
  StronglySorted R (insert lt key x l).
Proof.
intros Hx Hl Hs. induction l as [| y l IH]; simpl.
- repeat constructor.
- inversion Hl as [| ? ? Hy Hl']; subst.
  inversion Hs as [| ? ? Hs' Hy']; subst.
  destruct (lt (key y) (key x)) eqn:E.
  + constructor; [ now apply IH | ].
    rewrite (insert_perm x l). constructor; [ now apply lt_true | exact Hy' ].
  + assert (Rxy : R x y) by now apply lt_false.
    constructor; [ exact Hs | ].
    constructor; [ exact Rxy | ].
    eapply Forall_impl; [ | exact Hy' ]. intros z Hz. now apply R_trans with y.
Qed.

Lemma sorted_sorted l : Forall P l -> StronglySorted R (sorted lt key l).
Proof.
intro Hl. induction l as [| x l IH]; simpl; [ constructor | ].
inversion Hl; subst. apply insert_sorted; auto.
rewrite (sorted_perm l). assumption.
Qed.

End SortedFacts.

Lemma firstn_incl {A} n (l : list A) x : In x (firstn n l) -> In x l.
Proof.
intro H. rewrite <- (firstn_skipn n l). apply in_or_app. now left.
Qed.

Lemma StronglySorted_firstn {A} (R : A -> A -> Prop) n l :
  StronglySorted R l -> StronglySorted R (firstn n l).
Proof.
revert l. induction n as [| n IH]; intros l Hs; simpl; [ constructor | ].
destruct l as [| x l]; [ constructor | ].
inversion Hs; subst. constructor; [ now apply IH | ].
apply Forall_forall. intros y Hy.
eapply Forall_forall; [ eassumption | ]. eapply firstn_incl. eassumption.
Qed.

Lemma StronglySorted_map {A B} (R : A -> A -> Prop) (S : B -> B -> Prop)
    (f : A -> B) l :
  (forall x y, R x y -> S (f x) (f y)) ->
  StronglySorted R l -> StronglySorted S (map f l).
Proof.
intros HRS Hs. induction Hs as [| x l Hs IH Hx]; simpl; constructor; auto.
apply Forall_forall. intros y Hy. apply in_map_iff in Hy.
destruct Hy as (z & <- & Hz). apply HRS.
eapply Forall_forall; eassumption.
Qed.

Lemma enumerate_fst {A} (i : Z) (l : list A) :
  map fst (enumerate i l)
  = map (fun n => i + Z.of_nat n) (seq 0 (List.length l)).
Proof.
revert i. induction l as [| x l IH]; intro i; simpl; [ reflexivity | ].
rewrite IH, <- seq_shift, map_map. f_equal; [ lia | ].
apply map_ext. intro n. lia.
Qed.

Lemma enumerate_snd {A} (i : Z) (l : list A) : map snd (enumerate i l) = l.
Proof.
revert i. induction l as [| x l IH]; intro i; simpl; [ | rewrite IH ];
  reflexivity.
Qed.

Lemma enumerate_length {A} (i : Z) (l : list A) :
  List.length (enumerate i l) = List.length l.
Proof.
revert i. induction l as [| x l IH]; intro i; simpl; [ | rewrite IH ];
  reflexivity.
Qed.

Lemma positions_of_enumerate {A} (l : list A) :
  (List.length l <= 10)%nat ->
  positions_from_one (map (fun ix => fst ix + 1) (enumerate 0 l)).
Proof.
intro Hl. unfold positions_from_one.
rewrite length_map, enumerate_length. split; [ | exact Hl ].
rewrite <- (map_map fst (fun i => i + 1)), enumerate_fst, map_map.
rewrite <- seq_shift, map_map. apply map_ext. intro n. lia.
Qed.

(** ** Standings: positions and points *)

Lemma chars_length s : List.length (Py.chars s) = String.length s.
Proof. induction s as [| a s IH]; simpl; [ | rewrite IH ]; reflexivity. Qed.

Lemma substring_0_length n s : (String.length (substring 0 n s) <= n)%nat.
Proof.
revert s. induction n as [| n IH]; intro s; destruct s as [| a s]; simpl;
  try lia.
specialize (IH s). lia.
Qed.

Lemma iter_slice_length n j top l :
  Py.slice_to n j = Ok top -> Py.iter top = Ok l -> (List.length l <= n)%nat.
Proof.
destruct j; simpl; try discriminate; intros [= <-] [= <-].
- rewrite chars_length. apply substring_0_length.
- apply firstn_le_length.
Qed.

Lemma Z_points_nonincreasing {A} (pts : A -> Z) (l : list A) :
  points_nonincreasing
    (map (fun x => inject_Z (pts x)) (firstn 10 (sorted Z.gtb pts l))).
Proof.
apply StronglySorted_map with (R := fun a b => pts b <= pts a).
- intros x y H. now rewrite <- Zle_Qle.
- apply StronglySorted_firstn.
  apply sorted_sorted with (P := fun _ => True).
  + intros x y z H1 H2. lia.
  + intros x y _ _ H. rewrite Z.gtb_ltb in H. apply Z.ltb_lt in H. lia.
  + intros x y _ _ H. rewrite Z.gtb_ltb in H. apply Z.ltb_ge in H. lia.
  + apply Forall_forall. auto.
Qed.

Lemma top_drivers_ok (driver_points : driver_points_t) :
  positions_from_one (map Driver.position (top_drivers driver_points))
  /\ points_nonincreasing (map Driver.points (top_drivers driver_points)).
Proof.
unfold top_drivers. rewrite !map_map. cbn [Driver.position Driver.points].
split.
- apply positions_of_enumerate. apply firstn_le_length.
- rewrite <- (map_map snd (fun x => inject_Z (fst (snd x)))), enumerate_snd.
  apply (Z_points_nonincreasing (fun x => fst (snd x))).
Qed.

Lemma top_teams_ok (team_points : team_points_t) :
  positions_from_one (map Team.position (top_teams team_points))
  /\ points_nonincreasing (map Team.points (top_teams team_points)).
Proof.
unfold top_teams. rewrite !map_map. cbn [Team.position Team.points].
split.
- apply positions_of_enumerate. apply firstn_le_length.
- rewrite <- (map_map snd (fun x => inject_Z (snd x))), enumerate_snd.
  apply (Z_points_nonincreasing snd).
Qed.

Lemma fallback_standings_ranked : ranked get_fallback_standings.
Proof.
unfold ranked, positions_from_one, points_nonincreasing. simpl.
repeat split; try lia;
  repeat (constructor; try discriminate).
Qed.

Lemma calculate_standings_ranked {rt : Runtime} gw clock :
  always ranked (calculate_standings_from_results gw clock).
Proof.
unfold calculate_standings_from_results. intro log.
apply try_except_yields.
- do 2 (apply yields_bind; intro).
  destruct (nothing _).
  + apply yields_ret, fallback_standings_ranked.
  + apply yields_bind. intro acc. apply yields_ret.
    split; [ apply top_drivers_ok | apply top_teams_ok ].
- apply fallback_standings_ranked.
Qed.

Lemma drivers_of_positions {rt : Runtime} standings :
  forall i ds,
    drivers_of i standings = Ok ds ->
    map Driver.position ds
    = map (fun k => i + 1 + Z.of_nat k) (seq 0 (List.length standings)).
Proof.
induction standings as [| driver rest IH]; intros i ds H; simpl in H.
- now injection H as <-.
- repeat match type of H with
         | rbind (drivers_of _ _) _ = Ok _ => fail 1
         | rbind ?r _ = Ok _ => destruct r; simpl in H; [ | discriminate ]
         end.
  destruct (drivers_of (i + 1) rest) as [ds' |] eqn:E; [ | discriminate ].
  simpl in H. injection H as <-. simpl. f_equal; [ lia | ].
  rewrite (IH _ _ E), <- seq_shift, map_map. apply map_ext. intro k. lia.
Qed.

Lemma teams_of_positions {rt : Runtime} standings :
  forall i ts,
    teams_of i standings = Ok ts ->
    map Team.position ts
    = map (fun k => i + 1 + Z.of_nat k) (seq 0 (List.length standings)).
Proof.
induction standings as [| team rest IH]; intros i ts H; simpl in H.
- now injection H as <-.
- repeat match type of H with
         | rbind (teams_of _ _) _ = Ok _ => fail 1
         | rbind ?r _ = Ok _ => destruct r; simpl in H; [ | discriminate ]
         end.
  destruct (teams_of (i + 1) rest) as [ts' |] eqn:E; [ | discriminate ].
  simpl in H. injection H as <-. simpl. f_equal; [ lia | ].
  rewrite (IH _ _ E), <- seq_shift, map_map. apply map_ext. intro k. lia.
Qed.

Lemma positions_from_zero (ps : list Z) (n : nat) :
  ps = map (fun k => 0 + 1 + Z.of_nat k) (seq 0 n) -> (n <= 10)%nat ->
  positions_from_one ps.
Proof.
intros -> Hn. unfold positions_from_one. rewrite length_map, length_seq.
split; [ | exact Hn ].
rewrite <- seq_shift, map_map. apply map_ext. intro k. lia.
Qed.

Lemma primary_drivers_positions {rt : Runtime} data ds :
  primary_drivers data = Ok ds ->
  positions_from_one (map Driver.position ds).
Proof.
unfold primary_drivers. intro H.
destruct (Py.getitem (JObj data) "standings") as [standings |];
  [ simpl in H | discriminate ].
destruct (Py.slice_to 10 standings) as [top |] eqn:Es;
  [ simpl in H | discriminate ].
destruct (Py.iter top) as [l |] eqn:El; [ simpl in H | discriminate ].
eapply positions_from_zero.
- eapply drivers_of_positions. exact H.
- eapply iter_slice_length; eassumption.
Qed.

Lemma primary_teams_positions {rt : Runtime} data ts :
  primary_teams data = Ok ts ->
  positions_from_one (map Team.position ts).
Proof.
unfold primary_teams. intro H.
destruct (Py.getitem (JObj data) "standings") as [standings |];
  [ simpl in H | discriminate ].
destruct (Py.slice_to 10 standings) as [top |] eqn:Es;
  [ simpl in H | discriminate ].
destruct (Py.iter top) as [l |] eqn:El; [ simpl in H | discriminate ].
eapply positions_from_zero.
- eapply teams_of_positions. exact H.
- eapply iter_slice_length; eassumption.
Qed.

Lemma from_primary_ok {A} key (read : list (string * json) -> result A)
    data a :
  from_primary key read data = Some a -> read (items data) = Ok a.
Proof.
unfold from_primary. destruct (nothing data); [ discriminate | ].
destruct (Py.amem_str key (items data)); [ | discriminate ].
destruct (read (items data)); [ | discriminate ]. now intros [= ->].
Qed.

(** C3, counterexample.  f1api.dev lists Piastri with 10 points before Norris
    with 20: [fetch_driver_standings] returns them in that order, so the
    points increase from position 1 to position 2. *)
Lemma primary_standings_keep_provider_order :
  outcome (fetch_driver_standings (rt := CPython.runtime) unsorted_standings
             clock_2025) []
  = Ok [Driver.mk 1 "Oscar Piastri" "PIA" "McLaren" (inject_Z 10);
        Driver.mk 2 "Lando Norris" "NOR" "McLaren" (inject_Z 20)]
  /\ ~ points_nonincreasing [inject_Z 10; inject_Z 20].
Proof.
split; [ reflexivity | ].
intro H. inversion H as [| ? ? _ H1]; subst.
inversion H1 as [| ? ? H2 _]; subst. apply H2. reflexivity.
Qed.

(** C3, as amended.  Every list the standings operations return has
    positions exactly 1..k, k <= 10, in list order.  Points are non-increasing
    in the lists calculated from race results and in the static fallback; a
    list read from the f1api.dev response keeps the provider's order and
    points. *)
Theorem standings_positions_and_points :
  forall (rt : Runtime) (gw : Gateway) (clock : Clock),
    always ranked (calculate_standings_from_results gw clock)
    /\ ranked get_fallback_standings
    /\ (forall log, exists top_drivers log',
          fetch_driver_standings gw clock log = (Ok top_drivers, log')
          /\ positions_from_one (map Driver.position top_drivers)
          /\ (points_nonincreasing (map Driver.points top_drivers)
              \/ from_primary "standings" primary_drivers
                   (f1api_dev gw log (StandingsDrivers (current_year clock)))
                 = Some top_drivers))
    /\ (forall log, exists top_teams log',
          fetch_constructor_standings gw clock log = (Ok top_teams, log')
          /\ positions_from_one (map Team.position top_teams)
          /\ (points_nonincreasing (map Team.points top_teams)
              \/ from_primary "standings" primary_teams
                   (f1api_dev gw log (StandingsTeams (current_year clock)))
                 = Some top_teams)).
Proof.
intros rt gw clock.
split; [ apply calculate_standings_ranked | ].
split; [ apply fallback_standings_ranked | ].
split; intro log.
- unfold fetch_driver_standings, bind, fetch_from_f1api_dev.
  destruct (from_primary _ _ _) as [ds |] eqn:E.
  + exists ds. eexists. split; [ reflexivity | ]. split; [ | now right ].
    eapply primary_drivers_positions, from_primary_ok, E.
  + destruct (calculate_standings_ranked gw clock
                (log ++ [F1Api (StandingsDrivers (current_year clock))])%list)
      as (r & log' & Er & [[Hp Hs] _]).
    rewrite Er. exists (fst r), log'. split; [ reflexivity | ]. now auto.
- unfold fetch_constructor_standings, bind, fetch_from_f1api_dev.
  destruct (from_primary _ _ _) as [ts |] eqn:E.
  + exists ts. eexists. split; [ reflexivity | ]. split; [ | now right ].
    eapply primary_teams_positions, from_primary_ok, E.
  + destruct (calculate_standings_ranked gw clock
                (log ++ [F1Api (StandingsTeams (current_year clock))])%list)
      as (r & log' & Er & [_ [Hp Hs]]).
    rewrite Er. exists (snd r), log'. split; [ reflexivity | ]. now auto.
Qed.

(** ** Reading the primary answer *)

Lemma from_primary_some {A} key (read : list (string * json) -> result A)
    data v a :
  Py.assoc key data = Some v -> read data = Ok a ->
  from_primary key read (Some data) = Some a.
Proof.
intros Hk Hr. unfold from_primary, Py.amem_str. cbn [items].
rewrite Hk, Hr. destruct data; [ discriminate | reflexivity ].
Qed.

(** ** Dict keys *)

Lemma eq_hkey a b :
  is_hashable a -> is_hashable b ->
  Py.eq a b = hkey_eqb (hkey_of a) (hkey_of b).
Proof.
unfold is_hashable.
destruct a as [| [] | | | | |], b as [| [] | | | | |]; simpl;
  try discriminate; reflexivity.
Qed.

Lemma hkey_eqb_refl a : hkey_eqb a a = true.
Proof.
destruct a; simpl; [ reflexivity | apply Qeq_bool_refl | apply String.eqb_refl ].
Qed.

Lemma hkey_eqb_sym a b : hkey_eqb a b = hkey_eqb b a.
Proof.
destruct a, b; simpl; try reflexivity;
  [ apply Qeq_bool_comm | apply String.eqb_sym ].
Qed.

Lemma hkey_eqb_trans a b c :
  hkey_eqb a b = true -> hkey_eqb b c = true -> hkey_eqb a c = true.
Proof.
destruct a, b, c; simpl; try discriminate; auto.
- apply Qeq_bool_trans.
- rewrite !String.eqb_eq. congruence.
Qed.

Lemma py_eq_refl a : is_hashable a -> Py.eq a a = true.
Proof. intro H. rewrite eq_hkey by assumption. apply hkey_eqb_refl. Qed.

Lemma py_eq_sym a b :
  is_hashable a -> is_hashable b -> Py.eq a b = Py.eq b a.
Proof. intros Ha Hb. rewrite !eq_hkey by assumption. apply hkey_eqb_sym. Qed.

Lemma py_eq_trans a b c :
  is_hashable a -> is_hashable b -> is_hashable c ->
  Py.eq a b = true -> Py.eq b c = true -> Py.eq a c = true.
Proof.
intros Ha Hb Hc. rewrite !eq_hkey by assumption. apply hkey_eqb_trans.
Qed.

(** ** Dicts whose key equality is an equivalence on the keys in use *)

Section DictKeys.
Context {K V : Type} (eqb : K -> K -> bool).

Lemma keys_in_aset (D : K -> Prop) k v (d : list (K * V)) :
  D k -> keys_in D d -> keys_in D (aset eqb k v d).
Proof.
intros Hk Hd. induction Hd as [| [k0 v0] d H0 Hd IH]; simpl.
- repeat constructor. exact Hk.
- destruct (eqb k k0); constructor; auto.
Qed.

Lemma keys_in_aupdate (D : K -> Prop) k (f : V -> V) (d : list (K * V)) :
  keys_in D d -> keys_in D (aupdate eqb k f d).
Proof.
intro Hd. induction Hd as [| [k0 v0] d H0 Hd IH]; simpl.
- constructor.
- destruct (eqb k k0); constructor; auto.
Qed.

End DictKeys.

Section DictFacts.
Context {K V : Type} (eqb : K -> K -> bool) (D : K -> Prop).
Hypothesis eqb_refl : forall a, D a -> eqb a a = true.
Hypothesis eqb_sym : forall a b, D a -> D b -> eqb a b = eqb b a.
Hypothesis eqb_trans :
  forall a b c, D a -> D b -> D c ->
    eqb a b = true -> eqb b c = true -> eqb a c = true.

(** Equal keys compare alike with any third key. *)
Lemma eqb_congr a b c :
  D a -> D b -> D c -> eqb a b = true -> eqb c a = eqb c b.
Proof.
intros Ha Hb Hc Hab.
destruct (eqb c a) eqn:E1, (eqb c b) eqn:E2; try reflexivity.
- rewrite (eqb_trans c a b) in E2; auto.
- rewrite (eqb_trans c b a) in E1; auto. rewrite eqb_sym; auto.
Qed.

Lemma afind_congr k k' (d : list (K * V)) :
  D k -> D k' -> keys_in D d -> eqb k k' = true ->
  afind eqb k d = afind eqb k' d.
Proof.
intros Hk Hk' Hd E. induction Hd as [| [k0 v0] d H0 Hd IH]; simpl;
  [ reflexivity | ].
simpl in H0. rewrite (eqb_sym k k0), (eqb_sym k' k0) by assumption.
rewrite (eqb_congr k k' k0) by assumption.
now rewrite IH.
Qed.

Lemma afind_aset k v k' (d : list (K * V)) :
  D k -> D k' -> keys_in D d ->
  afind eqb k' (aset eqb k v d)
  = if eqb k' k then Some v else afind eqb k' d.
Proof.
intros Hk Hk' Hd. induction Hd as [| [k0 v0] d H0 Hd IH]; simpl.
- reflexivity.
- simpl in H0. destruct (eqb k k0) eqn:E; simpl.
  + rewrite (eqb_congr k k0 k') by assumption.
    now destruct (eqb k' k0).
  + rewrite IH.
    destruct (eqb k' k0) eqn:E0; [ | reflexivity ].
    destruct (eqb k' k) eqn:E1; [ | reflexivity ].
    rewrite (eqb_trans k k' k0) in E; auto; [ discriminate | ].
    rewrite eqb_sym; auto.
Qed.

Lemma afind_aupdate k (f : V -> V) k' (d : list (K * V)) :
  D k -> D k' -> keys_in D d ->
  afind eqb k' (aupdate eqb k f d)
  = if eqb k' k then option_map f (afind eqb k' d) else afind eqb k' d.
Proof.
intros Hk Hk' Hd. induction Hd as [| [k0 v0] d H0 Hd IH]; simpl.
- now destruct (eqb k' k).
- simpl in H0. destruct (eqb k k0) eqn:E; simpl.
  + rewrite (eqb_congr k k0 k') by assumption.
    now destruct (eqb k' k0).
  + rewrite IH.
    destruct (eqb k' k0) eqn:E0; [ | reflexivity ].
    destruct (eqb k' k) eqn:E1; [ | reflexivity ].
    rewrite (eqb_trans k k' k0) in E; auto; [ discriminate | ].
    rewrite eqb_sym; auto.
Qed.

Lemma distinct_keys_aset k v (d : list (K * V)) :
  D k -> keys_in D d -> distinct_keys eqb d ->
  distinct_keys eqb (aset eqb k v d).
Proof.
intros Hk Hd Hs. induction Hd as [| [k0 v0] d H0 Hd IH]; simpl.
- repeat constructor.
- inversion Hs as [| ? ? Hs' Hall]; subst. simpl in H0.
  destruct (eqb k k0) eqn:E.
  + constructor; assumption.
  + constructor; [ apply IH, Hs' | ].
    apply (keys_in_aset eqb (fun b => eqb k0 b = false)); [ | exact Hall ].
    rewrite eqb_sym; assumption.
Qed.

Lemma filter_none k (d : list (K * V)) :
  (forall e, In e d -> eqb k (fst e) = false) ->
  filter (fun e => eqb k (fst e)) d = [].
Proof.
induction d as [| e d IH]; simpl; intro H; [ reflexivity | ].
rewrite (H e) by now left. apply IH. intros e' He'. apply H. now right.
Qed.

(** A key that is present has exactly one entry. *)
Lemma distinct_keys_filter k v (d : list (K * V)) :
  D k -> keys_in D d -> distinct_keys eqb d -> afind eqb k d = Some v ->
  exists k0, filter (fun e => eqb k (fst e)) d = [(k0, v)].
Proof.
intros Hk Hd Hs. induction Hd as [| [k0 v0] d H0 Hd IH]; simpl;
  [ discriminate | ].
inversion Hs as [| ? ? Hs' Hall]; subst. simpl in H0.
destruct (eqb k k0) eqn:E.
- intros [= <-]. exists k0. f_equal. apply filter_none.
  intros [k' v'] Hin. simpl.
  assert (Hk' : D k') by exact (proj1 (Forall_forall _ _) Hd _ Hin).
  assert (E' : eqb k0 k' = false)
    by exact (proj1 (Forall_forall _ _) Hall _ Hin).
  destruct (eqb k k') eqn:E1; [ | reflexivity ].
  rewrite (eqb_trans k0 k k') in E'; auto. rewrite eqb_sym; auto.
- auto.
Qed.

(** An entry is found under its own key. *)
Lemma afind_entry k v (d : list (K * V)) :
  keys_in D d -> distinct_keys eqb d -> In (k, v) d ->
  afind eqb k d = Some v.
Proof.
intros Hd Hs. induction Hd as [| [k0 v0] d H0 Hd IH]; simpl;
  [ contradiction | ].
inversion Hs as [| ? ? Hs' Hall]; subst. simpl in H0.
intros [[= -> ->] | Hin].
- now rewrite eqb_refl.
- assert (Hk : D k) by exact (proj1 (Forall_forall _ _) Hd _ Hin).
  pose proof (proj1 (Forall_forall _ _) Hall _ Hin) as E. simpl in E.
  rewrite eqb_sym, E by assumption. auto.
Qed.

Lemma absent_filter k (d : list (K * V)) :
  afind eqb k d = None -> filter (fun e => eqb k (fst e)) d = [].
Proof.
induction d as [| [k0 v0] d IH]; simpl; [ reflexivity | ].
destruct (eqb k k0); [ discriminate | auto ].
Qed.

End DictFacts.

(** ** Final positions *)

Lemma ltb_irrefl s : String.ltb s s = false.
Proof.
unfold String.ltb.
pose proof (proj2 (String_as_OT.cmp_eq s s) eq_refl) as E.
unfold String_as_OT.cmp in E. now rewrite E.
Qed.

Lemma ltb_trans a b c :
  String.ltb a b = true -> String.ltb b c = true -> String.ltb a c = true.
Proof.
unfold String.ltb. intros Hab Hbc.
destruct (String.compare a b) eqn:Eab; try discriminate.
destruct (String.compare b c) eqn:Ebc; try discriminate.
apply String_as_OT.cmp_lt in Eab, Ebc.
pose proof (String_as_OT.lt_trans _ _ _ Eab Ebc) as Hac.
apply String_as_OT.cmp_lt in Hac. unfold String_as_OT.cmp in Hac.
now rewrite Hac.
Qed.



Ltac hashable_keys :=
  first [ exact py_eq_refl | exact py_eq_sym | exact py_eq_trans
        | assumption ].

Lemma find_set k v k' (d : Py.dict json) :
  is_hashable k -> is_hashable k' -> keys_in is_hashable d ->
  Py.find k' (Py.set k v d) = if Py.eq k' k then Some v else Py.find k' d.
Proof.
intros. apply afind_aset with (D := is_hashable); hashable_keys.
Qed.

Lemma find_congr k k' (d : Py.dict json) :
  is_hashable k -> is_hashable k' -> keys_in is_hashable d ->
  Py.eq k k' = true -> Py.find k d = Py.find k' d.
Proof.
intros. apply afind_congr with (D := is_hashable); hashable_keys.
Qed.

(** ** Keeping the best record of each car *)

Section Kept.
Context (P : json -> Prop) (R B : json -> json -> Prop).
Hypothesis R_refl : forall p, P p -> R p p.
Hypothesis R_trans : forall p kept pos, R p kept -> B pos kept -> R p pos.

Lemma kept_inv_nil : kept_inv P R [] [].
Proof.
split; try constructor; intros; try discriminate; contradiction.
Qed.

(** The record [pos] of car [dn] replaces what was kept for the car. *)
Lemma kept_inv_set seen d pos dn :
  kept_inv P R seen d -> P pos ->
  Py.getitem pos "driver_number" = Ok dn -> is_hashable dn ->
  (forall kept, Py.find dn d = Some kept -> B pos kept) ->
  kept_inv P R (seen ++ [pos]) (Py.set dn pos d).
Proof.
intros [Hk Hd Hkept Hbest] HP Hdn Hh Hbetter. split.
- now apply keys_in_aset.
- apply distinct_keys_aset with (D := is_hashable); hashable_keys.
- intros k kept Hhk. rewrite find_set by assumption.
  destruct (Py.eq k dn) eqn:E.
  + intros [= <-]. split; [ apply in_or_app; right; now left | eauto ].
  + intro Hf. destruct (Hkept k kept Hhk Hf) as (Hin & HPk & Hcar).
    split; [ apply in_or_app; now left | auto ].
- intros p dn' Hin HPp Hdn'. apply in_app_or in Hin.
  destruct Hin as [Hin | [<- | []]].
  + destruct (Hbest p dn' Hin HPp Hdn') as (Hh' & kept & Hf & HR).
    split; [ exact Hh' | ]. rewrite find_set by assumption.
    destruct (Py.eq dn' dn) eqn:E; [ | eauto ].
    exists pos. split; [ reflexivity | ].
    apply R_trans with kept; [ exact HR | ].
    apply Hbetter. rewrite <- Hf. symmetry. now apply find_congr.
  + rewrite Hdn in Hdn'. injection Hdn' as <-. split; [ exact Hh | ].
    exists pos. rewrite find_set, py_eq_refl by assumption.
    split; [ reflexivity | now apply R_refl ].
Qed.

(** The record [pos] of car [dn] is no better than what is kept for the
    car. *)
Lemma kept_inv_keep seen d pos dn kept :
  kept_inv P R seen d ->
  Py.getitem pos "driver_number" = Ok dn -> is_hashable dn ->
  Py.find dn d = Some kept -> R pos kept ->
  kept_inv P R (seen ++ [pos]) d.
Proof.
intros [Hk Hd Hkept Hbest] Hdn Hh Hf HR. split; auto.
- intros k kept' Hhk Hf'. destruct (Hkept k kept' Hhk Hf') as (Hin & Hcar).
  split; [ apply in_or_app; now left | exact Hcar ].
- intros p dn' Hin HPp Hdn'. apply in_app_or in Hin.
  destruct Hin as [Hin | [<- | []]]; [ now apply Hbest | ].
  rewrite Hdn in Hdn'. injection Hdn' as <-. eauto.
Qed.

(** The record [pos] does not count. *)
Lemma kept_inv_skip seen d pos :
  kept_inv P R seen d -> ~ P pos -> kept_inv P R (seen ++ [pos]) d.
Proof.
intros [Hk Hd Hkept Hbest] HnP. split; auto.
- intros k kept' Hhk Hf'. destruct (Hkept k kept' Hhk Hf') as (Hin & Hcar).
  split; [ apply in_or_app; now left | exact Hcar ].
- intros p dn' Hin HPp Hdn'. apply in_app_or in Hin.
  destruct Hin as [Hin | [<- | []]]; [ now apply Hbest | contradiction ].
Qed.


End Kept.

(** ** Final positions *)



(** ** Points accumulation *)

Lemma driver_key_eqb_refl a : hashable_driver a -> driver_key_eqb a a = true.
Proof.
intro H. unfold driver_key_eqb.
now rewrite py_eq_refl, String.eqb_refl.
Qed.

Lemma driver_key_eqb_sym a b :
  hashable_driver a -> hashable_driver b ->
  driver_key_eqb a b = driver_key_eqb b a.
Proof.
intros Ha Hb. unfold driver_key_eqb.
now rewrite py_eq_sym, String.eqb_sym.
Qed.

Lemma driver_key_eqb_trans a b c :
  hashable_driver a -> hashable_driver b -> hashable_driver c ->
  driver_key_eqb a b = true -> driver_key_eqb b c = true ->
  driver_key_eqb a c = true.
Proof.
unfold driver_key_eqb. intros Ha Hb Hc.
rewrite !andb_true_iff, !String.eqb_eq. intros [E1 ->] [E2 ->].
split; [ | reflexivity ]. now apply py_eq_trans with (fst b).
Qed.

Ltac driver_keys :=
  first [ exact driver_key_eqb_refl | exact driver_key_eqb_sym
        | exact driver_key_eqb_trans | assumption ].

Lemma int_table_get_hashable {V} (tbl : list (Z * V)) k default v :
  int_table_get tbl k default = Ok v -> is_hashable k.
Proof.
unfold int_table_get, is_hashable.
destruct (Py.hashable k); [ reflexivity | discriminate ].
Qed.

(** Lines 204-220, for the drivers' accumulator. *)
Lemma award_total {rt : Runtime} driver_number pos_data dp tp dp' tp' :
  award (driver_number, pos_data) (dp, tp) = Ok (dp', tp') ->
  keys_in hashable_driver dp ->
  keys_in hashable_driver dp'
  /\ forall key,
       hashable_driver key ->
       driver_total dp' key
       = driver_total dp key
         + (if driver_key_eqb key (key_of_driver driver_number)
            then position_points pos_data else 0).
Proof.
unfold award, position_points, key_of_driver. intros H Hdp.
destruct (Py.getitem pos_data "position") as [position |];
  [ simpl in H |- * | discriminate ].
destruct (int_table_get DRIVER_INFO driver_number _) as [driver_info |] eqn:Ei;
  [ simpl in H | discriminate ].
destruct (int_table_get POINTS_SYSTEM position 0) as [points |];
  [ simpl in H | discriminate ].
injection H as <- _.
set (dk := (driver_number, name driver_info)).
assert (Hdk : hashable_driver dk)
  by exact (int_table_get_hashable _ _ _ _ Ei).
set (dp1 := if amem driver_key_eqb dk dp then dp
            else aset driver_key_eqb dk (0, driver_info) dp).
assert (Hdp1 : keys_in hashable_driver dp1).
{ unfold dp1. destruct (amem _ _ _); [ exact Hdp | ].
  now apply keys_in_aset. }
split; [ now apply keys_in_aupdate | ].
intros key Hkey. unfold driver_total.
rewrite afind_aupdate with (D := hashable_driver); try driver_keys.
assert (E1 : match afind driver_key_eqb key dp1 with
             | Some data => fst data
             | None => 0
             end
             = match afind driver_key_eqb key dp with
               | Some data => fst data
               | None => 0
               end
             /\ (driver_key_eqb key dk = true ->
                 afind driver_key_eqb key dp1 <> None)).
{ unfold dp1, amem.
  destruct (afind driver_key_eqb dk dp) as [data |] eqn:Ef.
  - split; [ reflexivity | ]. intro E.
    rewrite (afind_congr driver_key_eqb hashable_driver
               driver_key_eqb_sym driver_key_eqb_trans key dk dp)
      by assumption.
    congruence.
  - rewrite afind_aset with (D := hashable_driver); try driver_keys.
    destruct (driver_key_eqb key dk) eqn:E.
    + rewrite (afind_congr driver_key_eqb hashable_driver
                 driver_key_eqb_sym driver_key_eqb_trans key dk dp)
        by assumption.
      rewrite Ef. split; [ reflexivity | discriminate ].
    + split; [ reflexivity | discriminate ]. }
destruct E1 as [E1 E2]. rewrite <- E1.
destruct (driver_key_eqb key dk) eqn:E; [ | lia ].
destruct (afind driver_key_eqb key dp1) as [data |]; [ reflexivity | ].
now destruct E2.
Qed.

Lemma award_loop_total {rt : Runtime} final_positions :
  forall dp tp dp' tp',
    award_loop final_positions (dp, tp) = Ok (dp', tp') ->
    keys_in hashable_driver dp ->
    keys_in hashable_driver dp'
    /\ forall key,
         hashable_driver key ->
         driver_total dp' key
         = driver_total dp key + session_points key final_positions.
Proof.
induction final_positions as [| [dn pos_data] rest IH];
  intros dp tp dp' tp' H Hdp; cbn [award_loop] in H.
- injection H as <- _. split; [ exact Hdp | ].
  intros key _. unfold session_points. simpl. lia.
- destruct (award (dn, pos_data) (dp, tp)) as [[dp1 tp1] |] eqn:Ea;
    [ cbn [rbind] in H | discriminate ].
  destruct (award_total _ _ _ _ _ _ Ea Hdp) as [Hdp1 H1].
  destruct (IH _ _ _ _ H Hdp1) as [Hdp' H2].
  split; [ exact Hdp' | ].
  intros key Hkey. rewrite (H2 key Hkey), (H1 key Hkey).
  unfold session_points. simpl. lia.
Qed.

Lemma sessions_loop_total {rt : Runtime} gw sessions :
  forall acc log acc' log',
    sessions_loop gw sessions acc log = (Ok acc', log') ->
    keys_in hashable_driver (fst acc) ->
    forall key,
      hashable_driver key ->
      driver_total (fst acc') key
      = driver_total (fst acc) key
        + fold_right Z.add 0
            (map (session_points key) (session_finals gw sessions log)).
Proof.
induction sessions as [| session rest IH];
  intros acc log acc' log' H Hacc key Hkey; simpl in H |- *.
- injection H as <- _. lia.
- unfold bind, lift, fetch_from_openf1 in H.
  destruct (Py.getitem session "session_key") as [session_key |];
    [ | discriminate ].
  cbv zeta.
  destruct (nothing (openf1 gw log (Position session_key))).
  + now apply (IH _ _ _ _ H).
  + destruct (final_positions_loop _ []) as [final_positions |];
      [ | discriminate ].
    destruct acc as [dp tp].
    destruct (award_loop final_positions (dp, tp)) as [[dp1 tp1] |] eqn:Ea;
      [ | discriminate ].
    destruct (award_loop_total _ _ _ _ _ Ea Hacc) as [Hdp1 H1].
    rewrite (IH _ _ _ _ H Hdp1 key Hkey). simpl.
    rewrite (H1 key Hkey). simpl. lia.
Qed.

Lemma Qeq_bool_inject_Z a b : Qeq_bool (inject_Z a) (inject_Z b) = (a =? b).
Proof. unfold Qeq_bool. simpl. now rewrite !Z.mul_1_r. Qed.

Lemma no_points_from_11 position :
  11 <= position -> int_table_get POINTS_SYSTEM (JInt position) 0 = Ok 0.
Proof.
intro H. unfold int_table_get, POINTS_SYSTEM. cbn [Py.hashable Py.num_of].
cbn [int_table_find]. rewrite !Qeq_bool_inject_Z.
repeat match goal with
       | |- context [position =? ?k] =>
           destruct (Z.eqb_spec position k); [ lia | ]
       end.
reflexivity.
Qed.

(** C4.  A final position is worth 25, 18, 15, 12, 10, 8, 6, 4, 2, 1 points
    for positions 1 to 10 and 0 for position 11 or more and for a position
    that is no number at all; and the total accumulated under a driver's key
    is the sum, over the sessions processed, of the points of the final
    position kept for the driver in each. *)
Theorem points_table_and_totals :
  map (fun position => int_table_get POINTS_SYSTEM (JInt position) 0)
      [1; 2; 3; 4; 5; 6; 7; 8; 9; 10]
  = map Ok [25; 18; 15; 12; 10; 8; 6; 4; 2; 1]
  /\ (forall position,
         11 <= position ->
         int_table_get POINTS_SYSTEM (JInt position) 0 = Ok 0)
  /\ (forall position,
         is_hashable position -> Py.num_of position = None ->
         int_table_get POINTS_SYSTEM position 0 = Ok 0)
  /\ (forall (rt : Runtime) (gw : Gateway) (sessions : list json)
             (log log' : list call) (acc : driver_points_t * team_points_t)
             (key : driver_key),
         sessions_loop gw sessions ([], []) log = (Ok acc, log') ->
         hashable_driver key ->
         driver_total (fst acc) key
         = fold_right Z.add 0
             (map (session_points key) (session_finals gw sessions log))).
Proof.
split; [ reflexivity | ].
split; [ exact no_points_from_11 | ].
split.
- intros position Hh Hn. unfold int_table_get.
  unfold is_hashable in Hh. now rewrite Hh, Hn.
- intros rt gw sessions log log' acc key H Hkey.
  rewrite (sessions_loop_total gw sessions _ _ _ _ H (Forall_nil _) key Hkey).
  reflexivity.
Qed.

(** C4 on the Melbourne race: car 44 finishes first and holds 25 points. *)
Lemma points_table_and_totals_witness :
  driver_total (fst melbourne_totals) hamilton
  = fold_right Z.add 0
      (map (session_points (rt := CPython.runtime) hamilton)
           (session_finals melbourne_results [melbourne] []))
  /\ driver_total (fst melbourne_totals) hamilton = 25.
Proof.
split; [ | reflexivity ].
apply (proj2 (proj2 (proj2 points_table_and_totals)) CPython.runtime
         melbourne_results [melbourne] []
         [OpenF1 (Position (JInt 9693))]).
- reflexivity.
- reflexivity.
Defined.

(** ** The best laps *)

Lemma lt_numbers d d' x y :
  Py.num_of d = Some x -> Py.num_of d' = Some y ->
  Py.lt d d' = Ok (Py.Qlt_bool x y).
Proof.
destruct d, d'; simpl; try discriminate; intros [= <-] [= <-]; reflexivity.
Qed.

Lemma Qlt_bool_true x y : Py.Qlt_bool x y = true -> (x < y)%Q.
Proof.
unfold Py.Qlt_bool. intro H. apply negb_true_iff in H.
apply Qnot_le_lt. intro Hle. apply Qle_bool_iff in Hle. congruence.
Qed.

Lemma Qlt_bool_false x y : Py.Qlt_bool x y = false -> (y <= x)%Q.
Proof.
unfold Py.Qlt_bool. intro H. apply negb_false_iff in H.
now apply Qle_bool_iff.
Qed.

Lemma timed_duration lap :
  timed lap ->
  exists d x, Py.getitem lap "lap_duration" = Ok d /\ Py.num_of d = Some x.
Proof.
unfold timed, valid_lap. intro H.
destruct (Py.get lap "lap_duration" JNull) as [d0 |]; [ | discriminate ].
simpl in H. destruct (Py.truthy d0); [ | discriminate ].
destruct (Py.getitem lap "lap_duration") as [d |]; [ | discriminate ].
simpl in H. exists d. unfold Py.gt in H.
destruct d; simpl in H; try discriminate; eexists; split; reflexivity.
Qed.

Lemma timed_duration_of lap : timed lap -> exists x, duration_of lap = Some x.
Proof.
intro H. destruct (timed_duration lap H) as (d & x & Hd & Hx).
exists x. unfold duration_of. now rewrite Hd.
Qed.

Lemma not_faster_refl lap : timed lap -> not_faster lap lap.
Proof.
intro H. destruct (timed_duration_of lap H) as [x Hx].
exists x, x. repeat split; auto. apply Qle_refl.
Qed.

Lemma not_faster_trans p kept lap :
  not_faster p kept -> faster lap kept -> not_faster p lap.
Proof.
intros (x & y & Hp & Hk & Hle) (z & y' & Hl & Hk' & Hlt).
rewrite Hk in Hk'. injection Hk' as <-.
exists x, z. repeat split; auto.
apply Qle_trans with y; [ now apply Qlt_le_weak | exact Hle ].
Qed.

Lemma best_laps_loop_inv laps :
  forall seen d best,
    kept_inv timed not_faster seen d ->
    best_laps_loop laps d = Ok best ->
    kept_inv timed not_faster (seen ++ laps) best.
Proof.
induction laps as [| lap rest IH]; intros seen d best Hinv H.
- simpl in H. injection H as <-. now rewrite app_nil_r.
- replace (seen ++ lap :: rest)%list with ((seen ++ [lap]) ++ rest)%list
    by now rewrite <- app_assoc.
  cbn [best_laps_loop] in H.
  destruct (valid_lap lap) as [[] |] eqn:Ev; cbn [rbind] in H;
    [ | | discriminate ].
  + destruct (timed_duration lap Ev) as (dl & x & Hdl & Hx).
    destruct (Py.getitem lap "driver_number") as [dn |] eqn:Edn;
      [ cbn [rbind] in H | discriminate ].
    unfold Py.lookup in H.
    destruct (Py.hashable dn) eqn:Hh; [ cbn [rbind] in H | discriminate ].
    destruct (Py.find dn d) as [kept |] eqn:Ef; cbn [rbind] in H.
    * destruct (inv_kept _ _ _ _ Hinv dn kept Hh Ef) as (_ & Hkv & _).
      destruct (timed_duration kept Hkv) as (dk & y & Hdk & Hy).
      rewrite Hdl, Hdk in H. cbn [rbind] in H.
      rewrite (lt_numbers dl dk x y Hx Hy) in H. cbn [rbind] in H.
      assert (Dl : duration_of lap = Some x)
        by (unfold duration_of; now rewrite Hdl).
      assert (Dk : duration_of kept = Some y)
        by (unfold duration_of; now rewrite Hdk).
      destruct (Py.Qlt_bool x y) eqn:El.
      -- eapply (IH (seen ++ [lap])%list); [ | exact H ].
         apply kept_inv_set with (B := faster);
           [ exact not_faster_refl | exact not_faster_trans | exact Hinv
           | exact Ev | exact Edn | exact Hh | ].
         intros kept0 Hf0. exists x, y.
         split; [ exact Dl | split; [ congruence | ] ].
         now apply Qlt_bool_true.
      -- eapply (IH (seen ++ [lap])%list); [ | exact H ].
         apply kept_inv_keep with (dn := dn) (kept := kept); auto.
         exists x, y. repeat split; auto. now apply Qlt_bool_false.
    * eapply (IH (seen ++ [lap])%list); [ | exact H ].
      apply kept_inv_set with (B := faster);
        [ exact not_faster_refl | exact not_faster_trans | exact Hinv
        | exact Ev | exact Edn | exact Hh | congruence ].
  + eapply (IH (seen ++ [lap])%list); [ | exact H ].
    apply kept_inv_skip; [ exact Hinv | ]. unfold timed. congruence.
Qed.

Lemma py_eq_congr a b c :
  is_hashable a -> is_hashable b -> is_hashable c ->
  Py.eq a b = true -> Py.eq c a = Py.eq c b.
Proof.
intros. apply eqb_congr with (D := is_hashable); hashable_keys.
Qed.

Section KeptValues.
Context (P : json -> Prop) (R : json -> json -> Prop).
Context (seen : list json) (d : Py.dict json).
Hypothesis Hinv : kept_inv P R seen d.

(** What the dict holds for a car is one of the records that count, and no
    such record of the car is better. *)
Lemma kept_value v :
  In v (map snd d) ->
  In v seen /\ P v
  /\ forall p, In p seen -> P p -> same_car v p -> R p v.
Proof.
intro Hv. apply in_map_iff in Hv. destruct Hv as ([k v'] & <- & Hin).
simpl.
assert (Hk : is_hashable k)
  by exact (proj1 (Forall_forall _ _) (inv_keys _ _ _ _ Hinv) _ Hin).
assert (Hf : Py.find k d = Some v').
{ apply afind_entry with (D := is_hashable);
    [ exact py_eq_refl | exact py_eq_sym | exact (inv_keys _ _ _ _ Hinv)
    | exact (inv_distinct _ _ _ _ Hinv) | exact Hin ]. }
destruct (inv_kept _ _ _ _ Hinv k v' Hk Hf) as (Hs & HP & dn & Hdn & Hh & E).
split; [ exact Hs | ]. split; [ exact HP | ].
intros p Hp HPp (dn1 & dn2 & H1 & H2 & E12).
rewrite Hdn in H1. injection H1 as <-.
destruct (inv_best _ _ _ _ Hinv p dn2 Hp HPp H2) as (Hh2 & kept & Hf2 & HR).
assert (Ek : Py.eq k dn2 = true) by now apply py_eq_trans with dn.
rewrite <- (find_congr k dn2 d Hk Hh2 (inv_keys _ _ _ _ Hinv) Ek) in Hf2.
congruence.
Qed.

(** The dict holds at most one record per car. *)
Lemma kept_values_count dn :
  is_hashable dn ->
  (List.length (filter (car_is dn) (map snd d)) <= 1)%nat.
Proof.
intro Hh.
assert (E : filter (car_is dn) (map snd d)
            = map snd (filter (fun e => Py.eq dn (fst e)) d)).
{ pose proof (inv_keys _ _ _ _ Hinv) as Hkeys.
  pose proof (inv_distinct _ _ _ _ Hinv) as Hdist.
  assert (Hall : forall e, In e d -> car_is dn (snd e) = Py.eq dn (fst e)).
  { intros [k v] Hin. simpl.
    assert (Hk : is_hashable k)
      by exact (proj1 (Forall_forall _ _) Hkeys _ Hin).
    assert (Hf : Py.find k d = Some v).
    { apply afind_entry with (D := is_hashable);
        [ exact py_eq_refl | exact py_eq_sym | exact Hkeys | exact Hdist
        | exact Hin ]. }
    destruct (inv_kept _ _ _ _ Hinv k v Hk Hf) as (_ & _ & dn' & Hdn & Hh' & E).
    unfold car_is. rewrite Hdn. symmetry. now apply py_eq_congr. }
  clear - Hall. induction d as [| e l IH]; simpl; [ reflexivity | ].
  rewrite (Hall e) by now left.
  destruct (Py.eq dn (fst e)); simpl; rewrite IH; auto;
    intros e' He'; apply Hall; now right. }
rewrite E, length_map.
destruct (Py.find dn d) as [v |] eqn:Ef.
- destruct (distinct_keys_filter Py.eq is_hashable py_eq_sym py_eq_trans
              dn v d Hh (inv_keys _ _ _ _ Hinv) (inv_distinct _ _ _ _ Hinv) Ef)
    as [k Hk].
  unfold Py.find in *. rewrite Hk. simpl. lia.
- unfold Py.find in Ef. rewrite (absent_filter Py.eq dn d Ef). simpl. lia.
Qed.

End KeptValues.

Lemma filter_length_perm {A} (f : A -> bool) l l' :
  Permutation l l' -> List.length (filter f l) = List.length (filter f l').
Proof.
induction 1 as [| x l l' _ IH | x y l | l l' l'' _ IH1 _ IH2]; simpl.
- reflexivity.
- destruct (f x); simpl; now rewrite IH.
- destruct (f x), (f y); reflexivity.
- now rewrite IH1.
Qed.

Lemma filter_length_firstn {A} (f : A -> bool) n l :
  (List.length (filter f (firstn n l)) <= List.length (filter f l))%nat.
Proof.
revert l. induction n as [| n IH]; intro l; simpl; [ lia | ].
destruct l as [| x l]; simpl; [ lia | ].
specialize (IH l). destruct (f x); simpl; lia.
Qed.

Lemma map_r_keyed laps :
  forall keyed,
    map_r (fun lap =>
             rbind (Py.getitem lap "lap_duration") (fun k => Ok (k, lap)))
          laps = Ok keyed ->
    map snd keyed = laps
    /\ Forall (fun e => Py.getitem (snd e) "lap_duration" = Ok (fst e)) keyed.
Proof.
induction laps as [| lap rest IH]; intros keyed H; simpl in H.
- injection H as <-. split; [ reflexivity | constructor ].
- destruct (Py.getitem lap "lap_duration") as [k |] eqn:Ek;
    [ simpl in H | discriminate ].
  destruct (map_r _ rest) as [keyed' |]; [ simpl in H | discriminate ].
  injection H as <-. destruct (IH keyed' eq_refl) as [E F].
  split; [ simpl; now rewrite E | constructor; [ exact Ek | exact F ] ].
Qed.

Lemma json_lt_keyed x y :
  keyed_lap x -> keyed_lap y ->
  exists a b,
    duration_of (snd x) = Some a /\ duration_of (snd y) = Some b
    /\ json_lt (fst y) (fst x) = Py.Qlt_bool b a.
Proof.
intros [Hx [a Ha]] [Hy [b Hb]]. exists a, b.
unfold duration_of, json_lt. rewrite Hx, Hy, (lt_numbers _ _ _ _ Hb Ha).
auto.
Qed.

Lemma top_laps_of_keyed best top_laps :
  top_laps_of best = Ok top_laps ->
  exists keyed,
    map_r (fun lap =>
             rbind (Py.getitem lap "lap_duration") (fun k => Ok (k, lap)))
          (map snd best) = Ok keyed
    /\ top_laps = firstn 10 (map snd (sorted json_lt fst keyed)).
Proof.
unfold top_laps_of. intro H.
destruct (map_r _ (map snd best)) as [keyed |]; [ | discriminate ].
exists keyed. split; [ reflexivity | ].
cbn [rbind] in H. now injection H as <-.
Qed.

(** Lines 534-542: the laps the top-10 operation selects number at most
    10, are sorted ascending by duration, hold at most one lap per driver
    number, and each of them is a valid lap of the session than which no
    valid lap of the same car is faster. *)
Lemma select_top_laps_spec :
  forall (laps top_laps : list json),
    select_top_laps laps = Ok top_laps ->
    (List.length top_laps <= 10)%nat
    /\ StronglySorted (fun a b => not_faster b a) top_laps
    /\ (forall dn,
           is_hashable dn ->
           (List.length (filter (car_is dn) top_laps) <= 1)%nat)
    /\ (forall lap,
           In lap top_laps ->
           In lap laps /\ timed lap
           /\ forall lap',
                In lap' laps -> timed lap' -> same_car lap lap' ->
                not_faster lap' lap).
Proof.
intros laps top_laps H. unfold select_top_laps in H.
destruct (best_laps_loop laps []) as [best |] eqn:Eb;
  [ cbn [rbind] in H | discriminate ].
pose proof (best_laps_loop_inv laps [] [] best
              (kept_inv_nil timed not_faster) Eb) as Hinv.
simpl in Hinv.
destruct (top_laps_of_keyed _ _ H) as (keyed & Ek & ->).
destruct (map_r_keyed _ _ Ek) as [Hvalues Hkeys].
assert (Hkeyed : Forall keyed_lap keyed).
{ apply Forall_forall. intros e He. split.
  - exact (proj1 (Forall_forall _ _) Hkeys e He).
  - assert (Hv : In (snd e) (map snd best))
      by (rewrite <- Hvalues; now apply in_map).
    destruct (kept_value _ _ _ _ Hinv _ Hv) as (_ & Ht & _).
    destruct (timed_duration _ Ht) as (d0 & x & Hd & Hx).
    rewrite (proj1 (Forall_forall _ _) Hkeys e He) in Hd.
    injection Hd as <-. eauto. }
assert (Hperm : Permutation (map snd (sorted json_lt fst keyed))
                            (map snd best)).
{ rewrite <- Hvalues. apply Permutation_map, sorted_perm. }
split; [ apply firstn_le_length | ].
split; [ | split ].
- apply StronglySorted_firstn.
  apply StronglySorted_map
    with (R := fun a b => not_faster (snd b) (snd a)); [ auto | ].
  apply sorted_sorted with (P := keyed_lap); [ | | | exact Hkeyed ].
  + intros x y z (b & a & Hb & Ha & Hab) (c & b' & Hc & Hb' & Hbc).
    rewrite Hb in Hb'. injection Hb' as <-.
    exists c, a. repeat split; auto. now apply Qle_trans with b.
  + intros x y Hx Hy Hlt.
    destruct (json_lt_keyed x y Hx Hy) as (a & b & Ha & Hb & E).
    rewrite E in Hlt. exists a, b. repeat split; auto.
    now apply Qlt_le_weak, Qlt_bool_true.
  + intros x y Hx Hy Hlt.
    destruct (json_lt_keyed x y Hx Hy) as (a & b & Ha & Hb & E).
    rewrite E in Hlt. exists b, a. repeat split; auto.
    now apply Qlt_bool_false.
- intros dn Hh.
  eapply Nat.le_trans; [ apply filter_length_firstn | ].
  rewrite (filter_length_perm _ _ _ Hperm).
  now apply (kept_values_count _ _ _ _ Hinv).
- intros lap Hlap. apply firstn_incl in Hlap.
  apply (Permutation_in _ Hperm) in Hlap.
  exact (kept_value _ _ _ _ Hinv _ Hlap).
Qed.

(** Lines 544-570: a selection that is not empty never becomes a list of
    records, the first record already evaluates the unbound name. *)
Lemma lap_records_raise {rt : Runtime} latest_session lap rest log :
  exists e log',
    lap_records latest_session (lap :: rest) log = (Raise e, log').
Proof.
cbn [lap_records]. unfold bind at 1.
pose proof (lap_record_raises latest_session lap true log) as H.
destruct (lap_record latest_session lap true log) as [[r | e] log'];
  [ contradiction | eauto ].
Qed.

(** C9 (the code departs from the claim).  Whenever a completed race is
    selected and some of its laps are valid, the laps the top-10 operation
    selects are what the claim says: at most 10, sorted ascending by
    duration, at most one per driver number, each the best valid lap of its
    car.  But the list returned to the caller is not made of them: it is the
    one-element list of the static fallback record, because building the
    first record evaluates the unbound name [get_sector_times] (line 560)
    and the fault is caught at line 574. *)
Theorem top_laps_never_reach_the_caller :
  forall (rt : Runtime) (gw : Gateway) (clock : Clock) (log log' : list call)
         (latest_session session_key : json) (laps top_laps : list json),
    latest_laps gw clock log
    = (Ok (Some (latest_session, session_key, laps)), log') ->
    select_top_laps laps = Ok top_laps ->
    top_laps <> [] ->
    ((List.length top_laps <= 10)%nat
     /\ StronglySorted (fun a b => not_faster b a) top_laps
     /\ (forall dn,
            is_hashable dn ->
            (List.length (filter (car_is dn) top_laps) <= 1)%nat)
     /\ (forall lap,
            In lap top_laps ->
            In lap laps /\ timed lap
            /\ forall lap',
                 In lap' laps -> timed lap' -> same_car lap lap' ->
                 not_faster lap' lap))
    /\ outcome (fetch_fastest_laps gw clock) log
       = Ok [get_fallback_fastest_lap].
Proof.
intros rt gw clock log log' latest_session session_key laps top_laps
  Hlatest Hsel Hne.
split; [ exact (select_top_laps_spec laps top_laps Hsel) | ].
unfold outcome, fetch_fastest_laps, try_except.
unfold bind at 1. rewrite Hlatest.
unfold bind at 1, lift. rewrite Hsel.
destruct top_laps as [| lap rest]; [ now destruct Hne | ].
destruct (lap_records_raise latest_session lap rest log') as (e & log'' & ->).
reflexivity.
Qed.

(** C9 on the Melbourne laps: the best laps of cars 44, 1 and 16 are
    selected, and the fallback record is returned. *)
Lemma top_laps_never_reach_the_caller_witness :
  select_top_laps melbourne_laps
  = Ok [lap_of 44 12 (JFloat 82.167); lap_of 1 10 (JFloat 82.9);
        lap_of 16 12 (JInt 84)]
  /\ outcome (fetch_fastest_laps (rt := CPython.runtime)
                (one_race melbourne_laps) clock_2025) []
     = Ok [get_fallback_fastest_lap]
  /\ get_fallback_fastest_lap
     = FastestLap.mk "Max Verstappen" "VER" "Red Bull Racing" "1:20.554"
         "Abu Dhabi Grand Prix" "2024-12-08" [25.5; 35.2; 19.854]%Q.
Proof.
split; [ reflexivity | ]. split; [ | reflexivity ].
apply (top_laps_never_reach_the_caller CPython.runtime
         (one_race melbourne_laps) clock_2025 []
         [OpenF1 (Sessions 2025); OpenF1 (Laps (JInt 9693))]
         melbourne (JInt 9693) melbourne_laps
         [lap_of 44 12 (JFloat 82.167); lap_of 1 10 (JFloat 82.9);
          lap_of 16 12 (JInt 84)]).
- reflexivity.
- reflexivity.
- discriminate.
Defined.

(** * Further properties of the resolvers *)

(** ** Upstream calls *)

Lemma quiet_ret {A} (a : A) : quiet (ret a).
Proof. intro log. reflexivity. Qed.

Lemma quiet_lift {A} (r : result A) : quiet (lift r).
Proof. intro log. reflexivity. Qed.

Lemma quiet_raise {A} (e : exn) : quiet (@raise A e).
Proof. intro log. reflexivity. Qed.

Lemma quiet_bind {A B} (m : M A) (k : A -> M B) :
  quiet m -> (forall a, quiet (k a)) -> quiet (bind m k).
Proof.
intros Hm Hk log. unfold bind. specialize (Hm log).
destruct (m log) as [[a | e] log']; simpl in Hm; subst log'.
- apply Hk.
- reflexivity.
Qed.

Ltac quiet_auto :=
  repeat first
    [ apply quiet_ret
    | apply quiet_lift
    | apply quiet_raise
    | apply quiet_bind; [ | intro ]
    | match goal with
      | |- quiet (match ?x with _ => _ end) => destruct x
      | |- quiet (if ?x then _ else _) => destruct x
      end ].

Lemma lap_record_quiet {rt : Runtime} latest_session lap top_n :
  quiet (lap_record latest_session lap top_n).
Proof. unfold lap_record, get_sector_times. quiet_auto. Qed.

Lemma lap_records_quiet {rt : Runtime} latest_session top_laps :
  quiet (lap_records latest_session top_laps).
Proof.
induction top_laps as [| lap rest IH]; simpl.
- apply quiet_ret.
- apply quiet_bind; [ apply lap_record_quiet | intro r ].
  apply quiet_bind; [ exact IH | intro rs ]. apply quiet_ret.
Qed.

(** A [try] whose handler makes no call makes the calls of its body. *)
Lemma try_except_calls {A} (body : M A) (v : A) log :
  snd (try_except body (ret v) log) = snd (body log).
Proof.
unfold try_except. destruct (body log) as [[a | e] log']; reflexivity.
Qed.

Lemma bind_assoc {A B C} (m : M A) (f : A -> M B) (g : B -> M C) log :
  bind (bind m f) g log = bind m (fun x => bind (f x) g) log.
Proof.
unfold bind. destruct (m log) as [[a | e] log']; reflexivity.
Qed.

Lemma bind_quiet_calls {A B} (m : M A) (k : A -> M B) log :
  (forall a, quiet (k a)) -> snd (bind m k log) = snd (m log).
Proof.
intro Hk. unfold bind. destruct (m log) as [[a | e] log']; simpl.
- apply Hk.
- reflexivity.
Qed.

Section SessionRequests.
Context {rt : Runtime} (gw : Gateway) (clock : Clock).

(** Lines 441-446 and 511-515, 173-180: the session list and the log after
    the session requests. *)
Lemma sessions_fetched (log : list call) :
  let m :=
    bind (fetch_from_openf1 gw (Sessions (current_year clock)))
      (fun sessions =>
         if nothing sessions then
           fetch_from_openf1 gw (Sessions (current_year clock - 1))
         else ret sessions) in
  exists sessions,
    m log = (Ok sessions, (log ++ session_calls gw clock log)%list)
    /\ items sessions = race_sessions gw clock log
    /\ nothing sessions
       = match race_sessions gw clock log with [] => true | _ => false end.
Proof.
cbv zeta. unfold bind, fetch_from_openf1, session_calls, race_sessions.
destruct (nothing (openf1 gw log (Sessions (current_year clock)))) eqn:E.
- eexists. split; [ rewrite <- app_assoc; reflexivity | ].
  split; [ reflexivity | ].
  destruct (openf1 gw _ (Sessions (current_year clock - 1))) as [[] |];
    reflexivity.
- eexists. split; [ reflexivity | ]. split; [ reflexivity | ].
  destruct (openf1 gw log (Sessions (current_year clock))) as [[] |];
    try discriminate; reflexivity.
Qed.

Lemma latest_laps_calls (log : list call) :
  exists tail,
    snd (latest_laps gw clock log)
    = (log ++ session_calls gw clock log ++ tail)%list
    /\ (tail = [] \/ exists session_key, tail = [OpenF1 (Laps session_key)]).
Proof.
destruct (sessions_fetched log) as (sessions & E & _). cbv zeta in E.
unfold latest_laps. rewrite <- bind_assoc.
unfold bind at 1. rewrite E.
assert (Hnone : forall A (r : result A),
           exists tail,
             snd (r, (log ++ session_calls gw clock log)%list)
             = (log ++ session_calls gw clock log ++ tail)%list
             /\ (tail = []
                 \/ exists session_key, tail = [OpenF1 (Laps session_key)])).
{ intros A r. exists []. rewrite app_nil_r. auto. }
destruct (nothing sessions); [ apply Hnone | ].
unfold bind, lift, fetch_from_openf1, ret.
destruct (filter_r _ (items sessions)) as [[| s past] |];
  try apply Hnone.
destruct (py_max _ (s :: past)) as [latest_session |]; try apply Hnone.
destruct (Py.getitem latest_session "session_key") as [session_key |];
  try apply Hnone.
exists [OpenF1 (Laps session_key)]. split; [ | eauto ].
destruct (nothing _); simpl; now rewrite <- app_assoc.
Qed.

End SessionRequests.

(** X1.  The fastest-lap resolvers talk to OpenF1 only and make at most
    three requests: the race sessions of the current year, those of the year
    before when (and only when) the first answer is empty, and the laps of at
    most one session.  The top-10 resolver makes the same requests as the
    single-lap one. *)
Theorem fastest_lap_upstream_calls :
  forall (rt : Runtime) (gw : Gateway) (clock : Clock) (log : list call),
    (exists tail,
        calls (fetch_fastest_lap gw clock) log
        = (log ++ session_calls gw clock log ++ tail)%list
        /\ (tail = [] \/ exists session_key, tail = [OpenF1 (Laps session_key)]))
    /\ calls (fetch_fastest_laps gw clock) log
       = calls (fetch_fastest_lap gw clock) log.
Proof.
intros rt gw clock log.
assert (E1 : calls (fetch_fastest_lap gw clock) log
             = snd (latest_laps gw clock log)).
{ unfold calls, fetch_fastest_lap. rewrite try_except_calls.
  apply bind_quiet_calls. intros [[[latest_session session_key] laps] |].
  - apply quiet_bind; [ apply quiet_lift | intros [| lap valid_laps] ].
    + apply quiet_ret.
    + apply quiet_bind; [ apply quiet_lift | intro ]. apply lap_record_quiet.
  - apply quiet_ret. }
assert (E2 : calls (fetch_fastest_laps gw clock) log
             = snd (latest_laps gw clock log)).
{ unfold calls, fetch_fastest_laps. rewrite try_except_calls.
  apply bind_quiet_calls. intros [[[latest_session session_key] laps] |].
  - apply quiet_bind; [ apply quiet_lift | intro ]. apply lap_records_quiet.
  - apply quiet_ret. }
split; [ | congruence ].
rewrite E1. apply latest_laps_calls.
Qed.

Lemma sessions_loop_calls {rt : Runtime} gw sessions :
  forall acc log,
    exists ps,
      snd (sessions_loop gw sessions acc log) = (log ++ ps)%list
      /\ Forall is_position_call ps
      /\ (List.length ps <= List.length sessions)%nat.
Proof.
induction sessions as [| session rest IH]; intros acc log; simpl.
- exists []. rewrite app_nil_r. repeat split; auto.
- unfold bind, lift, fetch_from_openf1.
  destruct (Py.getitem session "session_key") as [session_key |].
  + assert (Hstep : forall r : result (driver_points_t * team_points_t),
               exists ps,
                 snd (r, (log ++ [OpenF1 (Position session_key)])%list)
                 = (log ++ ps)%list
                 /\ Forall is_position_call ps
                 /\ (List.length ps <= S (List.length rest))%nat).
    { intro r. exists [OpenF1 (Position session_key)].
      repeat split; [ repeat constructor | simpl; lia ]. }
    assert (Hrest : forall acc',
               exists ps,
                 snd (sessions_loop gw rest acc'
                        (log ++ [OpenF1 (Position session_key)])%list)
                 = (log ++ ps)%list
                 /\ Forall is_position_call ps
                 /\ (List.length ps <= S (List.length rest))%nat).
    { intro acc'.
      destruct (IH acc' (log ++ [OpenF1 (Position session_key)])%list)
        as (ps & E & Hps & Hlen).
      exists (OpenF1 (Position session_key) :: ps).
      rewrite E, <- app_assoc. repeat split; [ | simpl; lia ].
      constructor; [ exact I | exact Hps ]. }
    destruct (nothing _); [ apply Hrest | ].
    destruct (final_positions_loop _ []) as [final_positions |];
      [ | apply Hstep ].
    destruct (award_loop final_positions acc) as [acc' |];
      [ apply Hrest | apply Hstep ].
  + exists []. rewrite app_nil_r. repeat split; [ constructor | simpl; lia ].
Qed.

Lemma calculate_standings_calls {rt : Runtime} gw clock log :
  exists ps,
    calls (calculate_standings_from_results gw clock) log
    = (log ++ session_calls gw clock log ++ ps)%list
    /\ Forall is_position_call ps
    /\ (List.length ps <= List.length (race_sessions gw clock log))%nat.
Proof.
destruct (sessions_fetched gw clock log) as (sessions & E & Hitems & _).
cbv zeta in E.
unfold calls, calculate_standings_from_results.
rewrite try_except_calls, <- bind_assoc. unfold bind at 1. rewrite E.
destruct (nothing sessions).
- exists []. rewrite app_nil_r. repeat split; [ constructor | simpl; lia ].
- rewrite bind_quiet_calls by (intro; apply quiet_ret).
  destruct (sessions_loop_calls gw (items sessions) ([], [])
              (log ++ session_calls gw clock log)%list)
    as (ps & Eps & Hps & Hlen).
  exists ps. rewrite Eps, <- app_assoc, <- Hitems. auto.
Qed.

(** X2.  The standings derivation talks to OpenF1 only: after the session
    requests (the year before is asked when, and only when, the current
    year's answer is empty) every request is a position request, at most one
    per race session.  The standings resolvers ask f1api.dev exactly once,
    first, and whatever follows goes to OpenF1. *)
Theorem standings_upstream_calls :
  forall (rt : Runtime) (gw : Gateway) (clock : Clock) (log : list call),
    (exists ps,
        calls (calculate_standings_from_results gw clock) log
        = (log ++ session_calls gw clock log ++ ps)%list
        /\ Forall is_position_call ps
        /\ (List.length ps <= List.length (race_sessions gw clock log))%nat)
    /\ (exists rest,
           calls (fetch_driver_standings gw clock) log
           = (log ++ F1Api (StandingsDrivers (current_year clock)) :: rest)%list
           /\ Forall is_openf1_call rest)
    /\ (exists rest,
           calls (fetch_constructor_standings gw clock) log
           = (log ++ F1Api (StandingsTeams (current_year clock)) :: rest)%list
           /\ Forall is_openf1_call rest).
Proof.
intros rt gw clock log.
assert (Hcalc : forall log0,
           exists rest,
             snd (calculate_standings_from_results gw clock log0)
             = (log0 ++ rest)%list
             /\ Forall is_openf1_call rest).
{ intro log0.
  destruct (calculate_standings_calls gw clock log0) as (ps & E & Hps & _).
  exists (session_calls gw clock log0 ++ ps)%list. split; [ exact E | ].
  apply Forall_app. split.
  - unfold session_calls. destruct (nothing _); repeat constructor.
  - eapply Forall_impl; [ | exact Hps ]. intros [] H; [ contradiction | ].
    exact I. }
split; [ apply calculate_standings_calls | ].
split.
- unfold calls, fetch_driver_standings, bind, fetch_from_f1api_dev.
  destruct (from_primary _ _ _).
  + exists []. split; [ reflexivity | constructor ].
  + destruct (Hcalc (log ++ [F1Api (StandingsDrivers (current_year clock))])%list)
      as (rest & E & Hrest).
    exists rest. split; [ | exact Hrest ].
    destruct (calculate_standings_from_results gw clock _) as [[r | e] log'];
      simpl in E |- *; rewrite E, <- app_assoc; reflexivity.
- unfold calls, fetch_constructor_standings, bind, fetch_from_f1api_dev.
  destruct (from_primary _ _ _).
  + exists []. split; [ reflexivity | constructor ].
  + destruct (Hcalc (log ++ [F1Api (StandingsTeams (current_year clock))])%list)
      as (rest & E & Hrest).
    exists rest. split; [ | exact Hrest ].
    destruct (calculate_standings_from_results gw clock _) as [[r | e] log'];
      simpl in E |- *; rewrite E, <- app_assoc; reflexivity.
Qed.

Lemma second_tier_calls {rt : Runtime} gw clock log :
  snd (second_tier gw clock log)
  = (log ++ [OpenF1 (Meetings (current_year clock))])%list.
Proof.
unfold second_tier. rewrite try_except_calls.
unfold bind, fetch_from_openf1, lift, ret.
destruct (nothing _); [ reflexivity | ].
now destruct (tier2 clock _).
Qed.

Lemma third_tier_calls {rt : Runtime} gw clock log :
  snd (third_tier gw clock log)
  = (log ++ [F1Api (Season (current_year clock + 1))])%list.
Proof.
unfold third_tier. rewrite try_except_calls.
unfold bind, fetch_from_f1api_dev, ret.
now destruct (from_primary _ _ _).
Qed.

(** X3.  The next-race resolver tries its tiers in a fixed order and makes
    between one and three upstream requests: the season at f1api.dev, then
    the meetings at OpenF1, then next year's season at f1api.dev.  It stops
    after the first request exactly when the first tier has a result. *)
Theorem next_race_upstream_calls :
  forall (rt : Runtime) (gw : Gateway) (clock : Clock) (log : list call),
    exists n,
      (1 <= n <= 3)%nat
      /\ calls (fetch_next_race gw clock) log
         = (log ++ firstn n (next_race_calls clock))%list
      /\ (n = 1%nat
          <-> flatten
                (from_primary "races" (tier1 clock)
                   (f1api_dev gw log (Season (current_year clock))))
              <> None).
Proof.
intros rt gw clock log.
unfold calls, fetch_next_race, bind at 1, fetch_from_f1api_dev.
destruct (flatten _) as [r |] eqn:E1.
- exists 1%nat. repeat split; try lia; try discriminate.
- assert (Hno : forall n, (2 <= n)%nat -> n = 1%nat <-> @None NextRace.t <> None).
  { intros n Hn. split; [ lia | intro H; now destruct H ]. }
  unfold bind at 1.
  pose proof (second_tier_calls gw clock
                (log ++ [F1Api (Season (current_year clock))])%list) as E2.
  destruct (second_tier gw clock _) as [[[r |] | e] log2];
    simpl in E2; subst log2.
  + exists 2%nat. split; [ lia | ]. split; [ | apply Hno; lia ].
    simpl. now rewrite <- app_assoc.
  + exists 3%nat. split; [ lia | ]. split; [ | apply Hno; lia ].
    unfold bind.
    pose proof (third_tier_calls gw clock
                  ((log ++ [F1Api (Season (current_year clock))])
                   ++ [OpenF1 (Meetings (current_year clock))])%list) as E3.
    destruct (third_tier gw clock _) as [[[r |] | e] log3];
      simpl in E3; subst log3; simpl; now rewrite <- !app_assoc.
  + exists 2%nat. split; [ lia | ]. split; [ | apply Hno; lia ].
    simpl. now rewrite <- app_assoc.
Qed.

(** ** The accumulators of the standings derivation *)

Lemma award_loop_app {rt : Runtime} l1 :
  forall l2 acc,
    award_loop (l1 ++ l2)%list acc = rbind (award_loop l1 acc) (award_loop l2).
Proof.
induction l1 as [| entry l1 IH]; intros l2 acc; simpl; [ reflexivity | ].
destruct (award entry acc) as [acc' |]; simpl; [ apply IH | reflexivity ].
Qed.

(** Lines 186-226: going through the sessions one by one awards the final
    positions of all of them in sequence. *)
Lemma sessions_loop_awards {rt : Runtime} gw sessions :
  forall acc log acc' log',
    sessions_loop gw sessions acc log = (Ok acc', log') ->
    award_loop (List.concat (session_finals gw sessions log)) acc = Ok acc'.
Proof.
induction sessions as [| session rest IH]; intros acc log acc' log' H;
  simpl in H |- *.
- now injection H as <- _.
- unfold bind, lift, fetch_from_openf1 in H.
  destruct (Py.getitem session "session_key") as [session_key |];
    [ | discriminate ].
  cbv zeta.
  destruct (nothing (openf1 gw log (Position session_key))).
  + exact (IH _ _ _ _ H).
  + destruct (final_positions_loop _ []) as [final_positions |];
      [ | discriminate ].
    destruct (award_loop final_positions acc) as [acc1 |] eqn:Ea;
      [ | discriminate ].
    simpl. rewrite award_loop_app, Ea. simpl. exact (IH _ _ _ _ H).
Qed.

Section Ensure.
Context {K V : Type} (eqb : K -> K -> bool).

Lemma aset_absent k v (d : list (K * V)) :
  amem eqb k d = false -> aset eqb k v d = (d ++ [(k, v)])%list.
Proof.
unfold amem. induction d as [| [k0 v0] d IH]; simpl; [ reflexivity | ].
destruct (eqb k k0); [ discriminate | ]. intro H. now rewrite IH.
Qed.

Lemma amem_app_last k v (d : list (K * V)) :
  eqb k k = true -> amem eqb k (d ++ [(k, v)]) = true.
Proof.
intro Hk. unfold amem. induction d as [| [k0 v0] d IH]; simpl.
- now rewrite Hk.
- now destruct (eqb k k0).
Qed.

(** [if k not in d: d[k] = v0], then [k] is in [d]. *)
Lemma amem_ensure k v0 (d : list (K * V)) :
  eqb k k = true ->
  amem eqb k (if amem eqb k d then d else aset eqb k v0 d) = true.
Proof.
intro Hk. destruct (amem eqb k d) eqn:E; [ exact E | ].
rewrite aset_absent by exact E. now apply amem_app_last.
Qed.

Section Sums.
Context (val : V -> Z).

Lemma sum_app_last k v (d : list (K * V)) :
  fold_right Z.add 0 (map (fun e => val (snd e)) (d ++ [(k, v)])%list)
  = fold_right Z.add 0 (map (fun e => val (snd e)) d) + val v.
Proof. induction d as [| e d IH]; simpl; lia. Qed.

Lemma sum_aupdate k (f : V -> V) p (d : list (K * V)) :
  (forall v, val (f v) = val v + p) ->
  amem eqb k d = true ->
  fold_right Z.add 0 (map (fun e => val (snd e)) (aupdate eqb k f d))
  = fold_right Z.add 0 (map (fun e => val (snd e)) d) + p.
Proof.
intro Hf. unfold amem. induction d as [| [k0 v0] d IH]; simpl;
  [ discriminate | ].
destruct (eqb k k0); simpl.
- intros _. rewrite Hf. lia.
- intro H. rewrite IH by exact H. lia.
Qed.

(** Lines 211-226: [if k not in d: d[k] = v0] and [d[k] += p] add [p] to
    the sum of the dict. *)
Lemma sum_ensure_update k v0 (f : V -> V) p (d : list (K * V)) :
  eqb k k = true -> val v0 = 0 ->
  (forall v, val (f v) = val v + p) ->
  fold_right Z.add 0
    (map (fun e => val (snd e))
       (aupdate eqb k f (if amem eqb k d then d else aset eqb k v0 d)))
  = fold_right Z.add 0 (map (fun e => val (snd e)) d) + p.
Proof.
intros Hk H0 Hf.
rewrite (sum_aupdate k f p) by (auto using amem_ensure).
destruct (amem eqb k d) eqn:E; [ reflexivity | ].
rewrite aset_absent by exact E. rewrite sum_app_last. lia.
Qed.

Lemma values_ensure_update (Q : V -> Prop) k v0 (f : V -> V)
    (d : list (K * V)) :
  Q v0 -> (forall v, Q v -> Q (f v)) ->
  Forall (fun e => Q (snd e)) d ->
  Forall (fun e => Q (snd e))
    (aupdate eqb k f (if amem eqb k d then d else aset eqb k v0 d)).
Proof.
intros H0 Hf Hd.
assert (H1 : Forall (fun e => Q (snd e))
               (if amem eqb k d then d else aset eqb k v0 d)).
{ destruct (amem eqb k d) eqn:E; [ exact Hd | ].
  rewrite aset_absent by exact E. apply Forall_app. split; [ exact Hd | ].
  repeat constructor. exact H0. }
revert H1. generalize (if amem eqb k d then d else aset eqb k v0 d).
intros d1 H1. induction H1 as [| [k0 v1] d1 Hv H1 IH]; simpl;
  [ constructor | ].
destruct (eqb k k0); constructor; auto. simpl in *. auto.
Qed.

End Sums.

Context (D : K -> Prop).
Hypothesis eqb_refl : forall a, D a -> eqb a a = true.
Hypothesis eqb_sym : forall a b, D a -> D b -> eqb a b = eqb b a.
Hypothesis eqb_trans :
  forall a b c, D a -> D b -> D c ->
    eqb a b = true -> eqb b c = true -> eqb a c = true.

Lemma distinct_keys_aupdate k (f : V -> V) (d : list (K * V)) :
  distinct_keys eqb d -> distinct_keys eqb (aupdate eqb k f d).
Proof.
intro Hs. induction Hs as [| [k0 v0] d Hs IH Hall]; simpl; [ constructor | ].
destruct (eqb k k0); constructor; auto.
exact (keys_in_aupdate eqb (fun b => eqb k0 b = false) k f d Hall).
Qed.

Lemma distinct_keys_ensure_update k v0 (f : V -> V) (d : list (K * V)) :
  D k -> keys_in D d -> distinct_keys eqb d ->
  distinct_keys eqb
    (aupdate eqb k f (if amem eqb k d then d else aset eqb k v0 d)).
Proof.
intros Hk Hd Hs. apply distinct_keys_aupdate.
destruct (amem eqb k d); [ exact Hs | ].
now apply distinct_keys_aset with (D := D).
Qed.

(** What [d.get(k')] is after [if k not in d: d[k] = v0] and
    [d[k] = f(d[k])]. *)
Lemma afind_ensure_update k v0 (f : V -> V) k' (d : list (K * V)) :
  D k -> D k' -> keys_in D d ->
  afind eqb k' (aupdate eqb k f (if amem eqb k d then d else aset eqb k v0 d))
  = if eqb k' k
    then Some (f (match afind eqb k' d with Some v => v | None => v0 end))
    else afind eqb k' d.
Proof.
intros Hk Hk' Hd.
assert (Hd1 : keys_in D (if amem eqb k d then d else aset eqb k v0 d)).
{ destruct (amem eqb k d); [ exact Hd | now apply keys_in_aset ]. }
rewrite afind_aupdate with (D := D); auto.
destruct (eqb k' k) eqn:E.
- unfold amem.
  rewrite (afind_congr eqb D eqb_sym eqb_trans k' k d) by assumption.
  destruct (afind eqb k d) as [v |] eqn:Ef.
  + rewrite (afind_congr eqb D eqb_sym eqb_trans k' k d) by assumption.
    now rewrite Ef.
  + rewrite afind_aset with (D := D); auto. now rewrite E.
- destruct (amem eqb k d); [ reflexivity | ].
  rewrite afind_aset with (D := D); auto. now rewrite E.
Qed.

End Ensure.

Lemma string_eqb_trans (a b c : string) :
  String.eqb a b = true -> String.eqb b c = true -> String.eqb a c = true.
Proof.
intros H1 H2. apply String.eqb_eq in H1, H2. subst. apply String.eqb_refl.
Qed.

Lemma keys_in_any {K V} (d : list (K * V)) : keys_in (fun _ => True) d.
Proof. apply Forall_forall. intros e _. exact I. Qed.

Ltac string_keys :=
  first [ exact I
        | apply keys_in_any
        | intros; apply String.eqb_refl
        | intros; apply String.eqb_sym
        | intros; eapply string_eqb_trans; eassumption ].

Lemma points_range position points :
  int_table_get POINTS_SYSTEM position 0 = Ok points -> 0 <= points <= 25.
Proof.
unfold int_table_get. destruct (Py.hashable position); [ | discriminate ].
intros [= <-]. destruct (Py.num_of position) as [q |]; [ | lia ].
unfold POINTS_SYSTEM. cbn [int_table_find].
repeat match goal with
       | |- context [if Qeq_bool q ?k then _ else _] =>
           destruct (Qeq_bool q k); [ lia | ]
       end.
lia.
Qed.

Lemma position_points_range pos_data : 0 <= position_points pos_data <= 25.
Proof.
unfold position_points.
destruct (Py.getitem pos_data "position") as [position |]; simpl; [ | lia ].
destruct (int_table_get POINTS_SYSTEM position 0) as [points |] eqn:E;
  [ | lia ].
exact (points_range _ _ E).
Qed.

Lemma award_steps {rt : Runtime} driver_number pos_data acc acc' :
  award (driver_number, pos_data) acc = Ok acc' ->
  award_step driver_number pos_data acc acc'.
Proof.
destruct acc as [dp tp].
unfold award. intro H.
assert (Hp := position_points_range pos_data).
split; cbn [fst snd]; unfold position_points in *; unfold team_of_driver;
  unfold driver_points_t, team_points_t in *.
all: destruct (Py.getitem pos_data "position") as [position |];
  [ cbn [rbind] in * | discriminate ].
all: destruct (int_table_get DRIVER_INFO driver_number _)
  as [driver_info |] eqn:Ei; [ cbn [rbind] in H | discriminate ].
all: destruct (int_table_get POINTS_SYSTEM position 0) as [points |];
  [ simpl in H | discriminate ].
all: injection H as <-; cbn [fst snd].
all: assert (Hdk : driver_key_eqb (driver_number, name driver_info)
                     (driver_number, name driver_info) = true)
  by (apply driver_key_eqb_refl; exact (int_table_get_hashable _ _ _ _ Ei)).
- intro team. unfold team_total.
  rewrite afind_ensure_update with (D := fun _ => True); try string_keys.
  destruct (String.eqb team (info_team driver_info)); [ | lia ].
  destruct (afind String.eqb team tp); lia.
- unfold drivers_sum.
  apply (sum_ensure_update driver_key_eqb (fun v : Z * DriverInfo => fst v));
    [ exact Hdk | reflexivity | reflexivity ].
- unfold teams_sum.
  apply (sum_ensure_update String.eqb (fun v : Z => v));
    [ apply String.eqb_refl | reflexivity | reflexivity ].
- apply (values_ensure_update driver_key_eqb
           (fun v : Z * DriverInfo => 0 <= fst v)); simpl; intros; lia.
- apply (values_ensure_update String.eqb (fun v : Z => 0 <= v));
    intros; lia.
- apply distinct_keys_ensure_update with (D := fun _ => True);
    try string_keys.
Qed.

Lemma team_session_points_app {rt : Runtime} team l1 l2 :
  team_session_points team (l1 ++ l2)%list
  = team_session_points team l1 + team_session_points team l2.
Proof.
unfold team_session_points. induction l1 as [| e l1 IH]; simpl; lia.
Qed.

(** The same for a whole list of final positions. *)
Lemma award_loop_steps {rt : Runtime} final_positions :
  forall acc acc',
    award_loop final_positions acc = Ok acc' ->
    (forall team,
        team_total (snd acc') team
        = team_total (snd acc) team
          + team_session_points team final_positions)
    /\ drivers_sum (fst acc') = drivers_sum (fst acc) + awarded final_positions
    /\ teams_sum (snd acc') = teams_sum (snd acc) + awarded final_positions
    /\ (Forall (fun e => 0 <= fst (snd e)) (fst acc) ->
        Forall (fun e => 0 <= fst (snd e)) (fst acc'))
    /\ (Forall (fun e => 0 <= snd e) (snd acc) ->
        Forall (fun e => 0 <= snd e) (snd acc'))
    /\ (distinct_keys String.eqb (snd acc) ->
        distinct_keys String.eqb (snd acc')).
Proof.
induction final_positions as [| [dn pos_data] rest IH]; intros acc acc' H;
  cbn [award_loop] in H.
- injection H as <-. unfold team_session_points, awarded. simpl.
  repeat split; auto; intros; lia.
- destruct (award (dn, pos_data) acc) as [acc1 |] eqn:Ea;
    [ cbn [rbind] in H | discriminate ].
  destruct (award_steps _ _ _ _ Ea) as [S1 S2 S3 S4 S5 S6].
  destruct (IH _ _ H) as (I1 & I2 & I3 & I4 & I5 & I6).
  repeat split; auto.
  + intro team. rewrite I1, S1. unfold team_session_points. simpl. lia.
  + rewrite I2, S2. unfold awarded. simpl. lia.
  + rewrite I3, S3. unfold awarded. simpl. lia.
Qed.

Lemma unlisted_team {rt : Runtime} driver_number :
  is_hashable driver_number ->
  (forall q,
      Py.num_of driver_number = Some q ->
      int_table_find q DRIVER_INFO = None) ->
  team_of_driver driver_number = "Unknown".
Proof.
unfold team_of_driver, int_table_get, is_hashable. intros -> H.
destruct (Py.num_of driver_number) as [q |]; [ | reflexivity ].
now rewrite (H q eq_refl).
Qed.

(** X4.  A team's accumulated points are the points of all final positions
    of the processed sessions whose car number belongs to the team; the
    points of a car number that [DRIVER_INFO] does not list go to the team
    "Unknown". *)
Theorem team_points_totals :
  forall (rt : Runtime),
    (forall (gw : Gateway) (sessions : list json) (log log' : list call)
            (acc : driver_points_t * team_points_t) (team : string),
        sessions_loop gw sessions ([], []) log = (Ok acc, log') ->
        team_total (snd acc) team
        = team_session_points team
            (List.concat (session_finals gw sessions log)))
    /\ (forall driver_number,
           is_hashable driver_number ->
           (forall q,
               Py.num_of driver_number = Some q ->
               int_table_find q DRIVER_INFO = None) ->
           team_of_driver driver_number = "Unknown").
Proof.
intro rt. split; [ | apply unlisted_team ].
intros gw sessions log log' acc team H.
apply sessions_loop_awards in H.
destruct (award_loop_steps _ _ _ H) as (H1 & _).
rewrite H1. reflexivity.
Qed.

Lemma team_points_totals_witness :
  team_total (snd melbourne_totals) "Ferrari"
  = team_session_points (rt := CPython.runtime) "Ferrari"
      (List.concat (session_finals melbourne_results [melbourne] []))
  /\ team_total (snd melbourne_totals) "Ferrari" = 25
  /\ team_of_driver (rt := CPython.runtime) (JInt 99) = "Unknown".
Proof.
split; [ | split; [ reflexivity | ] ].
- apply (proj1 (team_points_totals CPython.runtime) melbourne_results
           [melbourne] [] [OpenF1 (Position (JInt 9693))]).
  reflexivity.
- apply (proj2 (team_points_totals CPython.runtime) (JInt 99)).
  + reflexivity.
  + intros q [= <-]. reflexivity.
Defined.

Lemma awarded_range final_positions :
  0 <= awarded final_positions
  <= 25 * Z.of_nat (List.length final_positions).
Proof.
unfold awarded. induction final_positions as [| e l IH].
- simpl. lia.
- pose proof (position_points_range (snd e)).
  cbn [map fold_right List.length]. lia.
Qed.

(** X5.  Every point that is awarded is counted once for a driver and once
    for a team: after the sessions are processed, the drivers' points and
    the teams' points both add up to the points of all final positions; no
    entry is negative, and a final position is worth at most 25 points. *)
Theorem points_are_conserved :
  forall (rt : Runtime) (gw : Gateway) (sessions : list json)
         (log log' : list call) (acc : driver_points_t * team_points_t),
    sessions_loop gw sessions ([], []) log = (Ok acc, log') ->
    let final_positions := List.concat (session_finals gw sessions log) in
    drivers_sum (fst acc) = awarded final_positions
    /\ teams_sum (snd acc) = awarded final_positions
    /\ Forall (fun e => 0 <= fst (snd e)) (fst acc)
    /\ Forall (fun e => 0 <= snd e) (snd acc)
    /\ 0 <= awarded final_positions
       <= 25 * Z.of_nat (List.length final_positions).
Proof.
intros rt gw sessions log log' acc H final_positions.
apply sessions_loop_awards in H. fold final_positions in H.
destruct (award_loop_steps _ _ _ H) as (_ & H2 & H3 & H4 & H5 & _).
split; [ exact H2 | ]. split; [ exact H3 | ].
split; [ apply H4; constructor | ]. split; [ apply H5; constructor | ].
apply awarded_range.
Qed.

Lemma points_are_conserved_witness :
  drivers_sum (fst melbourne_totals) = 43
  /\ teams_sum (snd melbourne_totals) = 43
  /\ teams_sum (snd melbourne_totals)
     = awarded (List.concat (session_finals melbourne_results [melbourne] [])).
Proof.
split; [ reflexivity | ]. split; [ reflexivity | ].
apply (points_are_conserved CPython.runtime melbourne_results [melbourne]
         [] [OpenF1 (Position (JInt 9693))]).
reflexivity.
Defined.

(** ** The ten best *)

Lemma StronglySorted_app_inv {A} (R : A -> A -> Prop) (l1 l2 : list A) :
  StronglySorted R (l1 ++ l2) ->
  forall a b, In a l1 -> In b l2 -> R a b.
Proof.
induction l1 as [| x l1 IH]; simpl; intros Hs a b Ha Hb; [ contradiction | ].
inversion Hs as [| ? ? Hs' Hall]; subst.
destruct Ha as [<- | Ha].
- eapply Forall_forall; [ exact Hall | ]. apply in_or_app. now right.
- now apply IH.
Qed.

Lemma insert_stable {A} (pts : A -> Z) p x l :
  filter (fun e => pts e =? p) (insert Z.gtb pts x l)
  = filter (fun e => pts e =? p) (x :: l).
Proof.
induction l as [| y l IH]; [ reflexivity | ].
cbn [insert]. destruct (Z.gtb (pts y) (pts x)) eqn:E; [ | reflexivity ].
rewrite Z.gtb_ltb in E. apply Z.ltb_lt in E.
cbn [filter] in IH |- *. rewrite IH.
destruct (Z.eqb_spec (pts x) p), (Z.eqb_spec (pts y) p);
  try reflexivity; lia.
Qed.

(** [sorted(..., reverse=True)] is stable. *)
Lemma sorted_stable {A} (pts : A -> Z) p l :
  filter (fun e => pts e =? p) (sorted Z.gtb pts l)
  = filter (fun e => pts e =? p) l.
Proof.
induction l as [| x l IH]; [ reflexivity | ].
cbn [sorted]. rewrite insert_stable. cbn [filter]. now rewrite IH.
Qed.

Lemma sorted_ten_best {A} (pts : A -> Z) (l : list A) :
  ten_best pts l (firstn 10 (sorted Z.gtb pts l)).
Proof.
assert (Hs : StronglySorted (fun a b => pts b <= pts a) (sorted Z.gtb pts l)).
{ apply sorted_sorted with (P := fun _ => True).
  - intros x y z H1 H2. lia.
  - intros x y _ _ H. rewrite Z.gtb_ltb in H. apply Z.ltb_lt in H. lia.
  - intros x y _ _ H. rewrite Z.gtb_ltb in H. apply Z.ltb_ge in H. lia.
  - apply Forall_forall. intros x _. exact I. }
exists (skipn 10 (sorted Z.gtb pts l)).
rewrite firstn_skipn. repeat split.
- symmetry. apply sorted_perm.
- rewrite length_firstn.
  now rewrite (Permutation_length (sorted_perm Z.gtb pts l)).
- now apply StronglySorted_firstn.
- apply StronglySorted_app_inv. now rewrite firstn_skipn.
- intro p. apply sorted_stable.
Qed.

(** X6.  The derived standings list the ten entries with the most points,
    best first: no entry that is left out has more points than a listed
    one, and entries level on points keep the order in which they entered
    the accumulator.  Each listed record carries the name, the team and the
    points of its accumulator entry. *)
Theorem standings_list_the_ten_best :
  forall (driver_points : driver_points_t) (team_points : team_points_t),
    (exists kept,
        ten_best (fun e => fst (snd e)) driver_points kept
        /\ map (fun d => (Driver.driver_name d, Driver.abbreviation d,
                          Driver.team d, Driver.points d))
               (top_drivers driver_points)
           = map (fun e => (name (snd (snd e)), abbr (snd (snd e)),
                            info_team (snd (snd e)), inject_Z (fst (snd e))))
                 kept)
    /\ (exists kept,
           ten_best snd team_points kept
           /\ map (fun t => (Team.team_name t, Team.points t))
                  (top_teams team_points)
              = map (fun e => (fst e, inject_Z (snd e))) kept).
Proof.
intros driver_points team_points. split.
- exists (firstn 10 (sorted Z.gtb (fun e => fst (snd e)) driver_points)).
  split; [ apply sorted_ten_best | ].
  unfold top_drivers. rewrite map_map. cbn.
  rewrite <- (map_map snd
                (fun e : driver_key * (Z * DriverInfo) =>
                   (name (snd (snd e)), abbr (snd (snd e)),
                    info_team (snd (snd e)), inject_Z (fst (snd e))))).
  now rewrite enumerate_snd.
- exists (firstn 10 (sorted Z.gtb snd team_points)).
  split; [ apply sorted_ten_best | ].
  unfold top_teams. rewrite map_map. cbn.
  rewrite <- (map_map snd
                (fun e : string * Z => (fst e, inject_Z (snd e)))).
  now rewrite enumerate_snd.
Qed.

(** ** One record per team *)

Lemma distinct_keys_NoDup {V} (d : list (string * V)) :
  distinct_keys String.eqb d -> NoDup (map fst d).
Proof.
intro Hs. induction Hs as [| [k v] d Hs IH Hall]; simpl; constructor; auto.
intro Hin. apply in_map_iff in Hin. destruct Hin as ([k' v'] & E & Hin).
simpl in E. subst k'.
pose proof (proj1 (Forall_forall _ _) Hall _ Hin) as Hne. simpl in Hne.
now rewrite String.eqb_refl in Hne.
Qed.

Lemma top_teams_names (team_points : team_points_t) :
  map Team.team_name (top_teams team_points)
  = firstn 10 (map fst (sorted Z.gtb snd team_points)).
Proof.
unfold top_teams. rewrite map_map. cbn [Team.team_name].
rewrite <- (map_map snd (fun e : string * Z => fst e)), enumerate_snd.
symmetry. apply firstn_map.
Qed.

Lemma NoDup_firstn_of {A} n (l : list A) : NoDup l -> NoDup (firstn n l).
Proof.
intro H. rewrite <- (firstn_skipn n l) in H.
exact (NoDup_app_remove_r _ _ H).
Qed.

(** X7.  The derived team standings hold at most one record per team name,
    whatever OpenF1 answers; so do the fallback standings. *)
Theorem derived_teams_are_distinct :
  forall (rt : Runtime) (gw : Gateway) (clock : Clock),
    always (fun r => NoDup (map Team.team_name (snd r)))
      (calculate_standings_from_results gw clock).
Proof.
intros rt gw clock.
assert (Hfb : NoDup (map Team.team_name (snd get_fallback_standings))).
{ simpl. repeat constructor; simpl; intuition discriminate. }
unfold calculate_standings_from_results. intro log.
apply try_except_yields; [ | exact Hfb ].
do 2 (apply yields_bind; intro).
destruct (nothing _); [ now apply yields_ret | ].
apply yields_bind_with
  with (Q := fun acc : driver_points_t * team_points_t =>
               distinct_keys String.eqb (snd acc)).
- intro log0.
  destruct (sessions_loop gw _ _ log0) as [[acc | e] log1] eqn:E;
    [ | exact I ].
  apply sessions_loop_awards in E.
  destruct (award_loop_steps _ _ _ E) as (_ & _ & _ & _ & _ & H6).
  apply H6. constructor.
- intros acc Hacc. apply yields_ret. cbn [snd].
  rewrite top_teams_names. apply NoDup_firstn_of.
  apply Permutation_NoDup with (l := map fst (snd acc)).
  + apply Permutation_map. symmetry. apply sorted_perm.
  + now apply distinct_keys_NoDup.
Qed.

(** ** The next race *)

(** Aware datetimes compare by their instants. *)
Lemma lt_aware a b oa ob :
  Datetime.tzinfo a = Some oa -> Datetime.tzinfo b = Some ob ->
  Datetime.lt a b = Ok (instant a <? instant b).
Proof.
intros Ha Hb. unfold Datetime.lt, Datetime.sub. rewrite Ha, Hb.
unfold Datetime.negative. f_equal.
destruct (normalize_spec
            (Datetime.toordinal a - Datetime.toordinal b)
            (Datetime.seconds_of_day a - Datetime.seconds_of_day b)
            (Datetime.microsecond a - Datetime.microsecond b + ob - oa))
  as (Hd & _).
cbv zeta in Hd. rewrite Hd.
replace ((((Datetime.toordinal a - Datetime.toordinal b) * 86400
           + (Datetime.seconds_of_day a - Datetime.seconds_of_day b)) * 1000000)
         + (Datetime.microsecond a - Datetime.microsecond b + ob - oa))
  with (instant a - instant b)
  by (unfold instant; rewrite Ha, Hb; ring).
destruct (Z.ltb_spec (instant a) (instant b)).
- apply Z.ltb_lt. Z.div_mod_to_equations. lia.
- apply Z.ltb_ge. Z.div_mod_to_equations. lia.
Qed.

(** The first element of [sorted] is the first of the least elements of the
    list, for an order [lt] that compares a measure [m]. *)
Section SortedHead.
Context {A K : Type} (lt : K -> K -> bool) (key : A -> K) (m : A -> Z)
        (P : A -> Prop).
Hypothesis lt_spec :
  forall x y, P x -> P y -> lt (key y) (key x) = (m y <? m x).

Lemma sorted_head_first l :
  Forall P l ->
  forall x rest,
    sorted lt key l = x :: rest ->
    exists before after,
      l = (before ++ x :: after)%list
      /\ (forall y, In y before -> m x < m y)
      /\ (forall y, In y after -> m x <= m y).
Proof.
induction 1 as [| z l Hz Hl IH]; intros x rest Hs; [ discriminate | ].
cbn [sorted] in Hs.
destruct (sorted lt key l) as [| h t] eqn:Esl.
- assert (El : l = []).
  { apply Permutation_nil. rewrite <- Esl. apply sorted_perm. }
  subst l. simpl in Hs. injection Hs as <- <-.
  exists [], []. split; [ reflexivity | ]. split; intros y [].
- assert (Hh : P h).
  { apply (proj1 (Forall_forall _ _) Hl).
    apply (Permutation_in _ (sorted_perm lt key l)). rewrite Esl. now left. }
  cbn [insert] in Hs. rewrite (lt_spec z h Hz Hh) in Hs.
  destruct (IH h t eq_refl) as (b & a & El & Hb & Ha).
  destruct (Z.ltb_spec (m h) (m z)) as [Hlt | Hge].
  + injection Hs as <- _. exists (z :: b), a.
    split; [ now rewrite El | ]. split; [ | exact Ha ].
    intros y [<- | Hy]; [ exact Hlt | auto ].
  + injection Hs as <- _. exists [], l.
    split; [ reflexivity | ]. split; [ intros y [] | ].
    intros y Hy. rewrite El in Hy. apply in_app_or in Hy.
    destruct Hy as [Hy | [<- | Hy]];
      [ specialize (Hb y Hy) | | specialize (Ha y Hy) ]; lia.
Qed.

End SortedHead.

(** Where each element contributes at most one item, a split of the items
    is a split of the elements. *)
Lemma flat_map_single {A B} (f : A -> list B) (l : list A) :
  (forall x, (List.length (f x) <= 1)%nat) ->
  forall b y a,
    flat_map f l = (b ++ y :: a)%list ->
    exists l1 x l2,
      l = (l1 ++ x :: l2)%list
      /\ f x = [y] /\ flat_map f l1 = b /\ flat_map f l2 = a.
Proof.
intro Hf. induction l as [| x l IH]; intros b y a H; simpl in H.
- destruct b; discriminate.
- pose proof (Hf x) as Hx.
  destruct (f x) as [| y0 [| y1 ys]] eqn:Ex; simpl in Hx; try lia.
  + simpl in H.
    destruct (IH b y a H) as (l1 & x' & l2 & El & Hx' & H1 & H2).
    exists (x :: l1), x', l2. simpl. rewrite Ex, El. auto.
  + simpl in H. destruct b as [| b0 b].
    * simpl in H. injection H as <- <-. exists [], x, l. auto.
    * simpl in H. injection H as <- H.
      destruct (IH b y a H) as (l1 & x' & l2 & El & Hx' & H1 & H2).
      exists (x :: l1), x', l2. simpl. rewrite Ex, El, H1. auto.
Qed.

Section Upcoming.
Context (clock : Clock) (field : string) (start : json -> result Datetime.t).

(** Lines 354 and 386: the comparison with now keeps a start exactly when
    it is aware and lies after now; on a naive start it raises and the
    entry is dropped. *)
Lemma upcoming_spec d dt :
  upcoming clock start d = Some dt
  <-> start d = Ok dt
      /\ (exists o, Datetime.tzinfo dt = Some o)
      /\ instant (now clock) < instant dt.
Proof.
unfold upcoming. destruct (start d) as [t | e]; simpl.
- unfold Datetime.gt.
  destruct (Datetime.tzinfo t) as [o |] eqn:Et.
  + rewrite (lt_aware (now clock) t 0 o) by (auto; reflexivity). simpl.
    destruct (Z.ltb_spec (instant (now clock)) (instant t)); split.
    * intros [= <-]. eauto.
    * now intros ([= <-] & _ & _).
    * discriminate.
    * intros ([= <-] & _ & Hlt). lia.
  + unfold Datetime.lt. rewrite Et. simpl. split; [ discriminate | ].
    intros ([= <-] & [o Ho] & _). congruence.
- split; [ discriminate | ]. intros (H & _). discriminate.
Qed.

Lemma candidate_spec entry e dt :
  In (e, dt) (candidate clock field start entry)
  <-> e = entry /\ upcoming_at clock field start entry dt.
Proof.
unfold candidate, upcoming_at, starts_at.
destruct (Py.get entry field (JStr "")) as [d | x] eqn:Ed.
- destruct (Py.truthy d) eqn:Et.
  + destruct (upcoming clock start d) as [t |] eqn:Eu.
    * apply upcoming_spec in Eu. destruct Eu as (Hs & [o Ho] & Hlt). split.
      -- intros [[= <- <-] | []]. split; [ reflexivity | ].
         split; [ exists d, o; auto | exact Hlt ].
      -- intros (-> & (d' & o' & [= <-] & _ & Hs' & _) & _).
         rewrite Hs in Hs'. injection Hs' as <-. now left.
    * split; [ intros [] | ].
      intros (_ & (d' & o' & [= <-] & _ & Hs' & Ho') & Hlt).
      assert (Hu : upcoming clock start d = Some dt)
        by (apply upcoming_spec; eauto).
      congruence.
  + split; [ intros [] | ].
    intros (_ & (d' & o' & [= <-] & Ht' & _) & _). congruence.
- split; [ intros [] | ].
  intros (_ & (d' & o' & Hd' & _) & _). discriminate.
Qed.

Lemma candidate_length entry :
  (List.length (candidate clock field start entry) <= 1)%nat.
Proof.
unfold candidate.
destruct (Py.get entry field (JStr "")) as [d |]; [ | simpl; lia ].
destruct (Py.truthy d); [ | simpl; lia ].
destruct (upcoming clock start d); simpl; lia.
Qed.

(** Lines 343-358 and 380-390: when the scan completes, it has kept the
    candidates of the entries, in the order of the list. *)
Lemma upcoming_loop_candidates entries :
  forall ups,
    upcoming_loop clock field start entries = Ok ups ->
    ups = flat_map (candidate clock field start) entries.
Proof.
induction entries as [| entry rest IH]; intros ups H; simpl in H.
- now injection H as <-.
- destruct (Py.get entry field (JStr "")) as [d |] eqn:Ed;
    [ simpl in H | discriminate ].
  destruct (upcoming_loop clock field start rest) as [more |];
    [ simpl in H | discriminate ].
  injection H as <-. cbn [flat_map]. unfold candidate at 1. rewrite Ed.
  rewrite <- (IH more eq_refl).
  destruct (Py.truthy d); [ | reflexivity ].
  now destruct (upcoming clock start d).
Qed.

(** The scan completes when every entry is an object. *)
Lemma upcoming_loop_of_objects entries :
  Forall (fun e => exists fields, e = JObj fields) entries ->
  upcoming_loop clock field start entries
  = Ok (flat_map (candidate clock field start) entries).
Proof.
induction 1 as [| e entries [fields ->] _ IH]; [ reflexivity | ].
cbn [upcoming_loop flat_map]. rewrite IH. unfold candidate at 2.
cbn [Py.get rbind].
destruct (Py.truthy _); [ | reflexivity ].
now destruct (upcoming clock start _).
Qed.

(** Lines 360-363 and 392-395: after the sort the first candidate is the
    next entry. *)
Lemma first_candidate_is_next entries ups entry dt rest :
  upcoming_loop clock field start entries = Ok ups ->
  sorted datetime_lt snd ups = (entry, dt) :: rest ->
  next_of clock field start entries entry dt.
Proof.
intros Hups Hs. apply upcoming_loop_candidates in Hups. subst ups.
assert (Haware : Forall (fun c : json * Datetime.t =>
                           exists o, Datetime.tzinfo (snd c) = Some o)
                   (flat_map (candidate clock field start) entries)).
{ apply Forall_forall. intros [e t] Hin. apply in_flat_map in Hin.
  destruct Hin as (x & _ & Hin). apply candidate_spec in Hin.
  destruct Hin as (_ & (d & o & _ & _ & _ & Ho) & _). simpl. eauto. }
destruct (sorted_head_first datetime_lt snd
            (fun c : json * Datetime.t => instant (snd c))
            (fun c : json * Datetime.t =>
               exists o, Datetime.tzinfo (snd c) = Some o))
  with (l := flat_map (candidate clock field start) entries)
       (x := (entry, dt)) (rest := rest)
  as (b & a & Hsplit & Hb & Ha); [ | exact Haware | exact Hs | ].
{ intros x y [ox Hx] [oy Hy]. unfold datetime_lt.
  now rewrite (lt_aware _ _ _ _ Hy Hx). }
destruct (flat_map_single (candidate clock field start) entries
            candidate_length b (entry, dt) a Hsplit)
  as (l1 & x & l2 & El & Hx & H1 & H2).
assert (Hc : In (entry, dt) (candidate clock field start x))
  by (rewrite Hx; now left).
apply candidate_spec in Hc. destruct Hc as [<- Hup].
split; [ exact Hup | ]. exists l1, l2. split; [ exact El | ]. split.
- intros e' dt' Hin' Hup'. apply (Hb (e', dt')). rewrite <- H1.
  apply in_flat_map. exists e'. split; [ exact Hin' | ].
  apply candidate_spec. auto.
- intros e' dt' Hin' Hup'. apply (Ha (e', dt')). rewrite <- H2.
  apply in_flat_map. exists e'. split; [ exact Hin' | ].
  apply candidate_spec. auto.
Qed.

(** A list of objects with an upcoming entry has a first candidate. *)
Lemma first_candidate_exists entries :
  Forall (fun e => exists fields, e = JObj fields) entries ->
  Exists (fun e => exists dt, upcoming_at clock field start e dt) entries ->
  exists ups entry dt rest,
    upcoming_loop clock field start entries = Ok ups
    /\ sorted datetime_lt snd ups = (entry, dt) :: rest.
Proof.
intros Hobj Hex.
exists (flat_map (candidate clock field start) entries).
rewrite (upcoming_loop_of_objects entries Hobj).
destruct (sorted datetime_lt snd _) as [| [entry dt] rest] eqn:Es.
- exfalso. apply Exists_exists in Hex. destruct Hex as (e & Hin & dt & Hup).
  assert (Hc : In (e, dt) (flat_map (candidate clock field start) entries)).
  { apply in_flat_map. exists e. split; [ exact Hin | ].
    apply candidate_spec. auto. }
  apply (Permutation_in _ (Permutation_sym (sorted_perm datetime_lt snd _)))
    in Hc.
  rewrite Es in Hc. contradiction.
- exists entry, dt, rest. auto.
Qed.

End Upcoming.

(** Lines 365-371: the record made of the first candidate. *)
Lemma tier1_reports {rt : Runtime} clock data races ups race dt rest n l c :
  Py.assoc "races" data = Some (JArr races) ->
  upcoming_loop clock "date" race_start races = Ok ups ->
  sorted datetime_lt snd ups = (race, dt) :: rest ->
  shows_race race n l c ->
  tier1 clock data
  = Ok (Some (NextRace.mk n l c (Datetime.strftime dt)
                (calculate_time_left clock (Datetime.isoformat dt)))).
Proof.
intros Hdata Hups Hs (fields & -> & Hn & Hl & Hc).
unfold field_or in Hn, Hl, Hc.
unfold tier1. cbn [Py.getitem]. rewrite Hdata. cbn [rbind Py.iter].
rewrite Hups. cbn [rbind]. rewrite Hs. cbn [Py.get rbind].
rewrite Hn, Hl, Hc. reflexivity.
Qed.

Lemma tier1_inv {rt : Runtime} clock data r :
  tier1 clock data = Ok (Some r) ->
  exists races entries ups race dt rest n l c,
    Py.getitem (JObj data) "races" = Ok races
    /\ Py.iter races = Ok entries
    /\ upcoming_loop clock "date" race_start entries = Ok ups
    /\ sorted datetime_lt snd ups = (race, dt) :: rest
    /\ shows_race race n l c
    /\ r = NextRace.mk n l c (Datetime.strftime dt)
             (calculate_time_left clock (Datetime.isoformat dt)).
Proof.
unfold tier1. intro H.
destruct (Py.getitem (JObj data) "races") as [races |] eqn:E1;
  [ cbn [rbind] in H | discriminate ].
destruct (Py.iter races) as [entries |] eqn:E2;
  [ cbn [rbind] in H | discriminate ].
destruct (upcoming_loop clock "date" race_start entries) as [ups |] eqn:E3;
  [ cbn [rbind] in H | discriminate ].
destruct (sorted datetime_lt snd ups) as [| [race dt] rest] eqn:E4;
  [ discriminate | ].
destruct race as [| | | | | | fields]; try discriminate.
cbn [Py.get rbind] in H.
fold (field_or fields "name" (JStr "Unknown")) in H.
fold (field_or fields "race_name" (field_or fields "name" (JStr "Unknown")))
  in H.
fold (field_or fields "circuit" (JStr "Unknown")) in H.
fold (field_or fields "location" (field_or fields "circuit" (JStr "Unknown")))
  in H.
fold (field_or fields "country" (JStr "Unknown")) in H.
destruct (field_or fields "race_name" _) as [| | | | n | |] eqn:En;
  try discriminate.
destruct (field_or fields "location" _) as [| | | | l | |] eqn:El;
  try discriminate.
destruct (field_or fields "country" _) as [| | | | c | |] eqn:Ec;
  try discriminate.
cbn [validate_str rbind] in H. injection H as <-.
exists races, entries, ups, (JObj fields), dt, rest, n, l, c.
repeat split; try assumption. exists fields. auto.
Qed.

(** Lines 397-403 *)
Lemma tier2_inv {rt : Runtime} clock meetings r :
  tier2 clock meetings = Ok (Some r) ->
  exists ups meeting dt rest n l c,
    upcoming_loop clock "date_start" meeting_start meetings = Ok ups
    /\ sorted datetime_lt snd ups = (meeting, dt) :: rest
    /\ shows_meeting meeting n l c
    /\ r = NextRace.mk n l c (Datetime.strftime dt)
             (calculate_time_left clock (Datetime.isoformat dt)).
Proof.
unfold tier2. intro H.
destruct (upcoming_loop clock "date_start" meeting_start meetings)
  as [ups |] eqn:E3; [ cbn [rbind] in H | discriminate ].
destruct (sorted datetime_lt snd ups) as [| [meeting dt] rest] eqn:E4;
  [ discriminate | ].
destruct meeting as [| | | | | | fields]; try discriminate.
cbn [Py.get rbind] in H.
fold (field_or fields "meeting_name" (JStr "Unknown")) in H.
fold (field_or fields "location" (JStr "Unknown")) in H.
fold (field_or fields "country_name" (JStr "Unknown")) in H.
destruct (field_or fields "meeting_name" _) as [| | | | n | |] eqn:En;
  try discriminate.
destruct (field_or fields "location" _) as [| | | | l | |] eqn:El;
  try discriminate.
destruct (field_or fields "country_name" _) as [| | | | c | |] eqn:Ec;
  try discriminate.
cbn [validate_str rbind] in H. injection H as <-.
exists ups, (JObj fields), dt, rest, n, l, c.
repeat split; try assumption. exists fields. auto.
Qed.

(** X8.  A race that the first tier reports is the next race of the season
    list: its date is read as a timezone-aware start strictly after now,
    every upcoming race listed before it starts later and no upcoming race
    listed after it starts earlier; the record carries the name, location
    and country shown of that race, its start as the date, and the
    countdown computed from that start.  Entries whose date is absent,
    empty, unreadable, without a UTC offset (the comparison with now raises
    and the entry is dropped) or not after now take no part, whenever they
    would have started.  The same holds of the meeting that the second tier
    reports. *)
Theorem reported_race_is_the_next :
  forall (rt : Runtime) (clock : Clock),
    (forall (data : list (string * json)) (r : NextRace.t),
        tier1 clock data = Ok (Some r) ->
        exists races entries race dt n l c,
          Py.getitem (JObj data) "races" = Ok races
          /\ Py.iter races = Ok entries
          /\ next_of clock "date" race_start entries race dt
          /\ shows_race race n l c
          /\ r = NextRace.mk n l c (Datetime.strftime dt)
                   (calculate_time_left clock (Datetime.isoformat dt)))
    /\ (forall (meetings : list json) (r : NextRace.t),
           tier2 clock meetings = Ok (Some r) ->
           exists meeting dt n l c,
             next_of clock "date_start" meeting_start meetings meeting dt
             /\ shows_meeting meeting n l c
             /\ r = NextRace.mk n l c (Datetime.strftime dt)
                      (calculate_time_left clock (Datetime.isoformat dt))).
Proof.
intros rt clock. split.
- intros data r H.
  destruct (tier1_inv _ _ _ H)
    as (races & entries & ups & race & dt & rest & n & l & c
        & H1 & H2 & H3 & H4 & H5 & H6).
  exists races, entries, race, dt, n, l, c.
  split; [ exact H1 | ]. split; [ exact H2 | ].
  split; [ | split; [ exact H5 | exact H6 ] ].
  exact (first_candidate_is_next clock "date" race_start entries ups
           race dt rest H3 H4).
- intros meetings r H.
  destruct (tier2_inv _ _ _ H)
    as (ups & meeting & dt & rest & n & l & c & H3 & H4 & H5 & H6).
  exists meeting, dt, n, l, c.
  split; [ | split; [ exact H5 | exact H6 ] ].
  exact (first_candidate_is_next clock "date_start" meeting_start meetings
           ups meeting dt rest H3 H4).
Qed.

(** X8 on a season with one race to come, and on two meetings of which one
    is over. *)
Lemma reported_race_is_the_next_witness :
  (exists races entries race dt n l c,
      Py.getitem (JObj [("races", JArr [abu_dhabi])]) "races" = Ok races
      /\ Py.iter races = Ok entries
      /\ next_of clock_2025 "date" (race_start (rt := CPython.runtime))
           entries race dt
      /\ shows_race race n l c
      /\ NextRace.mk "Abu Dhabi Grand Prix" "Yas Marina" "UAE"
           "2025-12-07 15:00 UTC" "189 days, 3 hours"
         = NextRace.mk n l c (Datetime.strftime dt)
             (calculate_time_left (rt := CPython.runtime) clock_2025
                (Datetime.isoformat dt)))
  /\ (exists meeting dt n l c,
         next_of clock_2025 "date_start"
           (meeting_start (rt := CPython.runtime)) [imola; zandvoort]
           meeting dt
         /\ shows_meeting meeting n l c
         /\ NextRace.mk "Dutch Grand Prix" "Zandvoort" "Netherlands"
              "2025-08-29 10:30 UTC" "88 days, 22 hours"
            = NextRace.mk n l c (Datetime.strftime dt)
                (calculate_time_left (rt := CPython.runtime) clock_2025
                   (Datetime.isoformat dt))).
Proof.
split.
- exact (proj1 (reported_race_is_the_next CPython.runtime clock_2025)
           [("races", JArr [abu_dhabi])]
           (NextRace.mk "Abu Dhabi Grand Prix" "Yas Marina" "UAE"
              "2025-12-07 15:00 UTC" "189 days, 3 hours")
           eq_refl).
- exact (proj2 (reported_race_is_the_next CPython.runtime clock_2025)
           [imola; zandvoort]
           (NextRace.mk "Dutch Grand Prix" "Zandvoort" "Netherlands"
              "2025-08-29 10:30 UTC" "88 days, 22 hours")
           eq_refl).
Defined.

(** ** The first tier wins *)

(** C5, counterexample.  Each of three season lists holds a race that is
    still to come, and the first tier has no result: the resolver goes on
    to OpenF1 meetings and to next season, and returns the season-break
    value.  In the first the race is dated "2025-06-10T15:00:00": the date
    parses, to a start nine days ahead, but it carries no UTC offset, so
    the comparison with the aware now raises (line 354) and the race is
    dropped.  In the second the race of 7 December is followed by a [null]
    entry, on which line 345 raises outside the inner [try].  In the third
    the name of the race of 7 December is [null], which [NextRace] does not
    accept. *)
Lemma upcoming_race_does_not_win :
  (race_start (rt := CPython.runtime) (JStr "2025-06-10T15:00:00")
   = Ok (Datetime.mk 2025 6 10 15 0 0 0 None)
   /\ instant (now clock_2025)
      < instant (Datetime.mk 2025 6 10 15 0 0 0 None)
   /\ calls (fetch_next_race (rt := CPython.runtime)
               (season_of [naive_race]) clock_2025) []
      = [F1Api (Season 2025); OpenF1 (Meetings 2025); F1Api (Season 2026)]
   /\ outcome (fetch_next_race (rt := CPython.runtime)
                 (season_of [naive_race]) clock_2025) []
      = Ok season_break)
  /\ (upcoming clock_2025 (race_start (rt := CPython.runtime))
        (JStr "2025-12-07")
      = Some (Datetime.mk 2025 12 7 15 0 0 0 (Some 0))
      /\ calls (fetch_next_race (rt := CPython.runtime)
                  (season_of [abu_dhabi; JNull]) clock_2025) []
         = [F1Api (Season 2025); OpenF1 (Meetings 2025); F1Api (Season 2026)]
      /\ outcome (fetch_next_race (rt := CPython.runtime)
                    (season_of [abu_dhabi; JNull]) clock_2025) []
         = Ok season_break)
  /\ (calls (fetch_next_race (rt := CPython.runtime)
               (season_of [unnamed_race]) clock_2025) []
      = [F1Api (Season 2025); OpenF1 (Meetings 2025); F1Api (Season 2026)]
      /\ outcome (fetch_next_race (rt := CPython.runtime)
                    (season_of [unnamed_race]) clock_2025) []
         = Ok season_break).
Proof. repeat split; reflexivity. Qed.

(** C5, as amended.  When the f1api.dev season response lists races that
    are all objects, at least one of them has a date that is read as a
    timezone-aware start strictly after now, and the name, location and
    country shown of the next race are strings, the resolver returns the
    record of the next race (the first listed of the upcoming races with
    the earliest start), and the only upstream call it makes is the season
    request: OpenF1 meetings are not consulted and tiers 3 and 4 are not
    reached. *)
Theorem tier1_wins :
  forall (rt : Runtime) (gw : Gateway) (clock : Clock) (log : list call)
         (data : list (string * json)) (races : list json),
    f1api_dev gw log (Season (current_year clock)) = Some data ->
    Py.assoc "races" data = Some (JArr races) ->
    Forall (fun race => exists fields, race = JObj fields) races ->
    Exists (fun race => exists dt, upcoming_at clock "date" race_start race dt)
      races ->
    (forall race dt,
        next_of clock "date" race_start races race dt ->
        exists n l c, shows_race race n l c) ->
    exists race dt n l c,
      next_of clock "date" race_start races race dt
      /\ shows_race race n l c
      /\ fetch_next_race gw clock log
         = (Ok (NextRace.mk n l c (Datetime.strftime dt)
                  (calculate_time_left clock (Datetime.isoformat dt))),
            (log ++ [F1Api (Season (current_year clock))])%list).
Proof.
intros rt gw clock log data races Hgw Hdata Hobj Hup Hshow.
destruct (first_candidate_exists clock "date" race_start races Hobj Hup)
  as (ups & race & dt & rest & Hups & Hs).
pose proof (first_candidate_is_next clock "date" race_start races ups
              race dt rest Hups Hs) as Hnext.
destruct (Hshow race dt Hnext) as (n & l & c & Hnlc).
exists race, dt, n, l, c.
split; [ exact Hnext | ]. split; [ exact Hnlc | ].
pose proof (tier1_reports clock data races ups race dt rest n l c
              Hdata Hups Hs Hnlc) as Hr.
unfold fetch_next_race, bind, fetch_from_f1api_dev. rewrite Hgw.
now rewrite (from_primary_some "races" (tier1 clock) data _ _ Hdata Hr).
Qed.

(** C5 on a season whose only listed race is still to come. *)
Lemma tier1_wins_witness :
  exists race dt n l c,
    next_of clock_2025 "date" (race_start (rt := CPython.runtime))
      [abu_dhabi] race dt
    /\ shows_race race n l c
    /\ fetch_next_race (rt := CPython.runtime) (season_of [abu_dhabi])
         clock_2025 []
       = (Ok (NextRace.mk n l c (Datetime.strftime dt)
                (calculate_time_left (rt := CPython.runtime) clock_2025
                   (Datetime.isoformat dt))),
          [F1Api (Season 2025)]).
Proof.
apply (tier1_wins CPython.runtime (season_of [abu_dhabi]) clock_2025 []
         [("races", JArr [abu_dhabi])] [abu_dhabi]).
- reflexivity.
- reflexivity.
- repeat constructor. eexists. reflexivity.
- constructor. exists (Datetime.mk 2025 12 7 15 0 0 0 (Some 0)).
  split; [ | reflexivity ].
  exists (JStr "2025-12-07"), 0. repeat split; reflexivity.
- intros race dt (_ & before & after & E & _).
  assert (Hrace : race = abu_dhabi).
  { destruct before as [| b0 [| b1 before]]; simpl in E.
    - now injection E as <-.
    - destruct after; discriminate.
    - discriminate. }
  subst race.
  exists "Abu Dhabi Grand Prix", "Yas Marina", "UAE".
  eexists. repeat split; reflexivity.
Defined.

(** ** When the derivation falls back *)

Lemma sessions_loop_raises {rt : Runtime} gw sessions session e :
  In session sessions ->
  Py.getitem session "session_key" = Raise e ->
  forall acc log,
    exists e' log', sessions_loop gw sessions acc log = (Raise e', log').
Proof.
intros Hin He. induction sessions as [| s rest IH]; [ contradiction | ].
intros acc log. simpl. unfold bind, lift, fetch_from_openf1.
destruct (Py.getitem s "session_key") as [session_key |] eqn:Es;
  [ | eauto ].
assert (Hrest : In session rest).
{ destruct Hin as [-> | Hin]; [ congruence | exact Hin ]. }
destruct (nothing _); [ now apply IH | ].
destruct (final_positions_loop _ []) as [final_positions |]; [ | eauto ].
destruct (award_loop final_positions acc) as [acc' |]; [ | eauto ].
now apply IH.
Qed.

Lemma sessions_loop_without_positions {rt : Runtime} gw sessions :
  Forall (fun session => exists k, Py.getitem session "session_key" = Ok k)
    sessions ->
  (forall log session_key,
      nothing (openf1 gw log (Position session_key)) = true) ->
  forall acc log,
    exists log', sessions_loop gw sessions acc log = (Ok acc, log').
Proof.
intros Hkeys Hnone. induction Hkeys as [| s rest [k Hk] _ IH];
  intros acc log; simpl.
- unfold ret. eauto.
- unfold bind, lift, fetch_from_openf1. rewrite Hk, Hnone. apply IH.
Qed.

(** X9.  The standings derivation is all or nothing.  With no race session
    in either year it returns the fallback standings; a single session
    without a session key discards the points of every other session and
    gives the fallback standings as well; but sessions for which OpenF1 has
    no position data give empty standings, not the fallback. *)
Theorem derivation_is_all_or_nothing :
  forall (rt : Runtime) (gw : Gateway) (clock : Clock) (log : list call),
    (race_sessions gw clock log = [] ->
     outcome (calculate_standings_from_results gw clock) log
     = Ok get_fallback_standings)
    /\ (forall session e,
           In session (race_sessions gw clock log) ->
           Py.getitem session "session_key" = Raise e ->
           outcome (calculate_standings_from_results gw clock) log
           = Ok get_fallback_standings)
    /\ (race_sessions gw clock log <> [] ->
        Forall (fun session =>
                  exists k, Py.getitem session "session_key" = Ok k)
          (race_sessions gw clock log) ->
        (forall log' session_key,
            nothing (openf1 gw log' (Position session_key)) = true) ->
        outcome (calculate_standings_from_results gw clock) log
        = Ok ([], [])).
Proof.
intros rt gw clock log.
destruct (sessions_fetched gw clock log) as (sessions & E & Hitems & Hnothing).
cbv zeta in E.
assert (Hcalc : calculate_standings_from_results gw clock log
                = try_except
                    (if nothing sessions then ret get_fallback_standings
                     else
                       bind (sessions_loop gw (items sessions) ([], []))
                         (fun acc =>
                            ret (top_drivers (fst acc), top_teams (snd acc))))
                    (ret get_fallback_standings)
                    (log ++ session_calls gw clock log)%list).
{ unfold calculate_standings_from_results, try_except.
  rewrite <- bind_assoc. unfold bind at 1. rewrite E. reflexivity. }
unfold outcome. rewrite Hcalc, Hitems, Hnothing. clear Hcalc.
split; [ | split ].
- intros ->. reflexivity.
- intros session e Hin He.
  destruct (race_sessions gw clock log) as [| s rest] eqn:Er;
    [ contradiction | ].
  unfold try_except, bind.
  destruct (sessions_loop_raises gw (s :: rest) session e Hin He ([], [])
              (log ++ session_calls gw clock log)%list) as (e' & log' & ->).
  reflexivity.
- intros Hne Hkeys Hnone.
  destruct (race_sessions gw clock log) as [| s rest] eqn:Er;
    [ now destruct Hne | ].
  unfold try_except, bind.
  destruct (sessions_loop_without_positions gw (s :: rest) Hkeys Hnone
              ([], []) (log ++ session_calls gw clock log)%list) as (log' & ->).
  reflexivity.
Qed.

Lemma derivation_is_all_or_nothing_witness :
  outcome (calculate_standings_from_results (rt := CPython.runtime)
             unavailable clock_2025) []
  = Ok get_fallback_standings
  /\ outcome (calculate_standings_from_results (rt := CPython.runtime)
                broken_sessions clock_2025) []
     = Ok get_fallback_standings
  /\ outcome (calculate_standings_from_results (rt := CPython.runtime)
                (one_race []) clock_2025) []
     = Ok ([], []).
Proof.
split; [ | split ].
- apply (proj1 (derivation_is_all_or_nothing CPython.runtime unavailable
                  clock_2025 [])).
  reflexivity.
- apply (proj1 (proj2 (derivation_is_all_or_nothing CPython.runtime
                         broken_sessions clock_2025 []))
           JNull TypeError).
  + now left.
  + reflexivity.
- apply (proj2 (proj2 (derivation_is_all_or_nothing CPython.runtime
                         (one_race []) clock_2025 []))).
  + discriminate.
  + repeat constructor. eexists. reflexivity.
  + reflexivity.
Defined.

(** ** The latest completed race *)

Lemma ltb_total a b :
  String.ltb a b = false -> String.ltb b a = false -> a = b.
Proof.
unfold String.ltb. rewrite (String.compare_antisym a b).
destruct (String.compare b a) eqn:E; simpl; try discriminate.
intros _ _. symmetry. now apply String.compare_eq_iff.
Qed.

(** [b <= a] and [c <= b] give [c <= a]. *)
Lemma leb_trans a b c :
  String.ltb a b = false -> String.ltb b c = false -> String.ltb a c = false.
Proof.
intros Hab Hbc.
destruct (String.ltb a c) eqn:Hac; [ | reflexivity ].
destruct (String.ltb c b) eqn:Hcb.
- now rewrite (ltb_trans a c b Hac Hcb) in Hab.
- rewrite (ltb_total b c Hbc Hcb) in Hab. congruence.
Qed.

Lemma filter_r_spec {A} (p : A -> result bool) l :
  forall r,
    filter_r p l = Ok r ->
    forall x, In x r <-> In x l /\ p x = Ok true.
Proof.
induction l as [| y l IH]; intros r H x; simpl in H.
- injection H as <-. simpl. tauto.
- destruct (p y) as [b |] eqn:Ey; [ simpl in H | discriminate ].
  destruct (filter_r p l) as [r' |]; [ simpl in H | discriminate ].
  injection H as <-. specialize (IH r' eq_refl x).
  destruct b; simpl; rewrite IH; split.
  + intros [<- | [H1 H2]]; auto.
  + intros [[<- | H1] H2]; auto.
  + intros [H1 H2]; auto.
  + intros [[<- | H1] H2]; [ congruence | auto ].
Qed.

(** Line 459: among sessions whose [date_end] is a string, [max] returns
    one whose [date_end] no other exceeds, as strings. *)
Lemma max_date_end_loop l :
  forall best e,
    end_of best = Some e ->
    Forall (fun s => exists e', end_of s = Some e') l ->
    exists x ex,
      extremum_loop Py.gt (fun s => Py.getitem s "date_end") best (JStr e) l
      = Ok x
      /\ (x = best \/ In x l)
      /\ end_of x = Some ex
      /\ String.ltb ex e = false
      /\ forall y ey, In y l -> end_of y = Some ey -> String.ltb ex ey = false.
Proof.
induction l as [| s l IH]; intros best e Hbest Hl; simpl.
- exists best, e. repeat split; auto using ltb_irrefl. intros y ey [].
- inversion Hl as [| ? ? [es Hs] Hl']; subst.
  assert (Ek : Py.getitem s "date_end" = Ok (JStr es)).
  { unfold end_of in Hs.
    destruct (Py.getitem s "date_end") as [[] |]; try discriminate.
    now injection Hs as ->. }
  rewrite Ek. simpl.
  destruct (String.ltb e es) eqn:Elt.
  + destruct (IH s es Hs Hl') as (x & ex & E & Hin & Hx & Hge & Hall).
    exists x, ex. split; [ exact E | ].
    split; [ right; destruct Hin as [-> | Hin]; [ now left | now right ] | ].
    split; [ exact Hx | ]. split.
    * destruct (String.ltb ex e) eqn:E1; [ | reflexivity ].
      now rewrite (ltb_trans ex e es E1 Elt) in Hge.
    * intros y ey [<- | Hy] Hey; [ | eauto ].
      rewrite Hs in Hey. now injection Hey as <-.
  + destruct (IH best e Hbest Hl') as (x & ex & E & Hin & Hx & Hge & Hall).
    exists x, ex. split; [ exact E | ].
    split; [ destruct Hin as [-> | Hin]; [ now left | right; now right ] | ].
    split; [ exact Hx | ]. split; [ exact Hge | ].
    intros y ey [<- | Hy] Hey; [ | eauto ].
    rewrite Hs in Hey. injection Hey as <-.
    exact (leb_trans ex e es Hge Elt).
Qed.

Lemma max_date_end l x :
  Forall (fun s => exists e, end_of s = Some e) l ->
  py_max (fun s => Py.getitem s "date_end") l = Ok x ->
  In x l
  /\ exists ex,
       end_of x = Some ex
       /\ forall y ey, In y l -> end_of y = Some ey -> String.ltb ex ey = false.
Proof.
intros Hl H. destruct l as [| s l]; [ discriminate | ].
inversion Hl as [| ? ? [es Hs] Hl']; subst.
unfold py_max, extremum in H.
assert (Ek : Py.getitem s "date_end" = Ok (JStr es)).
{ unfold end_of in Hs.
  destruct (Py.getitem s "date_end") as [[] |]; try discriminate.
  now injection Hs as ->. }
rewrite Ek in H. simpl in H.
destruct (max_date_end_loop l s es Hs Hl') as (x' & ex & E & Hin & Hx & Hge & Hall).
rewrite E in H. injection H as <-.
split; [ destruct Hin as [-> | Hin]; [ now left | now right ] | ].
exists ex. split; [ exact Hx | ].
intros y ey [<- | Hy] Hey; [ | eauto ].
rewrite Hs in Hey. now injection Hey as <-.
Qed.

(** Line 452: a session that has ended has a string under [date_end]. *)
Lemma ended_end_of {rt : Runtime} clock s :
  has_ended clock s = Ok true -> exists e, end_of s = Some e.
Proof.
unfold has_ended, end_of. intro H.
destruct (Py.in_ "date_end" s) as [[] |]; try discriminate. simpl in H.
destruct (Py.getitem s "date_end") as [[] |]; try discriminate. eauto.
Qed.

(** X10.  When the fastest-lap resolvers get as far as lap data, the laps
    are those of the latest completed race: a race session of the answer
    that has ended, whose [date_end] no other ended session exceeds (the
    raw strings are compared, not the parsed times); the laps were asked
    for under its session key, and are not empty. *)
Theorem laps_of_the_latest_completed_race :
  forall (rt : Runtime) (gw : Gateway) (clock : Clock) (log log' : list call)
         (latest_session session_key : json) (laps : list json),
    latest_laps gw clock log
    = (Ok (Some (latest_session, session_key, laps)), log') ->
    In latest_session (race_sessions gw clock log)
    /\ has_ended clock latest_session = Ok true
    /\ Py.getitem latest_session "session_key" = Ok session_key
    /\ openf1 gw (log ++ session_calls gw clock log)%list (Laps session_key)
       = Some laps
    /\ laps <> []
    /\ log'
       = (log ++ session_calls gw clock log ++ [OpenF1 (Laps session_key)])%list
    /\ exists e,
         end_of latest_session = Some e
         /\ forall s e',
              In s (race_sessions gw clock log) ->
              has_ended clock s = Ok true ->
              end_of s = Some e' -> String.ltb e e' = false.
Proof.
intros rt gw clock log log' latest_session session_key laps H.
destruct (sessions_fetched gw clock log) as (sessions & E & Hitems & _).
cbv zeta in E.
unfold latest_laps in H. rewrite <- bind_assoc in H.
unfold bind at 1 in H. rewrite E in H.
destruct (nothing sessions); [ discriminate | ].
unfold bind at 1, lift in H. rewrite Hitems in H.
destruct (filter_r (has_ended clock) (race_sessions gw clock log))
  as [past_races |] eqn:Ef; [ | discriminate ].
pose proof (filter_r_spec _ _ _ Ef) as Hpast.
destruct past_races as [| s0 rest0] eqn:Ep; [ discriminate | ].
rewrite <- Ep in *. clear Ep.
unfold bind at 1 in H.
destruct (py_max _ past_races) as [latest |] eqn:Em; [ | discriminate ].
unfold bind at 1 in H.
destruct (Py.getitem latest "session_key") as [key |] eqn:Ek;
  [ | discriminate ].
unfold bind, fetch_from_openf1 in H.
destruct (openf1 gw _ (Laps key)) as [[| lap laps'] |] eqn:El;
  try discriminate.
cbn [nothing items ret] in H. injection H as <- <- <- <-.
destruct (max_date_end past_races latest) as (Hin & ex & Hex & Hall);
  [ | exact Em | ].
{ apply Forall_forall. intros s Hs. apply Hpast in Hs.
  exact (ended_end_of clock s (proj2 Hs)). }
apply Hpast in Hin. destruct Hin as [Hin Hended].
repeat split; try assumption; try discriminate.
- now rewrite <- app_assoc.
- exists ex. split; [ exact Hex | ].
  intros s e' Hs He He'. apply (Hall s e'); [ | exact He' ].
  apply Hpast. now split.
Qed.

Lemma laps_of_the_latest_completed_race_witness :
  In melbourne (race_sessions timed_race clock_2025 [])
  /\ has_ended (rt := CPython.runtime) clock_2025 melbourne = Ok true
  /\ end_of melbourne = Some "2025-03-16T06:00:00+00:00".
Proof.
destruct (laps_of_the_latest_completed_race CPython.runtime timed_race
            clock_2025 [] [OpenF1 (Sessions 2025); OpenF1 (Laps (JInt 9693))]
            melbourne (JInt 9693) [lap_of 44 43 (JFloat 82.167)] eq_refl)
  as (H1 & H2 & _).
split; [ exact H1 | ]. split; [ exact H2 | reflexivity ].
Defined.

(** ** The primary standings *)

Lemma drivers_of_length {rt : Runtime} standings :
  forall i ds,
    drivers_of i standings = Ok ds -> List.length ds = List.length standings.
Proof.
induction standings as [| driver rest IH]; intros i ds H; simpl in H.
- now injection H as <-.
- repeat match type of H with
         | rbind (drivers_of _ _) _ = Ok _ => fail 1
         | rbind ?r _ = Ok _ => destruct r; simpl in H; [ | discriminate ]
         end.
  destruct (drivers_of (i + 1) rest) as [ds' |] eqn:E; [ | discriminate ].
  simpl in H. injection H as <-. simpl. f_equal. exact (IH _ _ E).
Qed.

Lemma teams_of_length {rt : Runtime} standings :
  forall i ts,
    teams_of i standings = Ok ts -> List.length ts = List.length standings.
Proof.
induction standings as [| team rest IH]; intros i ts H; simpl in H.
- now injection H as <-.
- repeat match type of H with
         | rbind (teams_of _ _) _ = Ok _ => fail 1
         | rbind ?r _ = Ok _ => destruct r; simpl in H; [ | discriminate ]
         end.
  destruct (teams_of (i + 1) rest) as [ts' |] eqn:E; [ | discriminate ].
  simpl in H. injection H as <-. simpl. f_equal. exact (IH _ _ E).
Qed.

Lemma primary_drivers_array {rt : Runtime} data standings :
  Py.assoc "standings" data = Some (JArr standings) ->
  primary_drivers data = drivers_of 0 (firstn 10 standings).
Proof. intro H. unfold primary_drivers. simpl. now rewrite H. Qed.

Lemma primary_teams_array {rt : Runtime} data standings :
  Py.assoc "standings" data = Some (JArr standings) ->
  primary_teams data = teams_of 0 (firstn 10 standings).
Proof. intro H. unfold primary_teams. simpl. now rewrite H. Qed.

(** X11.  The primary path never reads past the tenth entry of the
    provider's standings list: the result is the same as for the list cut
    to ten entries (so a malformed eleventh entry is harmless), and it has
    one record per entry read.  An empty list is served as it is: the
    resolvers return no records, after the one request, rather than the
    calculated or the fallback standings. *)
Theorem primary_reads_first_ten :
  forall (rt : Runtime),
    (forall (data : list (string * json)) (standings : list json),
        Py.assoc "standings" data = Some (JArr standings) ->
        primary_drivers data
        = primary_drivers [("standings", JArr (firstn 10 standings))]
        /\ primary_teams data
           = primary_teams [("standings", JArr (firstn 10 standings))]
        /\ (forall ds,
               primary_drivers data = Ok ds ->
               List.length ds = Nat.min 10 (List.length standings))
        /\ (forall ts,
               primary_teams data = Ok ts ->
               List.length ts = Nat.min 10 (List.length standings)))
    /\ (forall (gw : Gateway) (clock : Clock) (log : list call)
               (data : list (string * json)),
           Py.assoc "standings" data = Some (JArr []) ->
           (f1api_dev gw log (StandingsDrivers (current_year clock))
            = Some data ->
            fetch_driver_standings gw clock log
            = (Ok [],
               (log ++ [F1Api (StandingsDrivers (current_year clock))])%list))
           /\ (f1api_dev gw log (StandingsTeams (current_year clock))
               = Some data ->
               fetch_constructor_standings gw clock log
               = (Ok [],
                  (log ++ [F1Api (StandingsTeams (current_year clock))])%list))).
Proof.
intro rt. split.
- intros data standings H.
  assert (H10 : Py.assoc "standings"
                  [("standings", JArr (firstn 10 standings))]
                = Some (JArr (firstn 10 standings))) by reflexivity.
  rewrite (primary_drivers_array _ _ H), (primary_teams_array _ _ H).
  rewrite (primary_drivers_array _ _ H10), (primary_teams_array _ _ H10).
  rewrite firstn_firstn. change (Nat.min 10 10) with 10%nat.
  repeat split.
  + intros ds Hds. rewrite (drivers_of_length _ _ _ Hds). apply length_firstn.
  + intros ts Hts. rewrite (teams_of_length _ _ _ Hts). apply length_firstn.
- intros gw clock log data H. split; intro Hgw.
  + unfold fetch_driver_standings, bind, fetch_from_f1api_dev. rewrite Hgw.
    rewrite (from_primary_some "standings" primary_drivers data (JArr []) []);
      [ reflexivity | exact H | ].
    now rewrite (primary_drivers_array _ _ H).
  + unfold fetch_constructor_standings, bind, fetch_from_f1api_dev.
    rewrite Hgw.
    rewrite (from_primary_some "standings" primary_teams data (JArr []) []);
      [ reflexivity | exact H | ].
    now rewrite (primary_teams_array _ _ H).
Qed.

Lemma primary_reads_first_ten_witness :
  fetch_driver_standings (rt := CPython.runtime) empty_standings clock_2025 []
  = (Ok [], [F1Api (StandingsDrivers 2025)])
  /\ fetch_constructor_standings (rt := CPython.runtime) empty_standings
       clock_2025 []
     = (Ok [], [F1Api (StandingsTeams 2025)])
  /\ primary_drivers (rt := CPython.runtime) [("standings", JArr [])]
     = primary_drivers (rt := CPython.runtime)
         [("standings", JArr (firstn 10 []))].
Proof.
split; [ | split ].
- apply (proj1 (proj2 (primary_reads_first_ten CPython.runtime)
                  empty_standings clock_2025 [] [("standings", JArr [])]
                  eq_refl)).
  reflexivity.
- apply (proj2 (proj2 (primary_reads_first_ten CPython.runtime)
                  empty_standings clock_2025 [] [("standings", JArr [])]
                  eq_refl)).
  reflexivity.
- apply (proj1 (proj1 (primary_reads_first_ten CPython.runtime)
                  [("standings", JArr [])] [] eq_refl)).
Defined.

(** ** Next year's opener *)

Lemma replace_char_append c by_ a b :
  Py.replace_char c by_ (a ++ b)
  = Py.replace_char c by_ a ++ Py.replace_char c by_ b.
Proof.
induction a as [| x a IH]; simpl; [ reflexivity | ].
rewrite IH. destruct (Ascii.eqb x c); [ | reflexivity ].
now rewrite string_append_assoc.
Qed.

Lemma replace_char_uint c by_ d :
  c = "T"%char \/ c = "Z"%char ->
  Py.replace_char c by_ (DecimalString.NilEmpty.string_of_uint d)
  = DecimalString.NilEmpty.string_of_uint d.
Proof.
intros [-> | ->]; induction d; simpl; congruence.
Qed.

(** The decimal numeral of an int holds no letter. *)
Lemma replace_char_str_of_Z c by_ n :
  c = "T"%char \/ c = "Z"%char ->
  Py.replace_char c by_ (Py.str_of_Z n) = Py.str_of_Z n.
Proof.
intro Hc. unfold Py.str_of_Z, NilZero.string_of_int.
destruct (Z.to_int n) as [d | d]; unfold NilZero.string_of_uint.
- destruct d; try (destruct Hc as [-> | ->]; reflexivity);
    apply (replace_char_uint c by_ _ Hc).
- assert (Hm : Ascii.eqb "-" c = false) by (destruct Hc as [-> | ->]; reflexivity).
  destruct d; cbn [Py.replace_char]; rewrite Hm; f_equal;
    try (destruct Hc as [-> | ->]; reflexivity);
    apply (replace_char_uint c by_ _ Hc).
Qed.

(** X12.  The third tier reports the first race of next year's list as it
    is, without comparing its date with now: the name, location and country
    are the strings under [race_name], [location] and [country], or
    "<next year> Season Opener", "TBD" and "TBD" where the field is absent;
    the date is the string under [date] with every "T" replaced by a blank
    and every "Z" by " UTC", and the countdown is computed from that string.
    For a first race without a date, the date reads
    "<next year>-03-01 15:00:00 UTC" for every year and the countdown runs
    to "<next year>-03-01T15:00:00Z". *)
Theorem next_year_first_race :
  forall (rt : Runtime) (clock : Clock) (next_year : Z)
         (data fields : list (string * json)) (rest : list json)
         (n l c s : string),
    Py.assoc "races" data = Some (JArr (JObj fields :: rest)) ->
    field_or fields "race_name"
      (JStr (Py.str_of_Z next_year ++ " Season Opener")) = JStr n ->
    field_or fields "location" (JStr "TBD") = JStr l ->
    field_or fields "country" (JStr "TBD") = JStr c ->
    field_or fields "date"
      (JStr (Py.str_of_Z next_year ++ "-03-01T15:00:00Z")) = JStr s ->
    tier3 clock next_year data
    = Ok (NextRace.mk n l c
            (Py.replace_char "Z" " UTC" (Py.replace_char "T" " " s))
            (calculate_time_left clock s))
    /\ (Py.assoc "date" fields = None ->
        s = Py.str_of_Z next_year ++ "-03-01T15:00:00Z"
        /\ Py.replace_char "Z" " UTC" (Py.replace_char "T" " " s)
           = Py.str_of_Z next_year ++ "-03-01 15:00:00 UTC").
Proof.
intros rt clock next_year data fields rest n l c s Hraces Hn Hl Hc Hs.
unfold field_or in Hn, Hl, Hc, Hs. split.
- unfold tier3. cbn [Py.getitem]. rewrite Hraces.
  cbn [rbind Py.first Py.get]. rewrite Hn, Hl, Hc, Hs.
  reflexivity.
- intro Hdate. rewrite Hdate in Hs. injection Hs as <-.
  split; [ reflexivity | ].
  rewrite !replace_char_append.
  rewrite !replace_char_str_of_Z by auto.
  reflexivity.
Qed.

(** X12 on two lists for 2026: a first race without a date, and a first
    race dated in the past, which is reported all the same. *)
Lemma next_year_first_race_witness :
  tier3 (rt := CPython.runtime) clock_2025 2026
    [("races", JArr [JObj [("race_name", JStr "Australian Grand Prix")]])]
  = Ok (NextRace.mk "Australian Grand Prix" "TBD" "TBD"
          "2026-03-01 15:00:00 UTC" "273 days, 3 hours")
  /\ tier3 (rt := CPython.runtime) clock_2025 2026
       [("races", JArr [JObj [("race_name", JStr "Australian Grand Prix");
                              ("date", JStr "2025-03-16T04:00:00Z")]])]
     = Ok (NextRace.mk "Australian Grand Prix" "TBD" "TBD"
             "2025-03-16 04:00:00 UTC" "Race completed").
Proof.
split.
- apply (proj1 (next_year_first_race CPython.runtime clock_2025 2026
                  [("races",
                    JArr [JObj [("race_name", JStr "Australian Grand Prix")]])]
                  [("race_name", JStr "Australian Grand Prix")] []
                  "Australian Grand Prix" "TBD" "TBD" "2026-03-01T15:00:00Z"
                  eq_refl eq_refl eq_refl eq_refl eq_refl)).
- apply (proj1 (next_year_first_race CPython.runtime clock_2025 2026
                  [("races",
                    JArr [JObj [("race_name", JStr "Australian Grand Prix");
                                ("date", JStr "2025-03-16T04:00:00Z")]])]
                  [("race_name", JStr "Australian Grand Prix");
                   ("date", JStr "2025-03-16T04:00:00Z")] []
                  "Australian Grand Prix" "TBD" "TBD" "2025-03-16T04:00:00Z"
                  eq_refl eq_refl eq_refl eq_refl eq_refl)).
Defined.

(** ** Where failure paths end *)

Section FailurePaths.
Context {rt : Runtime} (gw : Gateway) (clock : Clock).

(** Lines 169-256: the derivation returns the static fallback unless every
    session was processed without a fault. *)
Lemma calculate_standings_outcome log :
  outcome (calculate_standings_from_results gw clock) log
  = Ok get_fallback_standings
  \/ exists acc log1,
       sessions_loop gw (race_sessions gw clock log) ([], [])
         (log ++ session_calls gw clock log)%list
       = (Ok acc, log1)
       /\ outcome (calculate_standings_from_results gw clock) log
          = Ok (top_drivers (fst acc), top_teams (snd acc)).
Proof.
destruct (sessions_fetched gw clock log) as (sessions & E & Hitems & _).
cbv zeta in E.
assert (Hcalc : calculate_standings_from_results gw clock log
                = try_except
                    (if nothing sessions then ret get_fallback_standings
                     else
                       bind (sessions_loop gw (items sessions) ([], []))
                         (fun acc =>
                            ret (top_drivers (fst acc), top_teams (snd acc))))
                    (ret get_fallback_standings)
                    (log ++ session_calls gw clock log)%list).
{ unfold calculate_standings_from_results, try_except.
  rewrite <- bind_assoc. unfold bind at 1. rewrite E. reflexivity. }
unfold outcome. rewrite Hcalc, Hitems. clear Hcalc.
destruct (nothing sessions); [ now left | ].
unfold try_except, bind.
destruct (sessions_loop gw (race_sessions gw clock log) ([], []) _)
  as [[acc | e] log1] eqn:El; [ right; eauto | now left ].
Qed.

Lemma driver_standings_outcome log :
  (exists top_drivers,
      from_primary "standings" primary_drivers
        (f1api_dev gw log (StandingsDrivers (current_year clock)))
      = Some top_drivers
      /\ outcome (fetch_driver_standings gw clock) log = Ok top_drivers)
  \/ exists r,
       outcome (calculate_standings_from_results gw clock)
         (log ++ [F1Api (StandingsDrivers (current_year clock))])%list
       = Ok r
       /\ outcome (fetch_driver_standings gw clock) log = Ok (fst r).
Proof.
unfold outcome, fetch_driver_standings, bind, fetch_from_f1api_dev.
destruct (from_primary _ _ _) as [top |]; [ left; eauto | right ].
destruct (calculate_standings_returns gw clock
            (log ++ [F1Api (StandingsDrivers (current_year clock))])%list)
  as (r & log1 & ->).
exists r. split; reflexivity.
Qed.

Lemma constructor_standings_outcome log :
  (exists top_teams,
      from_primary "standings" primary_teams
        (f1api_dev gw log (StandingsTeams (current_year clock)))
      = Some top_teams
      /\ outcome (fetch_constructor_standings gw clock) log = Ok top_teams)
  \/ exists r,
       outcome (calculate_standings_from_results gw clock)
         (log ++ [F1Api (StandingsTeams (current_year clock))])%list
       = Ok r
       /\ outcome (fetch_constructor_standings gw clock) log = Ok (snd r).
Proof.
unfold outcome, fetch_constructor_standings, bind, fetch_from_f1api_dev.
destruct (from_primary _ _ _) as [top |]; [ left; eauto | right ].
destruct (calculate_standings_returns gw clock
            (log ++ [F1Api (StandingsTeams (current_year clock))])%list)
  as (r & log1 & ->).
exists r. split; reflexivity.
Qed.

Lemma from_primary_answer {A} key (read : list (string * json) -> result A)
    data a :
  from_primary key read data = Some a ->
  exists d, data = Some d /\ read d = Ok a.
Proof.
intro H. pose proof (from_primary_ok _ _ _ _ H) as Hr.
unfold from_primary in H. destruct data as [d |]; [ | discriminate ].
exists d. split; [ reflexivity | exact Hr ].
Qed.

Lemma second_tier_outcome log1 :
  exists o,
    second_tier gw clock log1
    = (Ok o, (log1 ++ [OpenF1 (Meetings (current_year clock))])%list)
    /\ (o = None
        \/ exists meetings r,
             o = Some r
             /\ openf1 gw log1 (Meetings (current_year clock)) = Some meetings
             /\ tier2 clock meetings = Ok (Some r)).
Proof.
unfold second_tier, try_except, bind, fetch_from_openf1, lift, ret.
destruct (openf1 gw log1 (Meetings (current_year clock)))
  as [[| m meetings] |] eqn:Em; cbn [nothing items]; eauto.
destruct (tier2 clock (m :: meetings)) as [[r |] | e] eqn:E2; eauto.
exists (Some r). split; [ reflexivity | ]. right. eauto.
Qed.

Lemma third_tier_outcome log2 :
  exists o,
    third_tier gw clock log2
    = (Ok o, (log2 ++ [F1Api (Season (current_year clock + 1))])%list)
    /\ (o = None
        \/ exists data r,
             o = Some r
             /\ f1api_dev gw log2 (Season (current_year clock + 1))
                = Some data
             /\ tier3 clock (current_year clock + 1) data = Ok r).
Proof.
unfold third_tier, try_except, bind, fetch_from_f1api_dev, ret.
destruct (from_primary "races" _ _) as [r |] eqn:E3; eauto.
destruct (from_primary_answer _ _ _ _ E3) as (d & Hd & Hr).
exists (Some r). split; [ reflexivity | ]. right. eauto.
Qed.

(** Lines 330-433: the record of the first tier that has one, else the
    season-break value; a fault in a tier only hands over to the next. *)
Lemma next_race_outcome log :
  let y := current_year clock in
  let log1 := (log ++ [F1Api (Season y)])%list in
  let log2 := (log1 ++ [OpenF1 (Meetings y)])%list in
  (exists data r,
      f1api_dev gw log (Season y) = Some data
      /\ tier1 clock data = Ok (Some r)
      /\ outcome (fetch_next_race gw clock) log = Ok r)
  \/ (exists meetings r,
         openf1 gw log1 (Meetings y) = Some meetings
         /\ tier2 clock meetings = Ok (Some r)
         /\ outcome (fetch_next_race gw clock) log = Ok r)
  \/ (exists data r,
         f1api_dev gw log2 (Season (y + 1)) = Some data
         /\ tier3 clock (y + 1) data = Ok r
         /\ outcome (fetch_next_race gw clock) log = Ok r)
  \/ outcome (fetch_next_race gw clock) log = Ok season_break.
Proof.
cbv zeta.
assert (Hrun : fetch_next_race gw clock log
               = match flatten
                         (from_primary "races" (tier1 clock)
                            (f1api_dev gw log (Season (current_year clock))))
                 with
                 | Some r =>
                     (Ok r, (log ++ [F1Api (Season (current_year clock))])%list)
                 | None =>
                     bind (second_tier gw clock)
                       (fun r2 =>
                          match r2 with
                          | Some r => ret r
                          | None =>
                              bind (third_tier gw clock)
                                (fun r3 =>
                                   match r3 with
                                   | Some r => ret r
                                   | None => ret season_break
                                   end)
                          end)
                       (log ++ [F1Api (Season (current_year clock))])%list
                 end).
{ unfold fetch_next_race, bind at 1, fetch_from_f1api_dev.
  now destruct (flatten _). }
unfold outcome. rewrite Hrun. clear Hrun.
destruct (flatten _) as [r |] eqn:E1.
- left. unfold flatten in E1.
  destruct (from_primary "races" (tier1 clock) _) as [o |] eqn:Ep;
    [ subst o | discriminate ].
  destruct (from_primary_answer _ _ _ _ Ep) as (d & Hd & Hr).
  exists d, r. auto.
- right. unfold bind.
  destruct (second_tier_outcome
              (log ++ [F1Api (Season (current_year clock))])%list)
    as (o2 & E2 & [-> | (meetings & r & -> & Hm & Ht)]); rewrite E2.
  + right.
    destruct (third_tier_outcome
                ((log ++ [F1Api (Season (current_year clock))])
                 ++ [OpenF1 (Meetings (current_year clock))])%list)
      as (o3 & E3 & [-> | (data & r & -> & Hd & Ht)]); rewrite E3.
    * now right.
    * left. exists data, r. auto.
  + left. exists meetings, r. auto.
Qed.

(** Both providers down: every resolver returns its static value. *)
Lemma unavailable_outcomes log :
  (forall log e, f1api_dev gw log e = None) ->
  (forall log e, openf1 gw log e = None) ->
  outcome (fetch_driver_standings gw clock) log
  = Ok (fst get_fallback_standings)
  /\ outcome (fetch_constructor_standings gw clock) log
     = Ok (snd get_fallback_standings)
  /\ outcome (fetch_next_race gw clock) log = Ok season_break
  /\ outcome (fetch_fastest_lap gw clock) log = Ok get_fallback_fastest_lap.
Proof.
intros Hf Ho.
assert (Hcalc : forall log0,
           calculate_standings_from_results gw clock log0
           = (Ok get_fallback_standings,
              ((log0 ++ [OpenF1 (Sessions (current_year clock))])
               ++ [OpenF1 (Sessions (current_year clock - 1))])%list)).
{ intro log0.
  unfold calculate_standings_from_results, try_except, bind,
    fetch_from_openf1.
  rewrite Ho. cbn [nothing]. rewrite Ho. reflexivity. }
repeat split.
- unfold outcome, fetch_driver_standings, bind, fetch_from_f1api_dev.
  rewrite Hf. cbn [from_primary nothing]. now rewrite Hcalc.
- unfold outcome, fetch_constructor_standings, bind, fetch_from_f1api_dev.
  rewrite Hf. cbn [from_primary nothing]. now rewrite Hcalc.
- unfold outcome, fetch_next_race, second_tier, third_tier, try_except,
    bind, fetch_from_f1api_dev, fetch_from_openf1.
  rewrite Hf. cbn [from_primary nothing flatten]. rewrite Ho.
  cbn [nothing ret]. rewrite Hf. reflexivity.
- exact (proj1 (fastest_lap_outcomes gw clock log)).
Qed.

End FailurePaths.

(** C6, counterexample.  f1api.dev is down and OpenF1 lists a race session
    but has no position data for it: the standings resolvers return the
    empty list, not the static fallback standings. *)
Lemma missing_positions_give_empty_standings :
  calls (fetch_driver_standings (rt := CPython.runtime) (one_race [])
           clock_2025) []
  = [F1Api (StandingsDrivers 2025); OpenF1 (Sessions 2025);
     OpenF1 (Position (JInt 9693))]
  /\ openf1 (one_race [])
       [F1Api (StandingsDrivers 2025); OpenF1 (Sessions 2025)]
       (Position (JInt 9693)) = None
  /\ outcome (fetch_driver_standings (rt := CPython.runtime) (one_race [])
                clock_2025) [] = Ok []
  /\ outcome (fetch_constructor_standings (rt := CPython.runtime)
                (one_race []) clock_2025) [] = Ok []
  /\ fst get_fallback_standings <> []
  /\ snd get_fallback_standings <> [].
Proof. repeat split; try reflexivity; discriminate. Qed.

(** C6, as amended.  Each of the four resolvers returns a value to its
    caller, whatever the providers answer, whatever calls came before and
    whatever the time.  With both providers down each returns its static
    fallback value.  A fault inside a resolver never escapes and ends in a
    later tier or in the static value: the standings derivation returns the
    static fallback standings unless every session was processed without a
    fault; a standings resolver returns the list read from the primary
    answer or else its half of the derivation's result; the next-race
    resolver returns the record of one of its three tiers or else the
    season-break value; the fastest-lap resolver returns the static fallback
    record. *)
Theorem resolvers_always_return :
  forall (rt : Runtime) (gw : Gateway) (clock : Clock),
    (returns (fetch_driver_standings gw clock)
     /\ returns (fetch_constructor_standings gw clock)
     /\ returns (fetch_next_race gw clock)
     /\ returns (fetch_fastest_lap gw clock))
    /\ ((forall log e, f1api_dev gw log e = None) ->
        (forall log e, openf1 gw log e = None) ->
        forall log,
          outcome (fetch_driver_standings gw clock) log
          = Ok (fst get_fallback_standings)
          /\ outcome (fetch_constructor_standings gw clock) log
             = Ok (snd get_fallback_standings)
          /\ outcome (fetch_next_race gw clock) log = Ok season_break
          /\ outcome (fetch_fastest_lap gw clock) log
             = Ok get_fallback_fastest_lap)
    /\ (forall log,
          outcome (calculate_standings_from_results gw clock) log
          = Ok get_fallback_standings
          \/ exists acc log1,
               sessions_loop gw (race_sessions gw clock log) ([], [])
                 (log ++ session_calls gw clock log)%list
               = (Ok acc, log1)
               /\ outcome (calculate_standings_from_results gw clock) log
                  = Ok (top_drivers (fst acc), top_teams (snd acc)))
    /\ (forall log,
          (exists top_drivers,
              from_primary "standings" primary_drivers
                (f1api_dev gw log (StandingsDrivers (current_year clock)))
              = Some top_drivers
              /\ outcome (fetch_driver_standings gw clock) log
                 = Ok top_drivers)
          \/ exists r,
               outcome (calculate_standings_from_results gw clock)
                 (log ++ [F1Api (StandingsDrivers (current_year clock))])%list
               = Ok r
               /\ outcome (fetch_driver_standings gw clock) log = Ok (fst r))
    /\ (forall log,
          (exists top_teams,
              from_primary "standings" primary_teams
                (f1api_dev gw log (StandingsTeams (current_year clock)))
              = Some top_teams
              /\ outcome (fetch_constructor_standings gw clock) log
                 = Ok top_teams)
          \/ exists r,
               outcome (calculate_standings_from_results gw clock)
                 (log ++ [F1Api (StandingsTeams (current_year clock))])%list
               = Ok r
               /\ outcome (fetch_constructor_standings gw clock) log
                  = Ok (snd r))
    /\ (forall log,
          let y := current_year clock in
          let log1 := (log ++ [F1Api (Season y)])%list in
          let log2 := (log1 ++ [OpenF1 (Meetings y)])%list in
          (exists data r,
              f1api_dev gw log (Season y) = Some data
              /\ tier1 clock data = Ok (Some r)
              /\ outcome (fetch_next_race gw clock) log = Ok r)
          \/ (exists meetings r,
                 openf1 gw log1 (Meetings y) = Some meetings
                 /\ tier2 clock meetings = Ok (Some r)
                 /\ outcome (fetch_next_race gw clock) log = Ok r)
          \/ (exists data r,
                 f1api_dev gw log2 (Season (y + 1)) = Some data
                 /\ tier3 clock (y + 1) data = Ok r
                 /\ outcome (fetch_next_race gw clock) log = Ok r)
          \/ outcome (fetch_next_race gw clock) log = Ok season_break)
    /\ (forall log,
          outcome (fetch_fastest_lap gw clock) log
          = Ok get_fallback_fastest_lap).
Proof.
intros rt gw clock.
split; [ | split; [ | split; [ | split; [ | split; [ | split ] ] ] ] ].
- repeat split.
  + apply fetch_driver_standings_returns.
  + apply fetch_constructor_standings_returns.
  + apply fetch_next_race_returns.
  + apply fetch_fastest_lap_returns.
- intros Hf Ho log. now apply unavailable_outcomes.
- apply calculate_standings_outcome.
- apply driver_standings_outcome.
- apply constructor_standings_outcome.
- apply next_race_outcome.
- intro log. exact (proj1 (fastest_lap_outcomes gw clock log)).
Qed.

(** C6 with both providers down. *)
Lemma resolvers_always_return_witness :
  outcome (fetch_driver_standings (rt := CPython.runtime) unavailable
             clock_2025) []
  = Ok (fst get_fallback_standings)
  /\ outcome (fetch_constructor_standings (rt := CPython.runtime) unavailable
                clock_2025) []
     = Ok (snd get_fallback_standings)
  /\ outcome (fetch_next_race (rt := CPython.runtime) unavailable clock_2025)
       [] = Ok season_break
  /\ outcome (fetch_fastest_lap (rt := CPython.runtime) unavailable
                clock_2025) []
     = Ok get_fallback_fastest_lap.
Proof.
apply (proj1 (proj2 (resolvers_always_return CPython.runtime unavailable
                       clock_2025))).
- reflexivity.
- reflexivity.
Defined.

(** ** The final positions of a session *)





